(** * Banking demo: validators, session expiry and the account service

    A shallow embedding of the funding form validators
    ([src/components/FundingModal.tsx]), of the account router
    ([createAccount], [fundAccount], [getTransactions]) and of the
    session-expiry comparison exercised by the test suite, together with
    the properties the specification states about them.

    Conventions.
    - A JavaScript [number] is an IEEE-754 binary64 value, modelled by
      [spec_float] with precision 53 and maximal exponent 1024.
    - A JavaScript string is a [string] of 8-bit code units.
    - A regular expression literal is a value of [regex]; [RegExp.test]
      is matching by derivatives.
    - The database handle [db] is an instance of the class [Persistence];
      the router code is written once against the class. *)

From Stdlib Require Import ZArith List Bool Lia.
From Stdlib Require Import Strings.Ascii Strings.String.
From Stdlib Require Import Floats.SpecFloat.
From Stdlib Require Import QArith.
From Stdlib Require Import Sorting.Permutation Sorting.Sorted.
Import ListNotations.

Set Implicit Arguments.
Open Scope string_scope.
Open Scope Z_scope.

(* ================================================================== *)
(** * Part I. Definitions                                              *)
(* ================================================================== *)

(** ** JavaScript numbers *)

Module JsNumber.

Definition number : Type := spec_float.

Definition prec : Z := 53.
Definition emax : Z := 1024.

Definition NaN : number := S754_nan.

(** The binary64 value nearest to [n / d] (ties to even), sign [s]. *)
Definition ofRatio (s : bool) (n d : positive) : number :=
  SFdiv prec emax (S754_finite s n 0) (S754_finite false d 0).

(** An integer literal such as [0] or [10000]. *)
Definition ofZ (z : Z) : number :=
  match z with
  | Z0 => S754_zero false
  | Zpos p => ofRatio false p 1
  | Zneg p => ofRatio true p 1
  end.

(** [x + y] *)
Definition add (x y : number) : number := SFadd prec emax x y.

(** [x > y] and [x <= y]: every comparison with NaN is false.  The
    numbers compared are results of [parseFloat], [ofZ] and [add], which
    are in canonical form, as [SFcompare] expects. *)
Definition gt (x y : number) : bool :=
  match SFcompare x y with Some Gt => true | _ => false end.

Definition le (x y : number) : bool :=
  match SFcompare x y with Some Lt | Some Eq => true | _ => false end.

(** The exact rational value of a finite number. *)
Definition toQ (x : number) : option Q :=
  match x with
  | S754_zero _ => Some (0 # 1)%Q
  | S754_finite s m e =>
      let mz := if s then Zneg m else Zpos m in
      Some (match e with
            | Z0 => mz # 1
            | Zpos p => (mz * 2 ^ Zpos p) # 1
            | Zneg p => mz # (2 ^ p)
            end)%Q
  | _ => None
  end.

(** Whether [r] is the sum of [x] and [y] as rational numbers, with no
    rounding. *)
Definition isExactSum (r x y : number) : bool :=
  match toQ r, toQ x, toQ y with
  | Some qr, Some qx, Some qy => Qeq_bool qr (qx + qy)
  | _, _, _ => false
  end.

End JsNumber.

(** ** Characters and strings *)

Module JsString.

Definition isDigit (c : ascii) : bool :=
  let n := nat_of_ascii c in (48 <=? n)%nat && (n <=? 57)%nat.

(** [parseInt(c, 10)] of a one-digit string. *)
Definition digitValue (c : ascii) : Z := Z.of_nat (nat_of_ascii c) - 48.

(** The character of a decimal digit [0..9]. *)
Definition digitChar (d : Z) : ascii := ascii_of_nat (Z.to_nat (d + 48)).

Definition chars (s : string) : list ascii := list_ascii_of_string s.

(** [s.replace(/\D/g, '')]: the digits of [s], in order. *)
Fixpoint stripNonDigits (s : string) : string :=
  match s with
  | EmptyString => EmptyString
  | String c s' =>
      if isDigit c then String c (stripNonDigits s') else stripNonDigits s'
  end.

Fixpoint allDigits (s : string) : bool :=
  match s with
  | EmptyString => true
  | String c s' => isDigit c && allDigits s'
  end.

(** StrWhiteSpaceChar restricted to 8-bit code units. *)
Definition isWhiteSpace (c : ascii) : bool :=
  let n := nat_of_ascii c in
  ((9 <=? n)%nat && (n <=? 13)%nat) || (n =? 32)%nat || (n =? 160)%nat.

Fixpoint trimStart (s : string) : string :=
  match s with
  | String c s' => if isWhiteSpace c then trimStart s' else s
  | EmptyString => EmptyString
  end.

(** Longest prefix of decimal digits, and the rest. *)
Fixpoint spanDigits (s : string) : string * string :=
  match s with
  | String c s' =>
      if isDigit c then let (d, r) := spanDigits s' in (String c d, r)
      else (EmptyString, s)
  | EmptyString => (EmptyString, EmptyString)
  end.

(** Value of a string of decimal digits, most significant first. *)
Fixpoint digitsValueFrom (acc : Z) (s : string) : Z :=
  match s with
  | EmptyString => acc
  | String c s' => digitsValueFrom (10 * acc + digitValue c) s'
  end.

Definition digitsValue (s : string) : Z := digitsValueFrom 0 s.

End JsString.

(** ** parseFloat *)

Module JsParse.
Import JsNumber JsString.

(** The optional ExponentPart: [e] or [E], an optional sign and at least
    one digit; when there is no digit the exponent is not consumed. *)
Definition exponentPart (s : string) : Z :=
  match s with
  | String c s1 =>
      if (Ascii.eqb c "e" || Ascii.eqb c "E")%bool then
        let (neg, s2) :=
          match s1 with
          | String "-"%char r => (true, r)
          | String "+"%char r => (false, r)
          | _ => (false, s1)
          end in
        let (ds, _) := spanDigits s2 in
        match ds with
        | EmptyString => 0
        | _ => if neg then - digitsValue ds else digitsValue ds
        end
      else 0
  | EmptyString => 0
  end.

(** [m * 10^x] with sign [neg], rounded once to binary64. *)
Definition scaled (neg : bool) (m x : Z) : number :=
  match m with
  | Zpos p =>
      match x with
      | Z0 => ofRatio neg p 1
      | Zpos k => ofRatio neg (p * 10 ^ k)%positive 1
      | Zneg k => ofRatio neg p (10 ^ k)%positive
      end
  | _ => S754_zero neg
  end.

(** [parseFloat(s)]: leading white space is skipped, then the longest
    prefix that is a StrDecimalLiteral is read; NaN when there is none. *)
Definition parseFloat (s : string) : number :=
  let s0 := trimStart s in
  let (neg, s1) :=
    match s0 with
    | String "-"%char r => (true, r)
    | String "+"%char r => (false, r)
    | _ => (false, s0)
    end in
  if String.prefix "Infinity" s1 then S754_infinity neg
  else
    let (ip, r1) := spanDigits s1 in
    let (fp, r2) :=
      match r1 with
      | String "."%char r => spanDigits r
      | _ => (EmptyString, r1)
      end in
    match ip, fp with
    | EmptyString, EmptyString => NaN
    | _, _ =>
        let k := Z.of_nat (String.length fp) in
        scaled neg (digitsValue (ip ++ fp)) (exponentPart r2 - k)
    end.

End JsParse.

(** ** Regular expressions *)

Module Regex.
Import JsString.

(** The fragment of the regular expression syntax the sources use. *)
Inductive regex : Type :=
| Fail : regex                          (* matches nothing *)
| Eps : regex                           (* the empty string *)
| Cls : (ascii -> bool) -> regex        (* one character of a class *)
| Seq : regex -> regex -> regex
| Alt : regex -> regex -> regex
| Star : regex -> regex.

(** A literal character, [a-b], [\d], [\D]. *)
Definition chr (c : ascii) : regex := Cls (Ascii.eqb c).

Definition range (lo hi : ascii) : regex :=
  Cls (fun c => (nat_of_ascii lo <=? nat_of_ascii c)%nat
                && (nat_of_ascii c <=? nat_of_ascii hi)%nat).

Definition digit : regex := Cls isDigit.

(** A literal word such as [6011]. *)
Fixpoint lit (s : string) : regex :=
  match s with
  | EmptyString => Eps
  | String c s' => Seq (chr c) (lit s')
  end.

(** [r?] *)
Definition opt (r : regex) : regex := Alt Eps r.

(** [r{n}] *)
Fixpoint rep (n : nat) (r : regex) : regex :=
  match n with
  | O => Eps
  | S n' => Seq r (rep n' r)
  end.

(** [r{0,n}] *)
Fixpoint upto (n : nat) (r : regex) : regex :=
  match n with
  | O => Eps
  | S n' => opt (Seq r (upto n' r))
  end.

Fixpoint nullable (r : regex) : bool :=
  match r with
  | Fail => false
  | Eps => true
  | Cls _ => false
  | Seq a b => nullable a && nullable b
  | Alt a b => nullable a || nullable b
  | Star _ => true
  end.

(** The derivative of [r] by the character [c]. *)
Fixpoint deriv (c : ascii) (r : regex) : regex :=
  match r with
  | Fail => Fail
  | Eps => Fail
  | Cls f => if f c then Eps else Fail
  | Seq a b =>
      if nullable a then Alt (Seq (deriv c a) b) (deriv c b)
      else Seq (deriv c a) b
  | Alt a b => Alt (deriv c a) (deriv c b)
  | Star a => Seq (deriv c a) (Star a)
  end.

(** [/^r$/.test(s)] *)
Fixpoint matches (r : regex) (s : string) : bool :=
  match s with
  | EmptyString => nullable r
  | String c s' => matches (deriv c r) s'
  end.

(** [/^r/.test(s)]: some prefix of [s] matches [r]. *)
Fixpoint matchesPrefix (r : regex) (s : string) : bool :=
  nullable r ||
  match s with
  | EmptyString => false
  | String c s' => matchesPrefix (deriv c r) s'
  end.

(** A regular expression that syntactically matches no string. *)
Fixpoint dead (r : regex) : bool :=
  match r with
  | Fail => true
  | Seq a b => dead a || dead b
  | Alt a b => dead a && dead b
  | _ => false
  end.

End Regex.

(** ** Form field validation (react-hook-form) *)

(** The form hands its rules to the library through [register]; what
    follows is the part of the library's field validation the rules of the
    funding form use. *)

Module HookForm.
Import Regex.

(** A field value: [None] is [undefined]. *)
Definition value : Type := option string.

(** [String(v)] *)
Definition toStr (v : value) : string :=
  match v with Some s => s | None => "undefined" end.

(** [!v]: [undefined] and the empty string are falsy. *)
Definition falsy (v : value) : bool :=
  match v with
  | None => true
  | Some EmptyString => true
  | Some _ => false
  end.

(** The result of one [validate] function: [None] is [true] (the value
    passes), [Some msg] is the error message it returns. *)
Definition verdict : Type := option string.

(** The options given to [register]: a [required] message, a [pattern]
    with its message, and the [validate] functions in key order. *)
Record rules : Type := {
  required : option string;
  pattern : option (regex * string);
  validate : list (value -> verdict)
}.

(** The first message among the [validate] functions, in key order. *)
Fixpoint firstVerdict (fs : list (value -> verdict)) (v : value) : verdict :=
  match fs with
  | [] => None
  | f :: fs' =>
      match f v with
      | Some msg => Some msg
      | None => firstVerdict fs' v
      end
  end.

(** The error the form shows for a field ([errors.field.message]) with the
    default criteria mode: [required] is checked first, then [pattern] on
    a non-empty value, then the [validate] functions; the first failure
    is the one reported.  [None]: the field is accepted. *)
Definition fieldError (r : rules) (v : value) : verdict :=
  match required r, falsy v with
  | Some msg, true => Some msg
  | _, empty =>
      match pattern r, empty with
      | Some (re, msg), false =>
          if matches re (toStr v) then firstVerdict (validate r) v
          else Some msg
      | _, _ => firstVerdict (validate r) v
      end
  end.

End HookForm.

(** ** The funding form: [src/components/FundingModal.tsx] *)

Module FundingModal.
Import JsNumber JsString JsParse Regex HookForm.

Inductive FundingType : Type := card | bank.

Definition FundingType_eqb (a b : FundingType) : bool :=
  match a, b with
  | card, card | bank, bank => true
  | _, _ => false
  end.

(** The body of the [for] loop of [validateCardNumber], run over the
    digits from the last one to the first one. *)
Fixpoint luhnLoop (ds : list ascii) (isEven : bool) (sum : Z) : Z :=
  match ds with
  | [] => sum
  | c :: rest =>
      let digit := digitValue c in
      let digit :=
        if isEven then
          let doubled := digit * 2 in
          if doubled >? 9 then doubled - 9 else doubled
        else digit in
      luhnLoop rest (negb isEven) (sum + digit)
  end.

(** The checksum accumulated over a string of digits. *)
Definition luhnSum (digits : string) : Z :=
  luhnLoop (rev (chars digits)) false 0.

Definition validateCardNumber (cardNumber : string) : bool :=
  let digits := stripNonDigits cardNumber in
  if negb (String.length digits =? 16)%nat then false
  else luhnSum digits mod 10 =? 0.

(** Modelled from the spec: the check digit "computed by the same
    algorithm" (the sources have no function for it).  It is the digit
    that brings the checksum to a multiple of 10: the checksum is taken
    with [0] in the last place, and the check digit is what is missing to
    the next multiple of 10. *)
Definition checkDigit (payload : string) : ascii :=
  digitChar ((10 - luhnSum (payload ++ "0") mod 10) mod 10).

Definition appendCheckDigit (payload : string) : string :=
  (payload ++ String (checkDigit payload) EmptyString)%string.

(** [[47]] *)
Definition oneOf47 : regex := Alt (chr "4") (chr "7").

Definition reVisa : regex := chr "4".

Definition reMastercard5 : regex := Seq (chr "5") (range "1" "5").

Definition reMastercard2 : regex :=
  Seq (chr "2")
    (Alt (Seq (lit "22") (range "1" "9"))
    (Alt (Seq (chr "2") (Seq (range "3" "9") (range "0" "9")))
    (Alt (Seq (range "3" "6") (rep 2 (range "0" "9")))
    (Alt (Seq (chr "7") (Seq (range "0" "1") (range "0" "9")))
         (lit "720"))))).

Definition reAmex : regex := Seq (chr "3") oneOf47.

Definition reDiscover : regex :=
  Alt (lit "6011")
  (Alt (lit "65")
  (Alt (Seq (lit "64") (range "4" "9"))
       (lit "622"))).

Definition reDiners : regex :=
  Alt (Seq (lit "30") (range "0" "5")) (Alt (lit "36") (lit "38")).

Definition reJCB : regex :=
  Seq (lit "35")
    (Alt (Seq (chr "2") (Alt (chr "8") (chr "9")))
         (Seq (range "3" "8") (range "0" "9"))).

Definition detectCardType (cardNumber : string) : option string :=
  let digits := stripNonDigits cardNumber in
  if matchesPrefix reVisa digits then Some "Visa"
  else if matchesPrefix reMastercard5 digits
          || matchesPrefix reMastercard2 digits then Some "Mastercard"
  else if matchesPrefix reAmex digits then Some "American Express"
  else if matchesPrefix reDiscover digits then Some "Discover"
  else if matchesPrefix reDiners digits then Some "Diners Club"
  else if matchesPrefix reJCB digits then Some "JCB"
  else None.

(** The results [detectCardType] can give. *)
Definition networkLabels : list (option string) :=
  [None; Some "Visa"; Some "Mastercard"; Some "American Express";
   Some "Discover"; Some "Diners Club"; Some "JCB"].

(** *** The amount field *)

(** The [pattern] of the amount input: [0] or a number that starts with
    [1-9] and goes on with any digits, then optionally a point followed by
    at most two digits; anchored at both ends. *)
Definition amountPattern : regex :=
  Seq (Alt (chr "0") (Seq (range "1" "9") (Star digit)))
      (opt (Seq (chr ".") (upto 2 digit))).

Definition minAmount (v : value) : verdict :=
  let amount := parseFloat (toStr v) in
  if gt amount (ofZ 0) then None
  else Some "Amount must be greater than $0.00".

Definition maxAmount (v : value) : verdict :=
  let amount := parseFloat (toStr v) in
  if le amount (ofZ 10000) then None
  else Some "Amount cannot exceed $10,000".

(** [/^0\d/] *)
Definition leadingZero : regex := Seq (chr "0") digit.

Definition noLeadingZeros (v : value) : verdict :=
  if negb (matchesPrefix leadingZero (toStr v)) then None
  else Some "Amount cannot have leading zeros".

Definition amountRules : rules := {|
  required := Some "Amount is required";
  pattern := Some (amountPattern, "Invalid amount format (no leading zeros)");
  validate := [minAmount; maxAmount; noLeadingZeros]
|}.

(** *** The account (or card) number field *)

Definition validCard (fundingType : FundingType) (v : value) : verdict :=
  if negb (FundingType_eqb fundingType card) then None
  else
    match detectCardType (toStr v) with
    | None => Some "Card number is not recognized as a valid card type"
    | Some _ =>
        if negb (validateCardNumber (toStr v))
        then Some "Invalid card number (failed checksum validation)"
        else None
    end.

Definition accountNumberRules (fundingType : FundingType) : rules := {|
  required :=
    Some ((if FundingType_eqb fundingType card then "Card" else "Account")
            ++ " number is required");
  pattern :=
    Some (if FundingType_eqb fundingType card
          then (rep 16 digit, "Card number must be 16 digits")
          else (Seq digit (Star digit), "Invalid account number"));
  validate := [validCard fundingType]
|}.

(** *** The routing number field *)

Definition notAllZeros (v : value) : verdict :=
  if falsy v then None
  else if negb (String.eqb (toStr v) "000000000") then None
  else Some "Invalid routing number".

Definition routingNumberRules (fundingType : FundingType) : rules := {|
  required :=
    if FundingType_eqb fundingType bank
    then Some "Routing number is required for bank transfers"
    else None;
  pattern := Some (rep 9 digit, "Routing number must be exactly 9 digits");
  validate := [notAllZeros]
|}.

(** The values of the form. *)
Record FundingFormData : Type := {
  amount : value;
  fundingType : FundingType;
  accountNumber : value;
  routingNumber : value
}.

(** The error shown for the routing number input; the input is rendered,
    and so registered, only when the funding type is [bank]. *)
Definition routingNumberError (data : FundingFormData) : verdict :=
  match fundingType data with
  | bank => fieldError (routingNumberRules bank) (routingNumber data)
  | card => None
  end.

(** [handleSubmit] calls [onSubmit] only when no field has an error. *)
Definition formAccepts (data : FundingFormData) : bool :=
  match fieldError amountRules (amount data),
        fieldError (accountNumberRules (fundingType data)) (accountNumber data),
        routingNumberError data with
  | None, None, None => true
  | _, _, _ => false
  end.

End FundingModal.

(** ** Session expiry: [src/__tests__/auth-session.test.ts] and
    [src/__tests__/security.test.ts] *)

Module Session.

(** A [Date] compared with [>=] or [<=] is compared by its time value, the
    number of milliseconds since the epoch. *)
Definition Date : Type := Z.

Record Session : Type := {
  token : string;
  userId : Z;
  expiresAt : Date
}.

(** [const isValid = expiresAt >= now] in the suite "Session Expiry
    Logic". *)
Definition isValid (expiresAt now : Date) : bool := expiresAt >=? now.

(** [const isExpiredOrAtExpiry = expiresAt <= now] in the suite of the
    security tests. *)
Definition isExpiredOrAtExpiry (expiresAt now : Date) : bool :=
  expiresAt <=? now.

(** [new Date('2026-02-19T10:00:00Z')] and one second later. *)
Definition t_2026_02_19_10_00_00 : Date := 1771495200000.
Definition t_2026_02_19_10_00_01 : Date := 1771495201000.

End Session.

(** ** The tables *)

Inductive AccountType : Type := checking | savings.

Definition AccountType_eqb (a b : AccountType) : bool :=
  match a, b with
  | checking, checking | savings, savings => true
  | _, _ => false
  end.

(** The string of an account type, as it appears in messages. *)
Definition accountTypeName (t : AccountType) : string :=
  match t with checking => "checking" | savings => "savings" end.

(** Modelled from the spec: the schema module [@/lib/db/schema] is not
    among the sources; the columns are those the router and the tests
    read and write, with the creation time a time value. *)
Module Account.
Record t : Type := {
  id : Z;
  userId : Z;
  accountNumber : string;
  accountType : AccountType;
  balance : JsNumber.number;
  status : string;
  createdAt : Z
}.
End Account.

Module Transaction.
Record t : Type := {
  id : Z;
  accountId : Z;
  type : string;
  amount : JsNumber.number;
  description : string;
  status : string;
  createdAt : Z;
  processedAt : option Z
}.
End Transaction.

(** The argument of [db.insert(accounts).values(...)]. *)
Record NewAccount : Type := {
  na_userId : Z;
  na_accountNumber : string;
  na_accountType : AccountType;
  na_balance : JsNumber.number;
  na_status : string
}.

(** The argument of [db.insert(transactions).values(...)]. *)
Record NewTransaction : Type := {
  nt_accountId : Z;
  nt_type : string;
  nt_amount : JsNumber.number;
  nt_description : string;
  nt_status : string;
  nt_processedAt : option Z
}.

(** The conditions the router passes to [where]: [eq] on a column and
    [and]. *)
Inductive AccountCond : Type :=
| AccIdEq (i : Z)
| AccUserIdEq (u : Z)
| AccTypeEq (ty : AccountType)
| AccNumberEq (n : string)
| AccAnd (a b : AccountCond).

Inductive TransactionCond : Type :=
| TxAccountIdEq (i : Z).

(** [orderBy(desc(transactions.createdAt))] or no [orderBy]. *)
Inductive Order : Type := Unordered | DescCreatedAt.

Inductive DbError : Type :=
| UniqueViolation (column : string)
| WriteFailed (reason : string).

(** ** The persistence collaborator *)

(** What the router asks of [db]: selections are functions of the stored
    state, writes give a new state and may raise. *)
Class Persistence (St : Type) : Type := {
  selectAccounts : St -> AccountCond -> list Account.t;
  insertAccount : St -> NewAccount -> St * option DbError;
  updateAccountBalance :
    St -> AccountCond -> JsNumber.number -> St * option DbError;
  selectTransactions :
    St -> TransactionCond -> Order -> option nat -> list Transaction.t;
  insertTransaction : St -> NewTransaction -> St * option DbError
}.

(** ** The effects of a procedure *)

Inductive TRPCCode : Type :=
| CONFLICT | NOT_FOUND | BAD_REQUEST | INTERNAL_SERVER_ERROR.

Inductive Exn : Type :=
| TRPCError (code : TRPCCode) (message : string)
| DbException (e : DbError)
(* the input does not parse against the schema given to [.input] *)
| InputError.

Inductive Outcome (A : Type) : Type :=
| Ok (a : A)
| Throw (e : Exn)
| OutOfFuel.

Arguments Ok {A} a.
Arguments Throw {A} e.
Arguments OutOfFuel {A}.

(** What a procedure did with [db], in order, with what came back. *)
Inductive Event : Type :=
| EvSelectAccounts (c : AccountCond) (rows : list Account.t)
| EvInsertAccount (v : NewAccount) (err : option DbError)
| EvUpdateBalance (c : AccountCond) (b : JsNumber.number) (err : option DbError)
| EvSelectTransactions (c : TransactionCond) (o : Order) (limit : option nat)
                       (rows : list Transaction.t)
| EvInsertTransaction (v : NewTransaction) (err : option DbError).

(** The world a procedure runs in: the stored state, the log of the
    events so far, the hashes [bcrypt.hash] is going to return with the
    number of those already drawn, and the clock. *)
Record World (St : Type) : Type := {
  db : St;
  events : list Event;
  hashes : nat -> string;
  drawn : nat;
  now : Z
}.

Definition M (St A : Type) : Type := World St -> Outcome A * World St.

Definition ret {St A} (a : A) : M St A := fun w => (Ok a, w).

Definition throw {St A} (e : Exn) : M St A := fun w => (Throw e, w).

Definition outOfFuel {St A} : M St A := fun w => (OutOfFuel, w).

Definition bind {St A B} (m : M St A) (k : A -> M St B) : M St B :=
  fun w =>
    match m w with
    | (Ok a, w') => k a w'
    | (Throw e, w') => (Throw e, w')
    | (OutOfFuel, w') => (OutOfFuel, w')
    end.

Declare Scope proc_scope.
Delimit Scope proc_scope with proc.
Notation "x <- m ;; k" := (bind m (fun x => k))
  (at level 100, m at next level, right associativity) : proc_scope.
Notation "m ;;; k" := (bind m (fun _ => k))
  (at level 100, right associativity) : proc_scope.

Definition logged {St} (e : Event) (st : St) (w : World St) : World St :=
  {| db := st; events := events w ++ [e]; hashes := hashes w;
     drawn := drawn w; now := now w |}.

(** The last thing done with [db], if any. *)
Definition lastEvent {St} (w : World St) : option Event :=
  hd_error (rev (events w)).

Section Queries.
Context {St : Type} `{Persistence St}.

(** [await db.select().from(accounts).where(c)] *)
Definition dbSelectAccounts (c : AccountCond) : M St (list Account.t) :=
  fun w =>
    let rows := selectAccounts (db w) c in
    (Ok rows, logged (EvSelectAccounts c rows) (db w) w).

(** [await db.select().from(accounts).where(c).get()] *)
Definition dbGetAccount (c : AccountCond) : M St (option Account.t) :=
  (rows <- dbSelectAccounts c ;; ret (hd_error rows))%proc.

(** [await db.insert(accounts).values(v)] *)
Definition dbInsertAccount (v : NewAccount) : M St unit :=
  fun w =>
    let (st, err) := insertAccount (db w) v in
    let w' := logged (EvInsertAccount v err) st w in
    match err with
    | None => (Ok tt, w')
    | Some e => (Throw (DbException e), w')
    end.

(** [await db.update(accounts).set({ balance: b }).where(c)] *)
Definition dbUpdateBalance (c : AccountCond) (b : JsNumber.number)
  : M St unit :=
  fun w =>
    let (st, err) := updateAccountBalance (db w) c b in
    let w' := logged (EvUpdateBalance c b err) st w in
    match err with
    | None => (Ok tt, w')
    | Some e => (Throw (DbException e), w')
    end.

(** [await db.select().from(transactions).where(c).orderBy(o)], with
    [.limit(n)] when [limit] is [Some n]. *)
Definition dbSelectTransactions (c : TransactionCond) (o : Order)
  (limit : option nat) : M St (list Transaction.t) :=
  fun w =>
    let rows := selectTransactions (db w) c o limit in
    (Ok rows, logged (EvSelectTransactions c o limit rows) (db w) w).

(** [await db.insert(transactions).values(v)] *)
Definition dbInsertTransaction (v : NewTransaction) : M St unit :=
  fun w =>
    let (st, err) := insertTransaction (db w) v in
    let w' := logged (EvInsertTransaction v err) st w in
    match err with
    | None => (Ok tt, w')
    | Some e => (Throw (DbException e), w')
    end.

(** [await bcrypt.hash(input, 10)]: the next hash of the world. *)
Definition bcryptHash : M St string :=
  fun w =>
    (Ok (hashes w (drawn w)),
     {| db := db w; events := events w; hashes := hashes w;
        drawn := S (drawn w); now := now w |}).

(** [new Date()] as a time value. *)
Definition dateNow : M St Z := fun w => (Ok (now w), w).

End Queries.

(** ** The account router: [src/unnamed/part_001] *)

Module Router.
Import JsNumber JsString.

(** [ctx.user.id] of a protected procedure. *)
Record Ctx : Type := { user_id : Z }.

(** [s.padEnd(n, "0")] *)
Definition padEnd0 (n : nat) (s : string) : string :=
  (s ++ string_of_list_ascii (repeat "0"%char (n - String.length s)))%string.

Record FundingSource : Type := {
  fs_type : FundingModal.FundingType;
  fs_accountNumber : string;
  fs_routingNumber : option string
}.

Record FundAccountInput : Type := {
  accountId : Z;
  amount : number;
  fundingSource : FundingSource
}.

(** The schema of [fundAccount]: the fields are typed by the record, a
    routing number is [optional], and the amount is [positive]. *)
Definition fundAccountSchema (input : FundAccountInput) : bool :=
  gt (amount input) (ofZ 0).

Definition fundingTypeName (t : FundingModal.FundingType) : string :=
  match t with FundingModal.card => "card" | FundingModal.bank => "bank" end.

(** A transaction with the [accountType] added by [getTransactions]. *)
Record EnrichedTransaction : Type := {
  transaction : Transaction.t;
  accountType : AccountType
}.

(** What [fundAccount] returns. *)
Record FundResult : Type := {
  fr_transaction : option Transaction.t;
  newBalance : number
}.

(** The same input with another routing number. *)
Definition withRoutingNumber (r : option string) (input : FundAccountInput)
  : FundAccountInput :=
  {| accountId := accountId input;
     amount := amount input;
     fundingSource :=
       {| fs_type := fs_type (fundingSource input);
          fs_accountNumber := fs_accountNumber (fundingSource input);
          fs_routingNumber := r |} |}.

Section Procedures.
Context {St : Type} `{Persistence St}.

Definition generateAccountNumber : M St string :=
  (hash <- bcryptHash ;;
   let digits := stripNonDigits hash in
   let accountNumber := padEnd0 10 (substring 0 10 digits) in
   ret accountNumber)%proc.

(** The loop [while (!isUnique)]: each turn draws a candidate and looks
    it up; [fuel] bounds the number of turns. *)
Fixpoint uniqueAccountNumber (fuel : nat) : M St string :=
  match fuel with
  | O => outOfFuel
  | S fuel' =>
      (accountNumber <- generateAccountNumber ;;
       existing <- dbGetAccount (AccNumberEq accountNumber) ;;
       match existing with
       | Some _ => uniqueAccountNumber fuel'
       | None => ret accountNumber
       end)%proc
  end.

Definition createAccount (fuel : nat) (accountType : AccountType) (ctx : Ctx)
  : M St Account.t :=
  (existingAccount <-
     dbGetAccount (AccAnd (AccUserIdEq (user_id ctx)) (AccTypeEq accountType)) ;;
   match existingAccount with
   | Some _ =>
       throw (TRPCError CONFLICT
                ("You already have a " ++ accountTypeName accountType
                   ++ " account")%string)
   | None =>
       accountNumber <- uniqueAccountNumber fuel ;;
       dbInsertAccount {| na_userId := user_id ctx;
                          na_accountNumber := accountNumber;
                          na_accountType := accountType;
                          na_balance := ofZ 0;
                          na_status := "active" |} ;;;
       account <- dbGetAccount (AccNumberEq accountNumber) ;;
       match account with
       | None =>
           throw (TRPCError INTERNAL_SERVER_ERROR "Failed to create account")
       | Some account => ret account
       end
   end)%proc.

Definition getAccounts (ctx : Ctx) : M St (list Account.t) :=
  dbSelectAccounts (AccUserIdEq (user_id ctx)).

(** The handler given to [.mutation].  [parseFloat(input.amount.toString())]
    is [input.amount]: the string of a number reads back as that number. *)
Definition fundAccountHandler (input : FundAccountInput) (ctx : Ctx)
  : M St FundResult :=
  (let amount := amount input in
   account <-
     dbGetAccount (AccAnd (AccIdEq (accountId input)) (AccUserIdEq (user_id ctx))) ;;
   match account with
   | None => throw (TRPCError NOT_FOUND "Account not found")
   | Some account =>
       if negb (String.eqb (Account.status account) "active")
       then throw (TRPCError BAD_REQUEST "Account is not active")
       else
         processedAt <- dateNow ;;
         dbInsertTransaction
           {| nt_accountId := accountId input;
              nt_type := "deposit";
              nt_amount := amount;
              nt_description :=
                ("Funding from "
                   ++ fundingTypeName (fs_type (fundingSource input)))%string;
              nt_status := "completed";
              nt_processedAt := Some processedAt |} ;;;
         transactions <-
           dbSelectTransactions (TxAccountIdEq (accountId input))
                                DescCreatedAt (Some 1%nat) ;;
         let transaction := hd_error transactions in
         dbUpdateBalance (AccIdEq (accountId input))
                         (add (Account.balance account) amount) ;;;
         ret {| fr_transaction := transaction;
                newBalance := add (Account.balance account) amount |}
   end)%proc.

(** The procedure: the input is checked against the schema, then handled. *)
Definition fundAccount (input : FundAccountInput) (ctx : Ctx)
  : M St FundResult :=
  if fundAccountSchema input then fundAccountHandler input ctx
  else throw InputError.

Definition getTransactions (accountId : Z) (ctx : Ctx)
  : M St (list EnrichedTransaction) :=
  (account <-
     dbGetAccount (AccAnd (AccIdEq accountId) (AccUserIdEq (user_id ctx))) ;;
   match account with
   | None => throw (TRPCError NOT_FOUND "Account not found")
   | Some account =>
       accountTransactions <-
         dbSelectTransactions (TxAccountIdEq accountId) DescCreatedAt None ;;
       let enrichedTransactions :=
         map (fun transaction =>
                {| transaction := transaction;
                   accountType := Account.accountType account |})
             accountTransactions in
       ret enrichedTransactions
   end)%proc.

End Procedures.

End Router.

(** ** A stored state: tables as lists of rows *)

Module ListDb.

(** Modelled from the spec: the tables behind [db] (the schema and the
    driver are not among the sources).  Rows are kept in insertion order;
    an insert gives the row the next identifier and the current time as
    its creation time; the account number is unique. *)
Record t : Type := {
  accounts : list Account.t;
  transactions : list Transaction.t;
  nextAccountId : Z;
  nextTransactionId : Z;
  clock : Z
}.

Fixpoint accountHolds (c : AccountCond) (a : Account.t) : bool :=
  match c with
  | AccIdEq i => Account.id a =? i
  | AccUserIdEq u => Account.userId a =? u
  | AccTypeEq ty => AccountType_eqb (Account.accountType a) ty
  | AccNumberEq n => String.eqb (Account.accountNumber a) n
  | AccAnd c1 c2 => accountHolds c1 a && accountHolds c2 a
  end.

Definition transactionHolds (c : TransactionCond) (x : Transaction.t) : bool :=
  match c with
  | TxAccountIdEq i => Transaction.accountId x =? i
  end.

(** Insertion of a row in a list ordered by creation time, newest first;
    among rows of one creation time the order of the table is kept. *)
Fixpoint insertDesc (x : Transaction.t) (l : list Transaction.t)
  : list Transaction.t :=
  match l with
  | [] => [x]
  | y :: l' =>
      if Transaction.createdAt y <=? Transaction.createdAt x
      then x :: l
      else y :: insertDesc x l'
  end.

Definition ordered (o : Order) (l : list Transaction.t) : list Transaction.t :=
  match o with
  | Unordered => l
  | DescCreatedAt => fold_right insertDesc [] l
  end.

Definition limited {A} (limit : option nat) (l : list A) : list A :=
  match limit with
  | Some n => firstn n l
  | None => l
  end.

Definition select_accounts (st : t) (c : AccountCond) : list Account.t :=
  filter (accountHolds c) (accounts st).

Definition insert_account (st : t) (v : NewAccount) : t * option DbError :=
  if existsb (fun a => String.eqb (Account.accountNumber a) (na_accountNumber v))
             (accounts st)
  then (st, Some (UniqueViolation "accounts.account_number"))
  else
    ({| accounts :=
          accounts st ++
          [{| Account.id := nextAccountId st;
              Account.userId := na_userId v;
              Account.accountNumber := na_accountNumber v;
              Account.accountType := na_accountType v;
              Account.balance := na_balance v;
              Account.status := na_status v;
              Account.createdAt := clock st |}];
        transactions := transactions st;
        nextAccountId := nextAccountId st + 1;
        nextTransactionId := nextTransactionId st;
        clock := clock st |}, None).

Definition setBalance (b : JsNumber.number) (a : Account.t) : Account.t :=
  {| Account.id := Account.id a;
     Account.userId := Account.userId a;
     Account.accountNumber := Account.accountNumber a;
     Account.accountType := Account.accountType a;
     Account.balance := b;
     Account.status := Account.status a;
     Account.createdAt := Account.createdAt a |}.

Definition update_balance (st : t) (c : AccountCond) (b : JsNumber.number)
  : t * option DbError :=
  ({| accounts :=
        map (fun a => if accountHolds c a then setBalance b a else a)
            (accounts st);
      transactions := transactions st;
      nextAccountId := nextAccountId st;
      nextTransactionId := nextTransactionId st;
      clock := clock st |}, None).

Definition select_transactions (st : t) (c : TransactionCond) (o : Order)
  (limit : option nat) : list Transaction.t :=
  limited limit (ordered o (filter (transactionHolds c) (transactions st))).

Definition insert_transaction (st : t) (v : NewTransaction)
  : t * option DbError :=
  ({| accounts := accounts st;
      transactions :=
        transactions st ++
        [{| Transaction.id := nextTransactionId st;
            Transaction.accountId := nt_accountId v;
            Transaction.type := nt_type v;
            Transaction.amount := nt_amount v;
            Transaction.description := nt_description v;
            Transaction.status := nt_status v;
            Transaction.createdAt := clock st;
            Transaction.processedAt := nt_processedAt v |}];
      nextAccountId := nextAccountId st;
      nextTransactionId := nextTransactionId st + 1;
      clock := clock st |}, None).

(** Time passes between two requests. *)
Definition tick (dt : Z) (st : t) : t :=
  {| accounts := accounts st; transactions := transactions st;
     nextAccountId := nextAccountId st;
     nextTransactionId := nextTransactionId st;
     clock := clock st + dt |}.

Definition empty : t :=
  {| accounts := []; transactions := []; nextAccountId := 1;
     nextTransactionId := 1; clock := 0 |}.

End ListDb.

#[export] Instance ListDb_Persistence : Persistence ListDb.t := {|
  selectAccounts := ListDb.select_accounts;
  insertAccount := ListDb.insert_account;
  updateAccountBalance := ListDb.update_balance;
  selectTransactions := ListDb.select_transactions;
  insertTransaction := ListDb.insert_transaction
|}.

(** ** A stored state shared with other requests *)

Module SharedDb.

(** What another request does to the accounts table. *)
Inductive Interference : Type :=
| OtherInsert (v : NewAccount)
| OtherDelete (accountNumber : string).

Definition interfere (st : ListDb.t) (i : Interference) : ListDb.t :=
  match i with
  | OtherInsert v => fst (ListDb.insert_account st v)
  | OtherDelete n =>
      {| ListDb.accounts :=
           filter (fun a => negb (String.eqb (Account.accountNumber a) n))
                  (ListDb.accounts st);
         ListDb.transactions := ListDb.transactions st;
         ListDb.nextAccountId := ListDb.nextAccountId st;
         ListDb.nextTransactionId := ListDb.nextTransactionId st;
         ListDb.clock := ListDb.clock st |}
  end.

(** The tables, and what other requests do just before and just after
    the next insert into the accounts table. *)
Record t : Type := {
  store : ListDb.t;
  beforeInsert : list Interference;
  afterInsert : list Interference
}.

Definition quiet (st : ListDb.t) : t :=
  {| store := st; beforeInsert := []; afterInsert := [] |}.

Definition insert_account (s : t) (v : NewAccount) : t * option DbError :=
  let st1 := fold_left interfere (beforeInsert s) (store s) in
  let (st2, err) := ListDb.insert_account st1 v in
  (quiet (fold_left interfere (afterInsert s) st2), err).

Definition lift (f : ListDb.t -> ListDb.t * option DbError) (s : t)
  : t * option DbError :=
  let (st, err) := f (store s) in
  ({| store := st; beforeInsert := beforeInsert s;
      afterInsert := afterInsert s |}, err).

End SharedDb.

#[export] Instance SharedDb_Persistence : Persistence SharedDb.t := {|
  selectAccounts := fun s => ListDb.select_accounts (SharedDb.store s);
  insertAccount := SharedDb.insert_account;
  updateAccountBalance := fun s c b =>
    SharedDb.lift (fun st => ListDb.update_balance st c b) s;
  selectTransactions := fun s => ListDb.select_transactions (SharedDb.store s);
  insertTransaction := fun s v =>
    SharedDb.lift (fun st => ListDb.insert_transaction st v) s
|}.

(** ** Vocabulary of the properties *)

(** [x] was created no earlier than [y]. *)
Definition newerOrSame (x y : Transaction.t) : Prop :=
  Transaction.createdAt y <= Transaction.createdAt x.

(** The event is a look-up in the accounts table. *)
Definition isAccountLookup (e : Event) : bool :=
  match e with EvSelectAccounts _ _ => true | _ => false end.

(** The event is an insert into the accounts table. *)
Definition isAccountInsert (e : Event) : bool :=
  match e with EvInsertAccount _ _ => true | _ => false end.

(** The number of inserts into the accounts table in a log. *)
Definition insertsIssued (evs : list Event) : nat :=
  List.length (filter isAccountInsert evs).

Section Ends.
Context {St : Type} `{Persistence St}.
Import Router.

(** The deposit [fundAccount] inserts. *)
Definition depositOf (input : FundAccountInput) (processedAt : Z)
  : NewTransaction :=
  {| nt_accountId := accountId input;
     nt_type := "deposit";
     nt_amount := amount input;
     nt_description :=
       ("Funding from "
          ++ fundingTypeName (fs_type (fundingSource input)))%string;
     nt_status := "completed";
     nt_processedAt := Some processedAt |}.

(** The candidate account number [generateAccountNumber] gives in a
    world. *)
Definition candidate (w : World St) : string :=
  padEnd0 10 (substring 0 10 (JsString.stripNonDigits (hashes w (drawn w)))).

(** The account [createAccount] inserts for a candidate number. *)
Definition openingOf (ty : AccountType) (ctx : Ctx) (accountNumber : string)
  : NewAccount :=
  {| na_userId := user_id ctx;
     na_accountNumber := accountNumber;
     na_accountType := ty;
     na_balance := JsNumber.ofZ 0;
     na_status := "active" |}.

(** The ways [createAccount] can end, each with the last things it did
    with [db]. *)
Inductive CreateAccountEnd (ty : AccountType) (ctx : Ctx)
  : Outcome Account.t -> World St -> Prop :=
| EndConflict w' rows :
    lastEvent w' =
      Some (EvSelectAccounts
              (AccAnd (AccUserIdEq (user_id ctx)) (AccTypeEq ty)) rows) ->
    CreateAccountEnd ty ctx
      (Throw (TRPCError CONFLICT
                ("You already have a " ++ accountTypeName ty
                   ++ " account")%string)) w'
| EndOutOfFuel w' c rows :
    lastEvent w' = Some (EvSelectAccounts c rows) ->
    (rows = [] -> c = AccAnd (AccUserIdEq (user_id ctx)) (AccTypeEq ty)) ->
    CreateAccountEnd ty ctx OutOfFuel w'
| EndInsertFailed w' pre n e :
    events w' =
      (pre ++ [EvSelectAccounts (AccNumberEq n) [];
               EvInsertAccount (openingOf ty ctx n) (Some e)])%list ->
    CreateAccountEnd ty ctx (Throw (DbException e)) w'
| EndNotStored w' pre n :
    events w' =
      (pre ++ [EvInsertAccount (openingOf ty ctx n) None;
               EvSelectAccounts (AccNumberEq n) []])%list ->
    CreateAccountEnd ty ctx
      (Throw (TRPCError INTERNAL_SERVER_ERROR "Failed to create account")) w'
| EndStored w' pre n a rows :
    events w' =
      (pre ++ [EvInsertAccount (openingOf ty ctx n) None;
               EvSelectAccounts (AccNumberEq n) (a :: rows)])%list ->
    selectAccounts (db w') (AccNumberEq n) = a :: rows ->
    CreateAccountEnd ty ctx (Ok a) w'.

End Ends.

(** ** Sample worlds *)

Module Samples.
Import JsNumber JsParse Router.

(** Three hashes of the shape [bcrypt.hash] returns; the first two have
    the same first ten digits. *)
Definition sampleHashes (n : nat) : string :=
  match n with
  | O => "$2a$10$N9qo8uLOickgx2ZMRZoMyeIjZAgcfl7p92ldGxad68LJZdL17lhWy"
  | 1%nat => "$2a$10$N9qo8uLOickgx2ZMRZoMyeIjZAgcXX7p92ldGxad68LJZdL17lhWy"
  | _ => "$2a$10$7EqJtq98hPqEX7fNZaFWoOa1b2c3d4e5f6g7h8i9j0kAlBmCnDoEp"
  end.

Definition alice : Ctx := {| user_id := 7 |}.
Definition bob : Ctx := {| user_id := 8 |}.

Definition world {St} (st : St) : World St :=
  {| db := st; events := []; hashes := sampleHashes; drawn := 0; now := 1000 |}.

(** Alice's checking account with the given balance and status. *)
Definition aliceChecking (balance : number) (status : string) : Account.t :=
  {| Account.id := 1;
     Account.userId := 7;
     Account.accountNumber := "2109827926";
     Account.accountType := checking;
     Account.balance := balance;
     Account.status := status;
     Account.createdAt := 0 |}.

Definition deposit (id accountId : Z) (amount : string) (createdAt : Z)
  : Transaction.t :=
  {| Transaction.id := id;
     Transaction.accountId := accountId;
     Transaction.type := "deposit";
     Transaction.amount := parseFloat amount;
     Transaction.description := "Funding from card";
     Transaction.status := "completed";
     Transaction.createdAt := createdAt;
     Transaction.processedAt := Some createdAt |}.

(** The tables with Alice's account alone. *)
Definition bank1 (balance : number) (status : string) : ListDb.t :=
  {| ListDb.accounts := [aliceChecking balance status];
     ListDb.transactions := [];
     ListDb.nextAccountId := 2;
     ListDb.nextTransactionId := 1;
     ListDb.clock := 10 |}.

(** The tables with Alice's account and deposits made at three times,
    among them one of another account. *)
Definition bank2 : ListDb.t :=
  {| ListDb.accounts := [aliceChecking (parseFloat "175") "active"];
     ListDb.transactions :=
       [deposit 1 1 "100" 10; deposit 2 2 "200" 20; deposit 3 1 "50" 30;
        deposit 4 1 "25" 20];
     ListDb.nextAccountId := 2;
     ListDb.nextTransactionId := 5;
     ListDb.clock := 40 |}.

Definition fundingInput (accountId : Z) (amount : string)
  (type : FundingModal.FundingType) (routingNumber : option string)
  : FundAccountInput :=
  {| accountId := accountId;
     amount := parseFloat amount;
     fundingSource := {| fs_type := type;
                         fs_accountNumber := "4532015112830366";
                         fs_routingNumber := routingNumber |} |}.

(** Another request inserts an account with the candidate number just
    before this request's insert. *)
Definition raced : SharedDb.t :=
  {| SharedDb.store := ListDb.empty;
     SharedDb.beforeInsert :=
       [SharedDb.OtherInsert {| na_userId := 8;
                                na_accountNumber := "2109827926";
                                na_accountType := savings;
                                na_balance := ofZ 0;
                                na_status := "active" |}];
     SharedDb.afterInsert := [] |}.

(** Another request deletes the new account just after the insert. *)
Definition lost : SharedDb.t :=
  {| SharedDb.store := ListDb.empty;
     SharedDb.beforeInsert := [];
     SharedDb.afterInsert := [SharedDb.OtherDelete "2109827926"] |}.

End Samples.

(** ** Vocabulary of further properties of the funding form *)

Module CardFacts.
Import JsString Regex FundingModal.

(** What one digit adds to the checksum in the loop of
    [validateCardNumber]: itself, or, in a doubled place, its double less
    9 when the double exceeds 9. *)
Definition luhnDigit (isEven : bool) (c : ascii) : Z :=
  let digit := digitValue c in
  if isEven then
    let doubled := digit * 2 in
    if doubled >? 9 then doubled - 9 else doubled
  else digit.

(** Whether the loop doubles the digit that has [n] digits after it. *)
Definition doubledPlace (n : nat) : bool := Nat.odd n.

(** The ten digit characters. *)
Definition digitChars : list ascii :=
  ["0"; "1"; "2"; "3"; "4"; "5"; "6"; "7"; "8"; "9"]%char.

(** The network of a card number by the number [n] its first four digits
    make: the ranges the regular expressions of [detectCardType] accept,
    in the order the function tries them. *)
Definition within (lo hi n : Z) : bool := (lo <=? n) && (n <=? hi).

Definition networkOfPrefix (n : Z) : option string :=
  if within 4000 4999 n then Some "Visa"
  else if within 5100 5599 n || within 2221 2720 n then Some "Mastercard"
  else if within 3400 3499 n || within 3700 3799 n
       then Some "American Express"
  else if (n =? 6011) || within 6500 6599 n || within 6440 6499 n
          || within 6220 6229 n then Some "Discover"
  else if within 3000 3059 n || within 3600 3699 n || within 3800 3899 n
       then Some "Diners Club"
  else if within 3528 3589 n then Some "JCB"
  else None.

(** [/^r/.test] on a string that starts with the four characters
    [a b c d], when the fourth derivative settles the answer. *)
Definition deriv4 (a b c d : ascii) (r : regex) : regex :=
  deriv d (deriv c (deriv b (deriv a r))).

Definition matchesPrefix4 (a b c d : ascii) (r : regex) : bool :=
  nullable r || nullable (deriv a r) || nullable (deriv b (deriv a r))
  || nullable (deriv c (deriv b (deriv a r))) || nullable (deriv4 a b c d r).

Definition settled4 (a b c d : ascii) (r : regex) : bool :=
  nullable (deriv4 a b c d r) || dead (deriv4 a b c d r).

(** The steps of [detectCardType] on four leading characters. *)
Definition detect4 (a b c d : ascii) : option string :=
  if matchesPrefix4 a b c d reVisa then Some "Visa"
  else if matchesPrefix4 a b c d reMastercard5
          || matchesPrefix4 a b c d reMastercard2 then Some "Mastercard"
  else if matchesPrefix4 a b c d reAmex then Some "American Express"
  else if matchesPrefix4 a b c d reDiscover then Some "Discover"
  else if matchesPrefix4 a b c d reDiners then Some "Diners Club"
  else if matchesPrefix4 a b c d reJCB then Some "JCB"
  else None.

Definition sameLabel (x y : option string) : bool :=
  match x, y with
  | Some s, Some t => String.eqb s t
  | None, None => true
  | _, _ => false
  end.

(** The check of one quadruple of leading digits: every regular
    expression is settled after four characters, and the label is the one
    of the ranges. *)
Definition checked4 (a b c d : ascii) : bool :=
  forallb (settled4 a b c d)
          [reVisa; reMastercard5; reMastercard2; reAmex; reDiscover;
           reDiners; reJCB]
  && sameLabel (detect4 a b c d)
       (networkOfPrefix (1000 * digitValue a + 100 * digitValue b
                         + 10 * digitValue c + digitValue d)).

Definition allChecked4 : bool :=
  forallb (fun a => forallb (fun b => forallb (fun c =>
    forallb (fun d => checked4 a b c d) digitChars) digitChars) digitChars)
    digitChars.

End CardFacts.

(** ** Submitting the form *)

Module Submit.
Import JsParse HookForm FundingModal Router.

(** The argument [onSubmit] gives to the mutation: the amount read with
    [parseFloat] and the funding source as typed.  An account number left
    [undefined] is no string, and the call has no input the schema of the
    procedure can read. *)
Definition onSubmitInput (accountId : Z) (data : FundingFormData)
  : option FundAccountInput :=
  match FundingModal.accountNumber data with
  | Some number =>
      Some {| accountId := accountId;
              amount := parseFloat (toStr (FundingModal.amount data));
              fundingSource :=
                {| fs_type := fundingType data;
                   fs_accountNumber := number;
                   fs_routingNumber := routingNumber data |} |}
  | None => None
  end.

End Submit.

(** ** Vocabulary of further properties of the router *)

(** The candidate account number of the [j]-th next turn of the loop of
    [createAccount]. *)
Definition candidateAt {St} (w : World St) (j : nat) : string :=
  Router.padEnd0 10
    (substring 0 10 (JsString.stripNonDigits (hashes w (drawn w + j)))).

(** The row the tables give an account opened with a number. *)
Definition openedRow (st : ListDb.t) (ty : AccountType) (ctx : Router.Ctx)
  (accountNumber : string) : Account.t :=
  {| Account.id := ListDb.nextAccountId st;
     Account.userId := Router.user_id ctx;
     Account.accountNumber := accountNumber;
     Account.accountType := ty;
     Account.balance := JsNumber.ofZ 0;
     Account.status := "active";
     Account.createdAt := ListDb.clock st |}.

(** The row the tables give the deposit of a funding. *)
Definition depositRow (st : ListDb.t) (input : Router.FundAccountInput)
  (processedAt : Z) : Transaction.t :=
  {| Transaction.id := ListDb.nextTransactionId st;
     Transaction.accountId := Router.accountId input;
     Transaction.type := "deposit";
     Transaction.amount := Router.amount input;
     Transaction.description :=
       ("Funding from "
          ++ Router.fundingTypeName
               (Router.fs_type (Router.fundingSource input)))%string;
     Transaction.status := "completed";
     Transaction.createdAt := ListDb.clock st;
     Transaction.processedAt := Some processedAt |}.

(** ** Single session per user and logout:
    [src/__tests__/auth-session.test.ts] *)

Module SessionStore.
Import Session.

(** [sessions.filter(s => s.userId !== userId)] *)
Definition remainingSessions (sessions : list Session) (userId : Z)
  : list Session :=
  filter (fun s => negb (Session.userId s =? userId)) sessions.

(** [[...remainingSessions, newSession]] *)
Definition allSessions (sessions : list Session) (userId : Z)
  (newSession : Session) : list Session :=
  (remainingSessions sessions userId ++ [newSession])%list.

(** [allSessions.filter(s => s.userId === userId)] *)
Definition userSessions (sessions : list Session) (userId : Z)
  : list Session :=
  filter (fun s => Session.userId s =? userId) sessions.

(** [sessions.filter(s => s.token !== tokenToDelete)] *)
Definition withoutToken (sessions : list Session) (tokenToDelete : string)
  : list Session :=
  filter (fun s => negb (String.eqb (token s) tokenToDelete)) sessions.

(** [sessions.find(s => s.token === tokenToDelete)] *)
Definition deletedSession (sessions : list Session) (tokenToDelete : string)
  : option Session :=
  find (fun s => String.eqb (token s) tokenToDelete) sessions.

End SessionStore.

(** ** Tables whose writes can be refused *)

Module RefusingDb.

(** The tables, and whether the next update of a balance is refused. *)
Record t : Type := {
  store : ListDb.t;
  refuseUpdate : bool
}.

Definition update_balance (s : t) (c : AccountCond) (b : JsNumber.number)
  : t * option DbError :=
  if refuseUpdate s then (s, Some (WriteFailed "database is locked"))
  else
    ({| store := fst (ListDb.update_balance (store s) c b);
        refuseUpdate := false |}, None).

Definition insert_transaction (s : t) (v : NewTransaction)
  : t * option DbError :=
  ({| store := fst (ListDb.insert_transaction (store s) v);
      refuseUpdate := refuseUpdate s |}, None).

Definition insert_account (s : t) (v : NewAccount) : t * option DbError :=
  let (st, err) := ListDb.insert_account (store s) v in
  ({| store := st; refuseUpdate := refuseUpdate s |}, err).

End RefusingDb.

#[export] Instance RefusingDb_Persistence : Persistence RefusingDb.t := {|
  selectAccounts := fun s => ListDb.select_accounts (RefusingDb.store s);
  insertAccount := RefusingDb.insert_account;
  updateAccountBalance := RefusingDb.update_balance;
  selectTransactions :=
    fun s => ListDb.select_transactions (RefusingDb.store s);
  insertTransaction := RefusingDb.insert_transaction
|}.

(** ** More sample worlds *)

Module MoreSamples.
Import JsNumber JsParse Router Samples.

(** Alice's account with its deposits, where balance updates are
    refused. *)
Definition refusing : RefusingDb.t :=
  {| RefusingDb.store := bank2; RefusingDb.refuseUpdate := true |}.

(** The sessions of the test of a second login, and the new session. *)
Definition oldSessions : list Session.Session :=
  [{| Session.token := "old-token-1"; Session.userId := 1;
      Session.expiresAt := 1771581600000 |};
   {| Session.token := "old-token-2"; Session.userId := 1;
      Session.expiresAt := 1771668000000 |};
   {| Session.token := "other-token"; Session.userId := 2;
      Session.expiresAt := 1771668000000 |}].

Definition newSession : Session.Session :=
  {| Session.token := "new-token"; Session.userId := 1;
     Session.expiresAt := 1772100000000 |}.

End MoreSamples.

(* ================================================================== *)
(** * Part II. Properties                                              *)
(* ================================================================== *)

Unset Implicit Arguments.

(** ** Session expiry *)

Lemma isValid_iff (expiresAt now : Session.Date) :
  Session.isValid expiresAt now = true <-> now <= expiresAt.
Proof. unfold Session.isValid. rewrite Z.geb_le. reflexivity. Qed.

Lemma isValid_after_expiry (expiresAt now : Session.Date) :
  expiresAt < now -> Session.isValid expiresAt now = false.
Proof.
  intro Hlt. destruct (Session.isValid expiresAt now) eqn:E; [|reflexivity].
  apply isValid_iff in E. lia.
Qed.

Lemma isValid_before_expiry (expiresAt now : Session.Date) :
  now < expiresAt -> Session.isValid expiresAt now = true.
Proof. intro Hlt. apply isValid_iff. lia. Qed.

(** C1 (the code departs from the claim).  At the expiry instant itself,
    [now = expiresAt], the validity expression of the session tests,
    [expiresAt >= now], is true: the session still counts as valid,
    where the claim has it expired.  The expression of the security
    tests, [expiresAt <= now], is true at the same instant: the two
    suites disagree on the boundary.  The instant of the tests,
    2026-02-19T10:00:00Z, is the concrete case. *)
Theorem isValid_at_expiry_instant :
  (forall t : Session.Date,
      Session.isValid t t = true /\ Session.isExpiredOrAtExpiry t t = true)
  /\ Session.isValid Session.t_2026_02_19_10_00_00
                     Session.t_2026_02_19_10_00_00 = true
  /\ Session.isValid Session.t_2026_02_19_10_00_00
                     Session.t_2026_02_19_10_00_01 = false.
Proof.
  split; [|split; reflexivity].
  intro t. unfold Session.isValid, Session.isExpiredOrAtExpiry.
  split; [apply Z.geb_le | apply Z.leb_le]; lia.
Qed.

(** ** Card network detection *)

Import FundingModal.

Lemma detectCardType_label (cardNumber : string) :
  In (detectCardType cardNumber) networkLabels.
Proof.
  unfold detectCardType, networkLabels.
  repeat match goal with
         | |- context [if ?b then _ else _] => destruct b
         end; simpl; tauto.
Qed.

(** C8.  [detectCardType] is a function of its argument alone and gives at
    most one label: equal inputs give equal results, the result is no
    network or one of the six network names, and on the sample numbers it
    is Visa, American Express, Discover, Diners Club, JCB and, for
    9999999999999999, no network. *)
Theorem detectCardType_pure_and_samples :
  (forall a b : string, a = b -> detectCardType a = detectCardType b)
  /\ (forall (s : string) (l1 l2 : string),
         detectCardType s = Some l1 -> detectCardType s = Some l2 -> l1 = l2)
  /\ (forall s : string, In (detectCardType s) networkLabels)
  /\ detectCardType "4532015112830366" = Some "Visa"
  /\ detectCardType "3782822463100050" = Some "American Express"
  /\ detectCardType "6011111111111117" = Some "Discover"
  /\ detectCardType "3056930009020004" = Some "Diners Club"
  /\ detectCardType "3530111333300000" = Some "JCB"
  /\ detectCardType "9999999999999999" = None.
Proof.
  split; [intros a b ->; reflexivity|].
  split; [intros s l1 l2 H1 H2; congruence|].
  split; [apply detectCardType_label|].
  repeat split; vm_compute; reflexivity.
Qed.

(** ** The Luhn checksum *)

Import JsString.

Lemma chars_app (s1 s2 : string) :
  chars (s1 ++ s2) = (chars s1 ++ chars s2)%list.
Proof.
  unfold chars. induction s1 as [|c s1 IH]; simpl; [reflexivity|].
  now rewrite IH.
Qed.

Lemma length_app_string (s1 s2 : string) :
  String.length (s1 ++ s2) = (String.length s1 + String.length s2)%nat.
Proof. induction s1 as [|c s1 IH]; simpl; [reflexivity | now rewrite IH]. Qed.

Lemma allDigits_app (s1 s2 : string) :
  allDigits (s1 ++ s2) = allDigits s1 && allDigits s2.
Proof.
  induction s1 as [|c s1 IH]; simpl; [reflexivity|].
  rewrite IH. now rewrite andb_assoc.
Qed.

Lemma stripNonDigits_allDigits (s : string) :
  allDigits s = true -> stripNonDigits s = s.
Proof.
  induction s as [|c s IH]; simpl; [reflexivity|].
  intro Hd. apply andb_true_iff in Hd as [Hc Hs].
  rewrite Hc. now rewrite IH.
Qed.

(** The checksum is the running sum plus what the loop adds. *)
Lemma luhnLoop_sum (ds : list ascii) :
  forall (isEven : bool) (sum : Z),
    luhnLoop ds isEven sum = sum + luhnLoop ds isEven 0.
Proof.
  induction ds as [|c ds IH]; intros isEven sum; cbn [luhnLoop]; [lia|].
  cbv zeta.
  match goal with
  | |- luhnLoop ds ?e (sum + ?d) = _ =>
      rewrite (IH e (sum + d)), (IH e (0 + d))
  end.
  lia.
Qed.

(** The last digit is added as it is; the digits before it are summed
    with the doubling starting at the one next to it. *)
Lemma luhnSum_snoc (s : string) (c : ascii) :
  luhnSum (s ++ String c EmptyString) =
  digitValue c + luhnLoop (rev (chars s)) true 0.
Proof.
  unfold luhnSum. rewrite chars_app. simpl chars.
  rewrite rev_app_distr. simpl. apply luhnLoop_sum.
Qed.

Lemma digitValue_digitChar (d : Z) :
  0 <= d <= 9 -> digitValue (digitChar d) = d /\ isDigit (digitChar d) = true.
Proof.
  intro Hd.
  assert (d = 0 \/ d = 1 \/ d = 2 \/ d = 3 \/ d = 4 \/ d = 5 \/ d = 6
          \/ d = 7 \/ d = 8 \/ d = 9) as Hcases by lia.
  repeat (destruct Hcases as [-> | Hcases]; [split; reflexivity|]).
  subst d. split; reflexivity.
Qed.

Lemma checkDigit_spec (payload : string) :
  isDigit (checkDigit payload) = true
  /\ luhnSum (appendCheckDigit payload) mod 10 = 0.
Proof.
  unfold appendCheckDigit, checkDigit.
  rewrite !luhnSum_snoc.
  change (digitValue "0") with 0.
  set (p := luhnLoop (rev (chars payload)) true 0).
  assert (0 <= (10 - (0 + p) mod 10) mod 10 <= 9) as Hrange.
  { pose proof (Z.mod_pos_bound (10 - (0 + p) mod 10) 10). lia. }
  destruct (digitValue_digitChar _ Hrange) as [Hv Hc].
  split; [exact Hc|].
  rewrite Hv. rewrite Z.add_0_l.
  rewrite Zplus_mod_idemp_l.
  rewrite Z.add_comm, <- Zplus_mod_idemp_l.
  replace (p mod 10 + (10 - p mod 10)) with 10 by lia.
  reflexivity.
Qed.

(** The validator looks at the length first: with seventeen digits the
    checksum is not even computed. *)
Lemma validateCardNumber_length (cardNumber : string) :
  validateCardNumber cardNumber = true ->
  String.length (stripNonDigits cardNumber) = 16%nat.
Proof.
  unfold validateCardNumber.
  destruct (String.length (stripNonDigits cardNumber) =? 16)%nat eqn:E;
    simpl; [|discriminate].
  intros _. now apply Nat.eqb_eq.
Qed.

(** No string of sixteen digits followed by one more digit passes. *)
Lemma validateCardNumber_17_digits (s : string) (c : ascii) :
  String.length s = 16%nat -> allDigits s = true -> isDigit c = true ->
  validateCardNumber (s ++ String c EmptyString) = false.
Proof.
  intros Hlen Hdig Hc.
  destruct (validateCardNumber (s ++ String c EmptyString)) eqn:E;
    [|reflexivity].
  apply validateCardNumber_length in E.
  rewrite stripNonDigits_allDigits in E.
  - rewrite length_app_string, Hlen in E. discriminate E.
  - rewrite allDigits_app, Hdig. simpl. now rewrite Hc.
Qed.

(** C7, as the claim states it, fails: a string of sixteen digits with its
    check digit appended has seventeen digits, and the validator refuses
    every string that does not have exactly sixteen. *)
Lemma appendCheckDigit_16_rejected :
  allDigits "4532015112830366" = true
  /\ String.length "4532015112830366" = 16%nat
  /\ validateCardNumber (appendCheckDigit "4532015112830366") = false.
Proof. repeat split; vm_compute; reflexivity. Qed.

(** C7 (amended).  For every string of fifteen digits, appending the
    check digit computed by the same checksum gives a sixteen-digit string
    that [validateCardNumber] accepts. *)
Theorem appendCheckDigit_15_valid (payload : string) :
  String.length payload = 15%nat ->
  allDigits payload = true ->
  validateCardNumber (appendCheckDigit payload) = true.
Proof.
  intros Hlen Hdig.
  destruct (checkDigit_spec payload) as [Hc Hsum].
  assert (allDigits (appendCheckDigit payload) = true) as Hall.
  { unfold appendCheckDigit. rewrite allDigits_app, Hdig. simpl.
    now rewrite Hc. }
  unfold validateCardNumber.
  rewrite (stripNonDigits_allDigits _ Hall).
  unfold appendCheckDigit at 1. rewrite length_app_string, Hlen. simpl.
  rewrite Hsum. reflexivity.
Qed.

Lemma appendCheckDigit_15_valid_witness :
  String.length "453201511283036" = 15%nat
  /\ allDigits "453201511283036" = true
  /\ validateCardNumber (appendCheckDigit "453201511283036") = true.
Proof.
  split; [reflexivity|]. split; [reflexivity|].
  apply (appendCheckDigit_15_valid "453201511283036"); reflexivity.
Defined.

(** ** Matching by derivatives *)

Import Regex HookForm.

Lemma dead_not_nullable (r : regex) : dead r = true -> nullable r = false.
Proof.
  induction r; simpl; try discriminate; try reflexivity.
  - intro Hd. apply orb_true_iff in Hd as [Hd | Hd].
    + now rewrite (IHr1 Hd).
    + rewrite (IHr2 Hd). apply andb_false_r.
  - intro Hd. apply andb_true_iff in Hd as [Ha Hb].
    now rewrite (IHr1 Ha), (IHr2 Hb).
Qed.

Lemma dead_deriv (c : ascii) (r : regex) : dead r = true -> dead (deriv c r) = true.
Proof.
  induction r; simpl; try discriminate; try reflexivity.
  - intro Hd. apply orb_true_iff in Hd as [Hd | Hd].
    + rewrite (dead_not_nullable _ Hd). simpl. now rewrite (IHr1 Hd).
    + destruct (nullable r1); simpl; rewrite ?(IHr2 Hd), ?Hd;
        rewrite ?orb_true_r; reflexivity.
  - intro Hd. apply andb_true_iff in Hd as [Ha Hb].
    now rewrite (IHr1 Ha), (IHr2 Hb).
Qed.

Lemma dead_matches (s : string) :
  forall r : regex, dead r = true -> matches r s = false.
Proof.
  induction s as [|c s IH]; intros r Hd; simpl.
  - now apply dead_not_nullable.
  - apply IH. now apply dead_deriv.
Qed.

Lemma dead_matchesPrefix (s : string) :
  forall r : regex, dead r = true -> matchesPrefix r s = false.
Proof.
  induction s as [|c s IH]; intros r Hd; simpl;
    rewrite (dead_not_nullable _ Hd); simpl; [reflexivity|].
  apply IH. now apply dead_deriv.
Qed.

Lemma matches_Alt (s : string) :
  forall a b : regex, matches (Alt a b) s = matches a s || matches b s.
Proof.
  induction s as [|c s IH]; intros a b; simpl; [reflexivity | apply IH].
Qed.

Lemma matches_Seq_Eps (r : regex) (s : string) :
  matches (Seq Eps r) s = matches r s.
Proof.
  destruct s as [|c s]; simpl; [reflexivity|].
  rewrite matches_Alt. now rewrite (dead_matches s (Seq Fail r)).
Qed.

(** [\d{n}] anchored at both ends accepts exactly the strings of [n]
    digits. *)
Lemma matches_rep_digit (n : nat) :
  forall s : string,
    matches (rep n digit) s = (String.length s =? n)%nat && allDigits s.
Proof.
  induction n as [|n IH]; intros [|c s]; simpl; try reflexivity.
  - now apply (dead_matches s Fail).
  - destruct (isDigit c) eqn:Hc; simpl.
    + rewrite matches_Seq_Eps. apply IH.
    + rewrite (dead_matches s (Seq Fail (rep n digit))) by reflexivity.
      now rewrite andb_false_r.
Qed.

Lemma isDigit_not_point (c : ascii) :
  isDigit c = true -> Ascii.eqb "." c = false.
Proof.
  intro Hd. destruct (Ascii.eqb_spec "." c) as [<- | Hne]; [|reflexivity].
  discriminate Hd.
Qed.

Lemma matchesPrefix_nullable (r : regex) (s : string) :
  nullable r = true -> matchesPrefix r s = true.
Proof. intro Hn. destruct s; simpl; now rewrite Hn. Qed.

(** [/^0\d/] holds of the strings that start with [0] and a digit. *)
Lemma leadingZero_prefix (s : string) :
  matchesPrefix leadingZero s =
  match s with
  | String c1 (String c2 _) => Ascii.eqb "0" c1 && isDigit c2
  | _ => false
  end.
Proof.
  unfold leadingZero, chr, digit.
  destruct s as [|c1 [|c2 s]]; cbn [matchesPrefix nullable deriv andb orb].
  - reflexivity.
  - destruct (Ascii.eqb "0" c1); reflexivity.
  - destruct (Ascii.eqb "0" c1); cbn [matchesPrefix nullable deriv andb orb].
    + destruct (isDigit c2); cbn [andb].
      * now apply matchesPrefix_nullable.
      * now apply dead_matchesPrefix.
    + now apply dead_matchesPrefix.
Qed.

Lemma amountPattern_zero_digit (c2 : ascii) (s : string) :
  isDigit c2 = true ->
  matches amountPattern (String "0" (String c2 s)) = false.
Proof.
  intro Hd. unfold amountPattern, opt, upto, chr, range, digit.
  cbn [matches deriv nullable andb orb].
  change (Ascii.eqb "0" "0") with true.
  change ((nat_of_ascii "1" <=? nat_of_ascii "0")%nat
          && (nat_of_ascii "0" <=? nat_of_ascii "9")%nat) with false.
  cbn [matches deriv nullable andb orb].
  rewrite (isDigit_not_point _ Hd).
  now apply dead_matches.
Qed.

(** A string the amount pattern accepts does not start with [0] followed
    by a digit. *)
Lemma amountPattern_no_leading_zero (s : string) :
  matches amountPattern s = true -> matchesPrefix leadingZero s = false.
Proof.
  intro Hm. rewrite leadingZero_prefix.
  destruct s as [|c1 [|c2 s]]; try reflexivity.
  destruct (Ascii.eqb_spec "0" c1) as [<- | Hne]; [|reflexivity].
  destruct (isDigit c2) eqn:Hd; [|reflexivity].
  now rewrite (amountPattern_zero_digit c2 s Hd) in Hm.
Qed.

(** ** The amount field *)

Import JsNumber JsParse.

(** [parseFloat] on a few strings: the nearest binary64 values of 0.1 and
    of 126.25, a prefix followed by other characters, an exponent, and
    strings with no number in front. *)
Example parseFloat_samples :
  parseFloat "0.1" = S754_finite false 7205759403792794 (-56)
  /\ parseFloat "126.25" = S754_finite false 8884053952430080 (-46)
  /\ parseFloat "  -12.5e2abc" = ofZ (-1250)
  /\ parseFloat "1e400" = S754_infinity false
  /\ parseFloat "-0" = S754_zero true
  /\ parseFloat "" = NaN
  /\ parseFloat "undefined" = NaN
  /\ parseFloat "." = NaN.
Proof. repeat split; vm_compute; reflexivity. Qed.

Lemma gt_10000 (x : number) :
  gt x (ofZ 10000) = true -> gt x (ofZ 0) = true /\ le x (ofZ 10000) = false.
Proof.
  unfold gt, le.
  destruct (SFcompare x (ofZ 10000)) as [[| |]|] eqn:E; try discriminate.
  intros _. split; [|reflexivity].
  revert E.
  replace (ofZ 10000) with (S754_finite false 5497558138880000 (-39))
    by (vm_compute; reflexivity).
  destruct x as [s|s| |s m e]; cbv [SFcompare ofZ].
  - discriminate.
  - destruct s; [discriminate | reflexivity].
  - discriminate.
  - destruct s; [discriminate | reflexivity].
Qed.

(** A value that parses to a number greater than another is neither
    [undefined] nor the empty string. *)
Lemma gt_parse_not_falsy (v : value) (k : number) :
  gt (parseFloat (toStr v)) k = true -> falsy v = false.
Proof.
  destruct v as [[|c s]|]; simpl; try reflexivity.
  - vm_compute. discriminate.
  - vm_compute. discriminate.
Qed.

Example amount_at_the_limit :
  fieldError amountRules (Some "10000") = None
  /\ fieldError amountRules (Some "10000.00") = None
  /\ fieldError amountRules (Some "9999.99") = None.
Proof. repeat split; vm_compute; reflexivity. Qed.

(** C10.  The amount input of the funding form has an upper limit of
    10000.  For every value whose parsed number ([parseFloat]) is greater
    than 10000, the [maxAmount] rule answers "Amount cannot exceed
    $10,000" and the field is rejected; when the value also matches the
    amount pattern, the positivity rule and the leading-zero rule pass and
    that message is the error the form reports. *)
Theorem maxAmount_upper_limit (v : value) :
  gt (parseFloat (toStr v)) (ofZ 10000) = true ->
  maxAmount v = Some "Amount cannot exceed $10,000"
  /\ (exists msg, fieldError amountRules v = Some msg)
  /\ (matches amountPattern (toStr v) = true ->
      minAmount v = None
      /\ noLeadingZeros v = None
      /\ fieldError amountRules v = Some "Amount cannot exceed $10,000").
Proof.
  intro Hgt.
  destruct (gt_10000 _ Hgt) as [Hpos Hle].
  pose proof (gt_parse_not_falsy v _ Hgt) as Hne.
  assert (maxAmount v = Some "Amount cannot exceed $10,000") as Hmax.
  { unfold maxAmount. cbv zeta. now rewrite Hle. }
  assert (minAmount v = None) as Hmin.
  { unfold minAmount. cbv zeta. now rewrite Hpos. }
  assert (fieldError amountRules v =
          if matches amountPattern (toStr v)
          then Some "Amount cannot exceed $10,000"
          else Some "Invalid amount format (no leading zeros)") as Herr.
  { unfold fieldError, amountRules.
    cbn [required pattern validate]. rewrite Hne.
    destruct (matches amountPattern (toStr v)); [|reflexivity].
    cbn [firstVerdict]. now rewrite Hmin, Hmax. }
  split; [exact Hmax|]. split.
  - rewrite Herr. destruct (matches amountPattern (toStr v)); eauto.
  - intro Hpat. split; [exact Hmin|]. split.
    + unfold noLeadingZeros.
      now rewrite (amountPattern_no_leading_zero _ Hpat).
    + now rewrite Herr, Hpat.
Qed.

Lemma maxAmount_upper_limit_witness :
  gt (parseFloat "10000.01") (ofZ 10000) = true
  /\ matches amountPattern "10000.01" = true
  /\ fieldError amountRules (Some "10000.01")
     = Some "Amount cannot exceed $10,000".
Proof.
  assert (gt (parseFloat "10000.01") (ofZ 10000) = true) as Hgt
    by (vm_compute; reflexivity).
  assert (matches amountPattern "10000.01" = true) as Hpat
    by (vm_compute; reflexivity).
  split; [exact Hgt|]. split; [exact Hpat|].
  destruct (maxAmount_upper_limit (Some "10000.01") Hgt) as (_ & _ & Hform).
  destruct (Hform Hpat) as (_ & _ & Herr). exact Herr.
Defined.

(** ** The routing number field *)

Lemma routingNumber_required (v : value) :
  falsy v = true ->
  fieldError (routingNumberRules bank) v
  = Some "Routing number is required for bank transfers".
Proof. intro Hf. unfold fieldError. cbn [required routingNumberRules FundingType_eqb]. now rewrite Hf. Qed.

Lemma routingNumber_accepted (v : value) :
  fieldError (routingNumberRules bank) v = None <->
  exists s : string,
    v = Some s /\ String.length s = 9%nat /\ allDigits s = true
    /\ s <> "000000000".
Proof.
  split.
  - destruct (falsy v) eqn:Hf.
    + rewrite (routingNumber_required _ Hf). discriminate.
    + destruct v as [s|]; [|discriminate Hf].
      unfold fieldError.
      cbn [required pattern validate routingNumberRules FundingType_eqb toStr].
      rewrite Hf, matches_rep_digit.
      destruct (String.length s =? 9)%nat eqn:Hlen; [|discriminate].
      destruct (allDigits s) eqn:Hd; [|discriminate].
      cbn [andb firstVerdict]. unfold notAllZeros. rewrite Hf.
      cbn [toStr].
      destruct (String.eqb_spec s "000000000") as [-> | Hne];
        [discriminate|].
      intros _. exists s. apply Nat.eqb_eq in Hlen. now repeat split.
  - intros (s & -> & Hlen & Hd & Hne).
    assert (falsy (Some s) = false) as Hf
      by (destruct s; [discriminate Hlen | reflexivity]).
    unfold fieldError.
    cbn [required pattern validate routingNumberRules FundingType_eqb toStr].
    rewrite Hf, matches_rep_digit, Hlen, Hd.
    cbn [Nat.eqb andb firstVerdict]. unfold notAllZeros. rewrite Hf.
    cbn [toStr].
    destruct (String.eqb_spec s "000000000") as [-> | _]; [now elim Hne|].
    reflexivity.
Qed.

(** ** The account router over any persistence *)

Import Router.

Section AnyPersistence.
Context {St : Type} `{Persistence St}.

Lemma lastEvent_logged (e : Event) (st : St) (w : World St) :
  lastEvent (logged e st w) = Some e.
Proof. unfold lastEvent, logged. simpl. now rewrite rev_app_distr. Qed.

Lemma dbGetAccount_run (c : AccountCond) (w : World St) :
  dbGetAccount c w =
  (Ok (hd_error (selectAccounts (db w) c)),
   logged (EvSelectAccounts c (selectAccounts (db w) c)) (db w) w).
Proof. reflexivity. Qed.

Lemma generateAccountNumber_run (w : World St) :
  exists n w', generateAccountNumber w = (Ok n, w')
    /\ db w' = db w /\ events w' = events w /\ drawn w' = S (drawn w).
Proof. eexists. eexists. split; [reflexivity|]. repeat split. Qed.

Lemma lastEvent_snoc (w : World St) (pre : list Event) (e : Event) :
  events w = (pre ++ [e])%list -> lastEvent w = Some e.
Proof. intro Hev. unfold lastEvent. rewrite Hev. now rewrite rev_app_distr. Qed.

Lemma lastEvent_snoc2 (w : World St) (pre : list Event) (e1 e2 : Event) :
  events w = (pre ++ [e1; e2])%list -> lastEvent w = Some e2.
Proof.
  intro Hev. apply (lastEvent_snoc w (pre ++ [e1])).
  now rewrite <- app_assoc.
Qed.

(** What the loop leaves behind: it never raises; when it ends with a
    number, the last thing done was the look-up of that number, which
    found nothing; the stored state is as it was. *)
Lemma uniqueAccountNumber_cases (fuel : nat) :
  forall w : World St,
    match uniqueAccountNumber fuel w with
    | (Ok n, w') =>
        db w' = db w
        /\ exists pre,
            events w' = (pre ++ [EvSelectAccounts (AccNumberEq n) []])%list
    | (Throw _, _) => False
    | (OutOfFuel, w') =>
        db w' = db w
        /\ (lastEvent w' = lastEvent w
            \/ exists n a rows,
                lastEvent w' = Some (EvSelectAccounts (AccNumberEq n) (a :: rows)))
    end.
Proof.
  induction fuel as [|fuel IH]; intro w.
  - simpl. auto.
  - cbn [uniqueAccountNumber]. unfold bind at 1.
    destruct (generateAccountNumber_run w) as (n & w1 & -> & Hdb & Hev & _).
    unfold bind at 1. rewrite dbGetAccount_run.
    destruct (selectAccounts (db w1) (AccNumberEq n)) as [|a rows] eqn:Hsel;
      cbn [hd_error].
    + unfold ret. cbn [logged db events]. split; [exact Hdb|].
      now exists (events w1).
    + specialize (IH (logged (EvSelectAccounts (AccNumberEq n) (a :: rows))
                             (db w1) w1)).
      destruct (uniqueAccountNumber fuel _) as [[n' | e |] w2];
        [ | exact IH | ].
      * destruct IH as [Hd Hl]. cbn [logged db] in Hd.
        split; [congruence | exact Hl].
      * destruct IH as [Hd Hl]. cbn [logged db] in Hd. split; [congruence|].
        right. destruct Hl as [Hl | Hl]; [|exact Hl].
        rewrite lastEvent_logged in Hl. eauto.
Qed.

Lemma createAccount_end
  (fuel : nat) (ty : AccountType) (ctx : Ctx) (w : World St) :
  let (r, w') := createAccount fuel ty ctx w in CreateAccountEnd ty ctx r w'.
Proof.
  unfold createAccount. unfold bind at 1. rewrite dbGetAccount_run.
  set (c0 := AccAnd (AccUserIdEq (user_id ctx)) (AccTypeEq ty)).
  set (w0 := logged (EvSelectAccounts c0 (selectAccounts (db w) c0)) (db w) w).
  assert (lastEvent w0 = Some (EvSelectAccounts c0 (selectAccounts (db w) c0)))
    as Hw0 by apply lastEvent_logged.
  destruct (selectAccounts (db w) c0) as [|a0 rows0] eqn:Hsel0; cbn [hd_error].
  - unfold bind at 1.
    pose proof (uniqueAccountNumber_cases fuel w0) as Hloop.
    destruct (uniqueAccountNumber fuel w0) as [[n | e |] w1];
      [ | contradiction | ].
    + destruct Hloop as [Hdb1 [pre Hev1]].
      unfold bind at 1. unfold dbInsertAccount.
      fold (openingOf ty ctx n).
      destruct (insertAccount (db w1) _) as [st2 [e|]] eqn:Hins.
      * eapply EndInsertFailed with (pre := pre).
        unfold logged. cbn [events]. rewrite Hev1. now rewrite <- app_assoc.
      * unfold bind. rewrite dbGetAccount_run. cbn [logged db].
        destruct (selectAccounts st2 (AccNumberEq n)) as [|a rows] eqn:Hsel2;
          cbn [hd_error]; unfold throw, ret.
        -- eapply EndNotStored with (pre := events w1).
           unfold logged. cbn [events]. now rewrite <- app_assoc.
        -- eapply EndStored with (pre := events w1); [|exact Hsel2].
           unfold logged. cbn [events]. now rewrite <- app_assoc.
    + destruct Hloop as [Hdb1 [Hl1 | (n & a & rows & Hl1)]].
      * rewrite Hw0 in Hl1. eapply EndOutOfFuel; [exact Hl1 | reflexivity].
      * eapply EndOutOfFuel; [exact Hl1 | discriminate].
  - unfold throw. eapply EndConflict. exact Hw0.
Qed.

(** Case analysis on the way a call of [createAccount] ended, given what
    [H] says of the last thing it did. *)
Ltac createAccount_ends H :=
  let Hend := fresh "Hend" in
  match type of H with
  | context [createAccount ?fuel ?ty ?ctx ?w] =>
      pose proof (createAccount_end fuel ty ctx w) as Hend;
      destruct (createAccount fuel ty ctx w) as [? ?];
      cbn [fst snd] in *;
      destruct Hend as [? ? Hl | ? ? ? Hl Hc | ? pre' n' e' Hev | ? pre' n' Hev
                        | ? pre' n' a' rows' Hev Hs];
      try (apply lastEvent_snoc2 in Hev as Hl)
  end.

(** C3.  When the last thing [createAccount] did with [db] is the re-read
    of the account by its number, and the re-read gave no row, then the
    insert of the account with balance 0 had just gone through, the call
    raises the error INTERNAL_SERVER_ERROR "Failed to create account",
    and it returns no account at all, so no made-up one. *)
Theorem createAccount_reread_empty
  (fuel : nat) (ty : AccountType) (ctx : Ctx) (w : World St) (n : string) :
  lastEvent (snd (createAccount fuel ty ctx w))
    = Some (EvSelectAccounts (AccNumberEq n) []) ->
  fst (createAccount fuel ty ctx w)
    = Throw (TRPCError INTERNAL_SERVER_ERROR "Failed to create account")
  /\ (forall a : Account.t, fst (createAccount fuel ty ctx w) <> Ok a)
  /\ exists pre : list Event,
      events (snd (createAccount fuel ty ctx w)) =
      (pre ++ [EvInsertAccount (openingOf ty ctx n) None;
               EvSelectAccounts (AccNumberEq n) []])%list.
Proof.
  intro Hlast.
  createAccount_ends Hlast; rewrite Hl in Hlast; try discriminate.
  - injection Hlast as Hc' Hrows. specialize (Hc Hrows). congruence.
  - injection Hlast as ->.
    split; [reflexivity|]. split; [discriminate|]. now exists pre'.
Qed.

(** An account [createAccount] returns is the first row the re-read by
    account number found in the stored state, after the insert. *)
Lemma createAccount_returns_stored
  (fuel : nat) (ty : AccountType) (ctx : Ctx) (w : World St) (a : Account.t) :
  fst (createAccount fuel ty ctx w) = Ok a ->
  exists n rows,
    selectAccounts (db (snd (createAccount fuel ty ctx w))) (AccNumberEq n)
    = a :: rows.
Proof.
  intro Hok. createAccount_ends Hok; try discriminate.
  injection Hok as ->. eauto.
Qed.

(** A failed insert ends the call with the error of the insert; the
    existence check just before it had found the number free. *)
Lemma createAccount_insert_failed
  (fuel : nat) (ty : AccountType) (ctx : Ctx) (w : World St)
  (v : NewAccount) (e : DbError) :
  lastEvent (snd (createAccount fuel ty ctx w))
    = Some (EvInsertAccount v (Some e)) ->
  fst (createAccount fuel ty ctx w) = Throw (DbException e)
  /\ exists pre : list Event,
      events (snd (createAccount fuel ty ctx w)) =
      (pre ++ [EvSelectAccounts (AccNumberEq (na_accountNumber v)) [];
               EvInsertAccount v (Some e)])%list.
Proof.
  intro Hlast.
  createAccount_ends Hlast; rewrite Hl in Hlast; try discriminate.
  injection Hlast as <- <-. split; [reflexivity|]. now exists pre'.
Qed.

(** One turn of the loop: the candidate of the world is looked up; when
    it is in use the loop goes round with the next hash, and when it is
    free the loop ends with it. *)
Lemma uniqueAccountNumber_turn (fuel : nat) (w : World St) :
  let n := candidate w in
  let rows := selectAccounts (db w) (AccNumberEq n) in
  let w' := {| db := db w;
               events := (events w ++ [EvSelectAccounts (AccNumberEq n) rows])%list;
               hashes := hashes w; drawn := S (drawn w); now := now w |} in
  (rows <> [] ->
   uniqueAccountNumber (S fuel) w = uniqueAccountNumber fuel w')
  /\ (rows = [] -> uniqueAccountNumber (S fuel) w = (Ok n, w')).
Proof.
  cbv zeta. unfold candidate. cbn [uniqueAccountNumber].
  unfold generateAccountNumber, dbGetAccount, dbSelectAccounts, bcryptHash.
  unfold bind, ret, logged.
  cbn [db events hashes drawn now].
  destruct (selectAccounts (db w) _) as [|a rows]; cbn [hd_error].
  - split; [intro Hne; now elim Hne | reflexivity].
  - split; [reflexivity | discriminate].
Qed.

(** The loop only looks accounts up: what it adds to the log are
    look-ups in the accounts table, and the stored state is as it was,
    however the loop ends. *)
Lemma uniqueAccountNumber_lookups (fuel : nat) :
  forall w : World St,
    db (snd (uniqueAccountNumber fuel w)) = db w
    /\ exists lookups : list Event,
        events (snd (uniqueAccountNumber fuel w)) = (events w ++ lookups)%list
        /\ forallb isAccountLookup lookups = true.
Proof.
  induction fuel as [|fuel IH]; intro w.
  - cbn. split; [reflexivity|]. exists []. now rewrite app_nil_r.
  - destruct (uniqueAccountNumber_turn fuel w) as [Hretry Hend].
    cbv zeta in Hretry, Hend.
    destruct (selectAccounts (db w) (AccNumberEq (candidate w)))
      as [|a rows] eqn:Hsel.
    + rewrite (Hend eq_refl). cbn [snd db events]. split; [reflexivity|].
      now exists [EvSelectAccounts (AccNumberEq (candidate w)) []].
    + rewrite Hretry by discriminate.
      match goal with
      | |- context [uniqueAccountNumber fuel ?w0] =>
          destruct (IH w0) as [Hdb (lookups & Hev & Hall)]
      end.
      cbn [db events] in Hdb, Hev. split; [exact Hdb|].
      exists (EvSelectAccounts (AccNumberEq (candidate w)) (a :: rows)
                :: lookups).
      split; [|exact Hall].
      rewrite Hev. now rewrite <- app_assoc.
Qed.

(** The insert comes once, after the loop: when the loop has ended with
    a number and the insert of the account with that number raises, the
    call ends there, with the error of the insert. *)
Lemma createAccount_insert_error_run
  (fuel : nat) (ty : AccountType) (ctx : Ctx) (w : World St)
  (n1 : string) (w1 : World St) (st2 : St) (e : DbError) :
  let c0 := AccAnd (AccUserIdEq (user_id ctx)) (AccTypeEq ty) in
  selectAccounts (db w) c0 = [] ->
  uniqueAccountNumber fuel (logged (EvSelectAccounts c0 []) (db w) w)
    = (Ok n1, w1) ->
  insertAccount (db w1) (openingOf ty ctx n1) = (st2, Some e) ->
  createAccount fuel ty ctx w
  = (Throw (DbException e),
     logged (EvInsertAccount (openingOf ty ctx n1) (Some e)) st2 w1).
Proof.
  intros c0 Hsel Hloop Hins.
  unfold createAccount. unfold bind at 1. rewrite dbGetAccount_run.
  fold c0. rewrite Hsel. cbn [hd_error].
  unfold bind at 1. rewrite Hloop.
  unfold bind at 1. unfold dbInsertAccount.
  fold (openingOf ty ctx n1). rewrite Hins. reflexivity.
Qed.

Lemma insertsIssued_lookups (lookups : list Event) :
  forallb isAccountLookup lookups = true -> insertsIssued lookups = 0%nat.
Proof.
  unfold insertsIssued.
  induction lookups as [|ev l IH]; [reflexivity|].
  cbn [forallb filter]. intro Hall. apply andb_true_iff in Hall as [Hev Hl].
  destruct ev; try discriminate. cbn [isAccountInsert]. now apply IH.
Qed.

Lemma insertsIssued_app (l1 l2 : list Event) :
  insertsIssued (l1 ++ l2) = (insertsIssued l1 + insertsIssued l2)%nat.
Proof. unfold insertsIssued. now rewrite filter_app, length_app. Qed.

(** Whatever the way a call of [createAccount] ends, it has issued at
    most one insert into the accounts table. *)
Lemma createAccount_inserts_at_most_once
  (fuel : nat) (ty : AccountType) (ctx : Ctx) (w : World St) :
  exists added : list Event,
    events (snd (createAccount fuel ty ctx w)) = (events w ++ added)%list
    /\ (insertsIssued added <= 1)%nat.
Proof.
  unfold createAccount. unfold bind at 1. rewrite dbGetAccount_run.
  set (c0 := AccAnd (AccUserIdEq (user_id ctx)) (AccTypeEq ty)).
  destruct (selectAccounts (db w) c0) as [|a0 rows0] eqn:Hsel0; cbn [hd_error].
  - unfold bind at 1.
    destruct (uniqueAccountNumber_lookups fuel
                (logged (EvSelectAccounts c0 []) (db w) w))
      as [_ (lookups & Hev & Hall)].
    apply insertsIssued_lookups in Hall.
    destruct (uniqueAccountNumber fuel _) as [[n | e |] w1];
      cbn [snd logged events] in Hev.
    + unfold bind at 1. unfold dbInsertAccount.
      fold (openingOf ty ctx n).
      destruct (insertAccount (db w1) _) as [st2 [e|]] eqn:Hins.
      * cbn [snd logged events].
        exists ((EvSelectAccounts c0 [] :: lookups)
                  ++ [EvInsertAccount (openingOf ty ctx n) (Some e)])%list.
        split.
        -- rewrite Hev. rewrite <- !app_assoc. reflexivity.
        -- rewrite insertsIssued_app.
           change (insertsIssued (EvSelectAccounts c0 [] :: lookups))
             with (insertsIssued lookups).
           rewrite Hall. cbn. lia.
      * unfold bind. rewrite dbGetAccount_run. cbn [logged db events].
        exists ((EvSelectAccounts c0 [] :: lookups)
                  ++ [EvInsertAccount (openingOf ty ctx n) None;
                      EvSelectAccounts (AccNumberEq n)
                        (selectAccounts st2 (AccNumberEq n))])%list.
        split.
        -- destruct (selectAccounts st2 (AccNumberEq n)) as [|a rows];
             cbn [hd_error]; unfold throw, ret; cbn [snd logged events];
             rewrite Hev; rewrite <- !app_assoc; reflexivity.
        -- rewrite insertsIssued_app.
           change (insertsIssued (EvSelectAccounts c0 [] :: lookups))
             with (insertsIssued lookups).
           rewrite Hall. cbn. lia.
    + cbn [snd]. exists (EvSelectAccounts c0 [] :: lookups).
      split.
      * rewrite Hev. rewrite <- app_assoc. reflexivity.
      * change (insertsIssued (EvSelectAccounts c0 [] :: lookups))
          with (insertsIssued lookups). lia.
    + cbn [snd]. exists (EvSelectAccounts c0 [] :: lookups).
      split.
      * rewrite Hev. rewrite <- app_assoc. reflexivity.
      * change (insertsIssued (EvSelectAccounts c0 [] :: lookups))
          with (insertsIssued lookups). lia.
  - unfold throw. cbn [snd logged events].
    exists [EvSelectAccounts c0 (a0 :: rows0)]. split; [reflexivity|].
    cbn. lia.
Qed.

(** C9 (amended).  In the loop of [createAccount], a candidate that the
    existence check finds in use makes the loop go round with a newly
    generated candidate; a candidate the check does not find ends the
    loop.  The insert is issued once, after the loop: when the loop has
    ended with a number and the insert of the account with that number
    raises, uniqueness violation or other, the call ends there with that
    error, in the world the failed insert left; no further candidate is
    generated, and all the call did before the insert were look-ups.
    However the call ends, it has issued at most one insert; and a call
    whose last event is a failed insert ended with the error of that
    insert. *)
Theorem createAccount_retries_on_lookup_only
  (fuel : nat) (ty : AccountType) (ctx : Ctx) (w : World St) :
  let n := candidate w in
  let rows := selectAccounts (db w) (AccNumberEq n) in
  let w' := {| db := db w;
               events := (events w ++ [EvSelectAccounts (AccNumberEq n) rows])%list;
               hashes := hashes w; drawn := S (drawn w); now := now w |} in
  let c0 := AccAnd (AccUserIdEq (user_id ctx)) (AccTypeEq ty) in
  (rows <> [] ->
   uniqueAccountNumber (S fuel) w = uniqueAccountNumber fuel w')
  /\ (rows = [] -> uniqueAccountNumber (S fuel) w = (Ok n, w'))
  /\ (forall (n1 : string) (w1 : World St) (st2 : St) (e : DbError),
        selectAccounts (db w) c0 = [] ->
        uniqueAccountNumber fuel (logged (EvSelectAccounts c0 []) (db w) w)
          = (Ok n1, w1) ->
        insertAccount (db w1) (openingOf ty ctx n1) = (st2, Some e) ->
        createAccount fuel ty ctx w
        = (Throw (DbException e),
           logged (EvInsertAccount (openingOf ty ctx n1) (Some e)) st2 w1)
        /\ exists lookups : list Event,
            events w1 = (events w ++ lookups)%list
            /\ forallb isAccountLookup lookups = true)
  /\ (exists added : list Event,
        events (snd (createAccount fuel ty ctx w)) = (events w ++ added)%list
        /\ (insertsIssued added <= 1)%nat)
  /\ (forall (v : NewAccount) (e : DbError),
        lastEvent (snd (createAccount fuel ty ctx w))
          = Some (EvInsertAccount v (Some e)) ->
        fst (createAccount fuel ty ctx w) = Throw (DbException e)
        /\ exists pre : list Event,
            events (snd (createAccount fuel ty ctx w)) =
            (pre ++ [EvSelectAccounts (AccNumberEq (na_accountNumber v)) [];
                     EvInsertAccount v (Some e)])%list).
Proof.
  cbv zeta.
  destruct (uniqueAccountNumber_turn fuel w) as [Hretry Hend].
  split; [exact Hretry|]. split; [exact Hend|].
  split; [|split].
  - intros n1 w1 st2 e Hsel Hloop Hins. split.
    + now apply createAccount_insert_error_run.
    + destruct (uniqueAccountNumber_lookups fuel
                  (logged (EvSelectAccounts
                             (AccAnd (AccUserIdEq (user_id ctx)) (AccTypeEq ty))
                             []) (db w) w))
        as [_ (lookups & Hev & Hall)].
      rewrite Hloop in Hev. cbn [snd logged events] in Hev.
      exists (EvSelectAccounts
                (AccAnd (AccUserIdEq (user_id ctx)) (AccTypeEq ty)) []
                :: lookups).
      split; [|exact Hall].
      rewrite Hev. now rewrite <- app_assoc.
  - apply createAccount_inserts_at_most_once.
  - intros v e. apply createAccount_insert_failed.
Qed.

Lemma fundAccountHandler_not_found (input : FundAccountInput) (ctx : Ctx) (w : World St) :
  let c := AccAnd (AccIdEq (accountId input)) (AccUserIdEq (user_id ctx)) in
  selectAccounts (db w) c = [] ->
  fundAccountHandler input ctx w =
  (Throw (TRPCError NOT_FOUND "Account not found"),
   logged (EvSelectAccounts c []) (db w) w).
Proof.
  intros c Hsel. unfold fundAccountHandler. cbv zeta. unfold bind at 1.
  rewrite dbGetAccount_run. fold c. rewrite Hsel. reflexivity.
Qed.

Lemma fundAccountHandler_not_active (input : FundAccountInput) (ctx : Ctx) (w : World St)
  (a : Account.t) (rest : list Account.t) :
  let c := AccAnd (AccIdEq (accountId input)) (AccUserIdEq (user_id ctx)) in
  selectAccounts (db w) c = a :: rest ->
  Account.status a <> "active" ->
  fundAccountHandler input ctx w =
  (Throw (TRPCError BAD_REQUEST "Account is not active"),
   logged (EvSelectAccounts c (a :: rest)) (db w) w).
Proof.
  intros c Hsel Hst. unfold fundAccountHandler. cbv zeta. unfold bind at 1.
  rewrite dbGetAccount_run. fold c. rewrite Hsel. cbn [hd_error].
  apply String.eqb_neq in Hst. rewrite Hst. reflexivity.
Qed.

(** C4.  For a [fundAccount] call whose input passes the schema: when no
    account with the given identifier belongs to the caller the call
    fails with NOT_FOUND, and when the account is there but its status is
    not "active" it fails with BAD_REQUEST; in both cases the stored
    state is what it was (no transaction row, the same balance) and the
    only thing done with [db] is the account lookup. *)
Theorem fundAccount_fails_fast
  (input : FundAccountInput) (ctx : Ctx) (w : World St) :
  fundAccountSchema input = true ->
  let c := AccAnd (AccIdEq (accountId input)) (AccUserIdEq (user_id ctx)) in
  let rows := selectAccounts (db w) c in
  let run := fundAccount input ctx w in
  (rows = [] ->
   fst run = Throw (TRPCError NOT_FOUND "Account not found"))
  /\ (forall a rest, rows = a :: rest -> Account.status a <> "active" ->
      fst run = Throw (TRPCError BAD_REQUEST "Account is not active"))
  /\ (rows = [] \/ (exists a rest, rows = a :: rest /\ Account.status a <> "active") ->
      db (snd run) = db w
      /\ events (snd run) = (events w ++ [EvSelectAccounts c rows])%list).
Proof.
  intros Hschema c rows run. subst run rows. unfold fundAccount. rewrite Hschema.
  split; [|split].
  - intro Hsel. now rewrite (fundAccountHandler_not_found input ctx w Hsel).
  - intros a rest Hsel Hst.
    now rewrite (fundAccountHandler_not_active input ctx w a rest Hsel Hst).
  - intros [Hsel | (a & rest & Hsel & Hst)].
    + rewrite (fundAccountHandler_not_found input ctx w Hsel).
      fold c. rewrite Hsel. split; reflexivity.
    + rewrite (fundAccountHandler_not_active input ctx w a rest Hsel Hst).
      fold c. rewrite Hsel. split; reflexivity.
Qed.

Lemma fundAccountHandler_ok
  (input : FundAccountInput) (ctx : Ctx) (w : World St)
  (account : Account.t) (rest : list Account.t) (st1 st2 : St) :
  let c := AccAnd (AccIdEq (accountId input)) (AccUserIdEq (user_id ctx)) in
  let sum := JsNumber.add (Account.balance account) (amount input) in
  let latest := selectTransactions st1 (TxAccountIdEq (accountId input))
                                   DescCreatedAt (Some 1%nat) in
  selectAccounts (db w) c = account :: rest ->
  Account.status account = "active" ->
  insertTransaction (db w) (depositOf input (now w)) = (st1, None) ->
  updateAccountBalance st1 (AccIdEq (accountId input)) sum = (st2, None) ->
  fundAccountHandler input ctx w =
  (Ok {| fr_transaction := hd_error latest; newBalance := sum |},
   {| db := st2;
      events :=
        (events w ++
         [EvSelectAccounts c (account :: rest);
          EvInsertTransaction (depositOf input (now w)) None;
          EvSelectTransactions (TxAccountIdEq (accountId input))
                               DescCreatedAt (Some 1%nat) latest;
          EvUpdateBalance (AccIdEq (accountId input)) sum None])%list;
      hashes := hashes w; drawn := drawn w; now := now w |}).
Proof.
  intros c sum latest Hsel Hact Hins Hupd.
  unfold fundAccountHandler. cbv zeta. unfold bind at 1.
  rewrite dbGetAccount_run. fold c. rewrite Hsel. cbn [hd_error].
  rewrite Hact. rewrite String.eqb_refl. cbn [negb].
  unfold bind at 1. unfold dateNow.
  unfold bind at 1. unfold dbInsertTransaction.
  cbn [logged db now]. fold (depositOf input (now w)). rewrite Hins.
  unfold bind at 1. unfold dbSelectTransactions. cbn [logged db]. fold latest.
  unfold bind at 1. unfold dbUpdateBalance. cbn [logged db]. fold sum.
  rewrite Hupd. unfold ret, logged. cbn [db events hashes drawn now].
  repeat rewrite <- app_assoc. reflexivity.
Qed.

(** The routing number and the account number of the funding source
    play no part in [fundAccount]. *)
Lemma fundAccount_ignores_routingNumber
  (input : FundAccountInput) (ctx : Ctx) (w : World St) (r : option string) :
  fundAccount (withRoutingNumber r input) ctx w = fundAccount input ctx w.
Proof. destruct input as [i a [t n r0]]. reflexivity. Qed.

(** The queries of [getTransactions]: one account lookup, then one
    selection of transactions, whatever the number of rows. *)
Lemma getTransactions_run (accountId : Z) (ctx : Ctx) (w : World St)
  (account : Account.t) (rest : list Account.t) :
  let c := AccAnd (AccIdEq accountId) (AccUserIdEq (user_id ctx)) in
  selectAccounts (db w) c = account :: rest ->
  let rows := selectTransactions (db w) (TxAccountIdEq accountId) DescCreatedAt None in
  getTransactions accountId ctx w =
  (Ok (map (fun x => {| transaction := x; accountType := Account.accountType account |}) rows),
   {| db := db w;
      events := (events w ++ [EvSelectAccounts c (account :: rest);
                              EvSelectTransactions (TxAccountIdEq accountId) DescCreatedAt None rows])%list;
      hashes := hashes w; drawn := drawn w; now := now w |}).
Proof.
  intros c Hsel rows. unfold getTransactions. unfold bind at 1.
  rewrite dbGetAccount_run. fold c. rewrite Hsel. cbn [hd_error].
  unfold bind, dbSelectTransactions, ret, logged. cbn [db events hashes drawn now].
  fold rows. rewrite <- app_assoc. reflexivity.
Qed.

End AnyPersistence.

(** ** The account router over tables kept as lists *)

Import Samples.

Lemma insertDesc_perm (x : Transaction.t) (l : list Transaction.t) :
  Permutation (ListDb.insertDesc x l) (x :: l).
Proof.
  induction l as [|y l IH]; simpl; [reflexivity|].
  destruct (Transaction.createdAt y <=? Transaction.createdAt x); [reflexivity|].
  rewrite IH. apply perm_swap.
Qed.

Lemma ordered_perm (o : Order) (l : list Transaction.t) :
  Permutation (ListDb.ordered o l) l.
Proof.
  destruct o; simpl; [reflexivity|].
  induction l as [|x l IH]; simpl; [reflexivity|].
  rewrite insertDesc_perm. now rewrite IH.
Qed.

Lemma insertDesc_sorted (x : Transaction.t) (l : list Transaction.t) :
  StronglySorted newerOrSame l -> StronglySorted newerOrSame (ListDb.insertDesc x l).
Proof.
  induction 1 as [|y l Hs IH Hall]; simpl.
  - repeat constructor.
  - destruct (Transaction.createdAt y <=? Transaction.createdAt x) eqn:Hle.
    + apply Z.leb_le in Hle. constructor; [now constructor|].
      constructor; [exact Hle|].
      eapply Forall_impl; [|exact Hall].
      unfold newerOrSame. intros z Hz. lia.
    + apply Z.leb_gt in Hle. constructor; [exact IH|].
      rewrite (insertDesc_perm x l). constructor; [|exact Hall].
      unfold newerOrSame. lia.
Qed.

Lemma ordered_desc_sorted (l : list Transaction.t) :
  StronglySorted newerOrSame (ListDb.ordered DescCreatedAt l).
Proof.
  induction l as [|x l IH]; simpl; [constructor|].
  now apply insertDesc_sorted.
Qed.

Lemma map_transaction_enrich (ty : AccountType) (rows : list Transaction.t) :
  map transaction
      (map (fun x => {| transaction := x; accountType := ty |}) rows) = rows.
Proof. rewrite map_map. simpl. apply map_id. Qed.

(** C5.  When the account belongs to the caller, [getTransactions]
    returns the transactions of that account, all of them and no other
    (a permutation of the rows of the table with that account identifier),
    newest first by creation time, each with the account type of the
    account record found by the ownership lookup.  The stored state is
    not changed, and what is done with [db] is that one account lookup
    followed by one selection of transactions, whatever the number of
    rows: no lookup per transaction. *)
Theorem getTransactions_newest_first
  (accountId : Z) (ctx : Ctx) (w : World ListDb.t)
  (account : Account.t) (rest : list Account.t) :
  let c := AccAnd (AccIdEq accountId) (AccUserIdEq (user_id ctx)) in
  selectAccounts (db w) c = account :: rest ->
  exists result : list EnrichedTransaction,
    fst (getTransactions accountId ctx w) = Ok result
    /\ Permutation (map transaction result)
         (filter (fun x => Transaction.accountId x =? accountId)
                 (ListDb.transactions (db w)))
    /\ StronglySorted newerOrSame (map transaction result)
    /\ Forall (fun e => accountType e = Account.accountType account) result
    /\ db (snd (getTransactions accountId ctx w)) = db w
    /\ events (snd (getTransactions accountId ctx w)) =
       (events w ++
        [EvSelectAccounts c (account :: rest);
         EvSelectTransactions (TxAccountIdEq accountId) DescCreatedAt None
                              (map transaction result)])%list.
Proof.
  intros c Hsel.
  rewrite (getTransactions_run accountId ctx w account rest Hsel).
  eexists. split; [reflexivity|]. cbn [fst snd db events].
  rewrite map_transaction_enrich.
  split; [|split; [|split; [|split]]].
  - apply ordered_perm.
  - apply ordered_desc_sorted.
  - apply Forall_forall. intros e He. apply in_map_iff in He as (x & <- & _).
    reflexivity.
  - reflexivity.
  - reflexivity.
Qed.

Lemma getTransactions_newest_first_witness :
  selectAccounts (db (world bank2))
                 (AccAnd (AccIdEq 1) (AccUserIdEq (user_id alice)))
    = [aliceChecking (parseFloat "175") "active"]
  /\ exists result : list EnrichedTransaction,
      fst (getTransactions 1 alice (world bank2)) = Ok result
      /\ map (fun e => Transaction.id (transaction e)) result = [3; 4; 1]
      /\ StronglySorted newerOrSame (map transaction result).
Proof.
  assert (selectAccounts (db (world bank2))
                         (AccAnd (AccIdEq 1) (AccUserIdEq (user_id alice)))
          = [aliceChecking (parseFloat "175") "active"]) as Hsel
    by (vm_compute; reflexivity).
  split; [exact Hsel|].
  destruct (getTransactions_newest_first 1 alice (world bank2) _ _ Hsel)
    as (result & Hok & _ & Hsorted & _).
  exists result. split; [exact Hok|]. split; [|exact Hsorted].
  assert (fst (getTransactions 1 alice (world bank2))
          = Ok (map (fun x => {| transaction := x; accountType := checking |})
                    [deposit 3 1 "50" 30; deposit 4 1 "25" 20;
                     deposit 1 1 "100" 10])) as Hrun
    by (vm_compute; reflexivity).
  rewrite Hrun in Hok. injection Hok as <-. reflexivity.
Defined.

Lemma accountHolds_setBalance (c : AccountCond) (b : JsNumber.number) (a : Account.t) :
  ListDb.accountHolds c (ListDb.setBalance b a) = ListDb.accountHolds c a.
Proof. induction c; simpl; try reflexivity. now rewrite IHc1, IHc2. Qed.

(** After [update ... where id = i], the rows an account lookup by
    identifier and user finds are the rows it found before, with the new
    balance. *)
Lemma select_after_update (i u : Z) (b : JsNumber.number) (l : list Account.t) :
  let c := AccAnd (AccIdEq i) (AccUserIdEq u) in
  filter (ListDb.accountHolds c)
         (map (fun a => if ListDb.accountHolds (AccIdEq i) a
                        then ListDb.setBalance b a else a) l)
  = map (ListDb.setBalance b) (filter (ListDb.accountHolds c) l).
Proof.
  intro c. induction l as [|a l IH]; [reflexivity|].
  cbn [map filter].
  destruct (ListDb.accountHolds (AccIdEq i) a) eqn:Hid.
  - rewrite accountHolds_setBalance.
    destruct (ListDb.accountHolds c a); cbn [map]; now rewrite IH.
  - assert (ListDb.accountHolds c a = false) as ->.
    { subst c. cbn [ListDb.accountHolds] in *. now rewrite Hid. }
    exact IH.
Qed.


(** C2, as the claim states it, fails: the sum is not exact for every
    balance and amount.  An account opened with balance 0 is funded with
    0.10, which stores the balance 0.1, and then with 0.20: the new
    balance returned and stored is 0.30000000000000004, which is neither
    the exact sum of the stored balance and the amount nor the number
    0.30. *)
Lemma fundAccount_sum_not_exact :
  let c := AccAnd (AccIdEq 1) (AccUserIdEq (user_id alice)) in
  let w1 := snd (fundAccount (fundingInput 1 "0.10" card None) alice
                             (world (bank1 (ofZ 0) "active"))) in
  let run := fundAccount (fundingInput 1 "0.20" card None) alice w1 in
  let stored := S754_finite false 5404319552844596 (-54) in
  fundAccountSchema (fundingInput 1 "0.20" card None) = true
  /\ map Account.balance (selectAccounts (db w1) c) = [parseFloat "0.10"]
  /\ match fst run with
     | Ok r => newBalance r = stored
     | _ => False
     end
  /\ map Account.balance (selectAccounts (db (snd run)) c) = [stored]
  /\ isExactSum stored (parseFloat "0.10") (parseFloat "0.20") = false
  /\ SFcompare stored (parseFloat "0.30") = Some Gt.
Proof. cbv zeta. repeat split; vm_compute; reflexivity. Qed.

(** C2 (amended).  For every account the caller owns with stored balance
    [b] and status "active", and every amount [a] the schema accepts, the
    new balance [fundAccount] returns and the balance it stores are both
    the one binary64 sum [b + a] (a single addition, rounded once, not an
    accumulation); for [b] = 100.50 and [a] = 25.75 that sum is 126.25,
    and there it is exact. *)
Theorem fundAccount_new_balance
  (input : FundAccountInput) (ctx : Ctx) (w : World ListDb.t)
  (account : Account.t) (rest : list Account.t) :
  let c := AccAnd (AccIdEq (accountId input)) (AccUserIdEq (user_id ctx)) in
  let sum := add (Account.balance account) (amount input) in
  fundAccountSchema input = true ->
  selectAccounts (db w) c = account :: rest ->
  Account.status account = "active" ->
  (exists tx : option Transaction.t,
      fst (fundAccount input ctx w)
      = Ok {| fr_transaction := tx; newBalance := sum |})
  /\ selectAccounts (db (snd (fundAccount input ctx w))) c
     = map (ListDb.setBalance sum) (account :: rest)
  /\ add (parseFloat "100.50") (parseFloat "25.75") = parseFloat "126.25"
  /\ isExactSum (parseFloat "126.25") (parseFloat "100.50") (parseFloat "25.75")
     = true.
Proof.
  intros c sum Hschema Hsel Hact.
  split; [|split; [|split; vm_compute; reflexivity]].
  - unfold fundAccount. rewrite Hschema.
    erewrite (fundAccountHandler_ok input ctx w account rest _ _ Hsel Hact);
      [ | reflexivity | reflexivity ].
    eexists; reflexivity.
  - unfold fundAccount. rewrite Hschema.
    erewrite (fundAccountHandler_ok input ctx w account rest _ _ Hsel Hact);
      [ | reflexivity | reflexivity ].
    cbn [fst snd db].
    change (selectAccounts ?s ?c) with (ListDb.select_accounts s c) in *.
    unfold ListDb.select_accounts in *.
    cbn [ListDb.update_balance ListDb.insert_transaction fst ListDb.accounts].
    fold sum. subst c. rewrite select_after_update. now rewrite Hsel.
Qed.

Lemma fundAccount_new_balance_witness :
  let input := fundingInput 1 "25.75" card None in
  let w := world (bank1 (parseFloat "100.50") "active") in
  let c := AccAnd (AccIdEq 1) (AccUserIdEq (user_id alice)) in
  (exists tx : option Transaction.t,
      fst (fundAccount input alice w)
      = Ok {| fr_transaction := tx; newBalance := parseFloat "126.25" |})
  /\ map Account.balance (selectAccounts (db (snd (fundAccount input alice w))) c)
     = [parseFloat "126.25"].
Proof.
  cbv zeta.
  assert (fundAccountSchema (fundingInput 1 "25.75" card None) = true) as Hschema
    by (vm_compute; reflexivity).
  assert (selectAccounts (db (world (bank1 (parseFloat "100.50") "active")))
            (AccAnd (AccIdEq (accountId (fundingInput 1 "25.75" card None)))
                    (AccUserIdEq (user_id alice)))
          = [aliceChecking (parseFloat "100.50") "active"]) as Hsel
    by (vm_compute; reflexivity).
  destruct (fundAccount_new_balance (fundingInput 1 "25.75" card None) alice
              (world (bank1 (parseFloat "100.50") "active"))
              (aliceChecking (parseFloat "100.50") "active") []
              Hschema Hsel eq_refl) as ((tx & Hok) & Hstored & Hsum & _).
  split.
  - exists tx. rewrite Hok. cbn [aliceChecking Account.balance amount fundingInput].
    now rewrite Hsum.
  - change (accountId (fundingInput 1 "25.75" card None)) with 1 in Hstored.
    rewrite Hstored.
    cbn [map ListDb.setBalance Account.balance aliceChecking amount fundingInput].
    now rewrite Hsum.
Defined.

(** ** The account router next to other requests *)

Lemma createAccount_reread_empty_witness :
  lastEvent (snd (createAccount 1 checking alice (world lost)))
    = Some (EvSelectAccounts (AccNumberEq "2109827926") [])
  /\ fst (createAccount 1 checking alice (world lost))
     = Throw (TRPCError INTERNAL_SERVER_ERROR "Failed to create account").
Proof.
  assert (lastEvent (snd (createAccount 1 checking alice (world lost)))
          = Some (EvSelectAccounts (AccNumberEq "2109827926") [])) as Hlast
    by (vm_compute; reflexivity).
  split; [exact Hlast|].
  exact (proj1 (createAccount_reread_empty 1 checking alice (world lost)
                  "2109827926" Hlast)).
Defined.

Lemma fundAccount_fails_fast_witness :
  let input := fundingInput 1 "50" card None in
  let open := world (bank1 (ofZ 0) "active") in
  let frozen := world (bank1 (ofZ 0) "frozen") in
  (fst (fundAccount input bob open)
   = Throw (TRPCError NOT_FOUND "Account not found")
   /\ db (snd (fundAccount input bob open)) = db open)
  /\ (fst (fundAccount input alice frozen)
      = Throw (TRPCError BAD_REQUEST "Account is not active")
      /\ db (snd (fundAccount input alice frozen)) = db frozen).
Proof.
  cbv zeta.
  assert (fundAccountSchema (fundingInput 1 "50" card None) = true) as Hschema
    by (vm_compute; reflexivity).
  split.
  - destruct (fundAccount_fails_fast (fundingInput 1 "50" card None) bob
                (world (bank1 (ofZ 0) "active")) Hschema)
      as (Hnone & _ & Hsame).
    split; [apply Hnone; reflexivity|].
    apply Hsame. left. reflexivity.
  - destruct (fundAccount_fails_fast (fundingInput 1 "50" card None) alice
                (world (bank1 (ofZ 0) "frozen")) Hschema)
      as (_ & Hfrozen & Hsame).
    split.
    + apply (Hfrozen (aliceChecking (ofZ 0) "frozen") []); [reflexivity|].
      discriminate.
    + apply Hsame. right.
      exists (aliceChecking (ofZ 0) "frozen"), [].
      split; [reflexivity | discriminate].
Defined.

(** C9, as the claim states it, fails.  Another request inserts an
    account with the candidate number between the existence check and the
    insert: the check found nothing, the insert raises the uniqueness
    violation, and [createAccount] ends with that error after a single
    candidate, although fuel was left for more turns and the next two
    hashes were never drawn. *)
Lemma createAccount_unique_violation_is_fatal :
  let run := createAccount 5 checking alice (world raced) in
  fst run = Throw (DbException (UniqueViolation "accounts.account_number"))
  /\ drawn (snd run) = 1%nat
  /\ events (snd run) =
     [EvSelectAccounts (AccAnd (AccUserIdEq 7) (AccTypeEq checking)) [];
      EvSelectAccounts (AccNumberEq "2109827926") [];
      EvInsertAccount {| na_userId := 7;
                         na_accountNumber := "2109827926";
                         na_accountType := checking;
                         na_balance := ofZ 0;
                         na_status := "active" |}
                      (Some (UniqueViolation "accounts.account_number"))].
Proof. cbv zeta. repeat split; vm_compute; reflexivity. Qed.

Lemma createAccount_retries_on_lookup_only_witness :
  let taken := world (bank1 (ofZ 0) "active") in
  (candidate taken = "2109827926"
   /\ selectAccounts (db taken) (AccNumberEq (candidate taken)) <> []
   /\ fst (uniqueAccountNumber 3 taken) = Ok "2107987123"
   /\ drawn (snd (uniqueAccountNumber 3 taken)) = 3%nat)
  /\ fst (createAccount 5 checking alice (world raced))
     = Throw (DbException (UniqueViolation "accounts.account_number"))
  /\ drawn (snd (createAccount 5 checking alice (world raced))) = 1%nat.
Proof.
  cbv zeta. split.
  - destruct (createAccount_retries_on_lookup_only 2 savings alice
                (world (bank1 (ofZ 0) "active"))) as (Hretry & _ & _).
    assert (selectAccounts (db (world (bank1 (ofZ 0) "active")))
              (AccNumberEq (candidate (world (bank1 (ofZ 0) "active")))) <> [])
      as Htaken by (vm_compute; discriminate).
    split; [vm_compute; reflexivity|]. split; [exact Htaken|].
    rewrite (Hretry Htaken). split; vm_compute; reflexivity.
  - destruct (createAccount_retries_on_lookup_only 5 checking alice (world raced))
      as (_ & _ & Hfatal & _).
    set (w0 := logged (EvSelectAccounts
                         (AccAnd (AccUserIdEq (user_id alice))
                                 (AccTypeEq checking)) [])
                      (db (world raced)) (world raced)) in Hfatal.
    destruct (Hfatal "2109827926" (snd (uniqueAccountNumber 5 w0))
                (fst (insertAccount (db (snd (uniqueAccountNumber 5 w0)))
                        (openingOf checking alice "2109827926")))
                (UniqueViolation "accounts.account_number")) as [Hrun _].
    + vm_compute. reflexivity.
    + vm_compute. reflexivity.
    + vm_compute. reflexivity.
    + rewrite Hrun. split; vm_compute; reflexivity.
Defined.

(** ** The routing number, in the form and in the procedure *)

(** C6, as the claim states it, fails on the procedure: a funding of type
    "bank" with no routing number passes the schema of [fundAccount] and
    the deposit is made, where the form shows "Routing number is required
    for bank transfers" for the same source; a routing number that is not
    nine digits, or is all zeros, passes too. *)
Lemma fundAccount_bank_without_routing_number :
  let w := world (bank1 (ofZ 0) "active") in
  let funded (r : option string) :=
    match fst (fundAccount (fundingInput 1 "50" bank r) alice w) with
    | Ok result => newBalance result = parseFloat "50"
    | _ => False
    end in
  fs_type (fundingSource (fundingInput 1 "50" bank None)) = bank
  /\ fs_routingNumber (fundingSource (fundingInput 1 "50" bank None)) = None
  /\ funded None
  /\ funded (Some "12")
  /\ funded (Some "000000000")
  /\ fieldError (routingNumberRules bank) None
     = Some "Routing number is required for bank transfers".
Proof. cbv zeta. repeat split; vm_compute; reflexivity. Qed.

(** C6 (amended).  In the funding form, when the funding type is "bank":
    a missing routing number ([undefined] or empty) is rejected with
    "Routing number is required for bank transfers"; the field is
    accepted exactly when the value is a string of nine digits other than
    000000000, so a form the submit handler accepts carries such a
    routing number; and 000000000 is rejected with "Invalid routing
    number".  The procedure [fundAccount] does not look at the routing
    number: its result is the same whatever routing number, or none, the
    funding source has. *)
Theorem routingNumber_checked_by_the_form :
  (forall v : value,
      falsy v = true ->
      fieldError (routingNumberRules bank) v
      = Some "Routing number is required for bank transfers")
  /\ (forall v : value,
        fieldError (routingNumberRules bank) v = None <->
        exists s : string,
          v = Some s /\ String.length s = 9%nat /\ allDigits s = true
          /\ s <> "000000000")
  /\ (forall data : FundingFormData,
        fundingType data = bank -> formAccepts data = true ->
        exists s : string,
          routingNumber data = Some s /\ String.length s = 9%nat
          /\ allDigits s = true /\ s <> "000000000")
  /\ fieldError (routingNumberRules bank) (Some "000000000")
     = Some "Invalid routing number"
  /\ (forall (St : Type) (P : Persistence St) (input : FundAccountInput)
             (ctx : Ctx) (w : World St) (r : option string),
        fundAccount (withRoutingNumber r input) ctx w = fundAccount input ctx w).
Proof.
  split; [exact routingNumber_required|].
  split; [exact routingNumber_accepted|].
  split; [|split; [vm_compute; reflexivity|]].
  - intros data Hbank Hform. apply routingNumber_accepted.
    unfold formAccepts, routingNumberError in Hform. rewrite Hbank in Hform.
    destruct (fieldError amountRules (FundingModal.amount data));
      [discriminate|].
    destruct (fieldError (accountNumberRules bank) (accountNumber data));
      [discriminate|].
    destruct (fieldError (routingNumberRules bank) (routingNumber data));
      [discriminate | reflexivity].
  - intros St P input ctx w r. apply fundAccount_ignores_routingNumber.
Qed.

(* ================================================================== *)
(** * Part III. Further properties of the code                         *)
(* ================================================================== *)

(** ** Card networks by ranges *)

Import CardFacts Submit.

Lemma isDigit_In (c : ascii) : isDigit c = true -> In c digitChars.
Proof.
  unfold isDigit. cbv zeta. intro Hd.
  apply andb_true_iff in Hd as [Hlo Hhi].
  apply Nat.leb_le in Hlo. apply Nat.leb_le in Hhi.
  rewrite <- (ascii_nat_embedding c).
  assert (nat_of_ascii c = 48 \/ nat_of_ascii c = 49 \/ nat_of_ascii c = 50
          \/ nat_of_ascii c = 51 \/ nat_of_ascii c = 52 \/ nat_of_ascii c = 53
          \/ nat_of_ascii c = 54 \/ nat_of_ascii c = 55 \/ nat_of_ascii c = 56
          \/ nat_of_ascii c = 57)%nat as Hcases by lia.
  repeat (destruct Hcases as [-> | Hcases]; [simpl; tauto|]).
  rewrite Hcases. simpl. tauto.
Qed.

Lemma allDigits_stripNonDigits (s : string) : allDigits (stripNonDigits s) = true.
Proof.
  induction s as [|c s IH]; simpl; [reflexivity|].
  destruct (isDigit c) eqn:Hc; simpl; [now rewrite Hc|exact IH].
Qed.

Lemma matchesPrefix_settled4 (a b c d : ascii) (r : regex) (rest : string) :
  settled4 a b c d r = true ->
  matchesPrefix r (String a (String b (String c (String d rest))))
  = matchesPrefix4 a b c d r.
Proof.
  unfold settled4, matchesPrefix4. intro Hs.
  cbn [matchesPrefix]. fold (deriv4 a b c d r).
  apply orb_true_iff in Hs as [Hn | Hd].
  - rewrite (matchesPrefix_nullable _ rest Hn), Hn. now rewrite !orb_assoc.
  - rewrite (dead_matchesPrefix rest _ Hd), (dead_not_nullable _ Hd).
    now rewrite !orb_assoc.
Qed.

Lemma checked4_digits (a b c d : ascii) :
  isDigit a = true -> isDigit b = true -> isDigit c = true -> isDigit d = true ->
  checked4 a b c d = true.
Proof.
  intros Ha Hb Hc Hd.
  assert (allChecked4 = true) as Hall by (vm_compute; reflexivity).
  unfold allChecked4 in Hall.
  rewrite forallb_forall in Hall. specialize (Hall a (isDigit_In a Ha)).
  rewrite forallb_forall in Hall. specialize (Hall b (isDigit_In b Hb)).
  rewrite forallb_forall in Hall. specialize (Hall c (isDigit_In c Hc)).
  rewrite forallb_forall in Hall. exact (Hall d (isDigit_In d Hd)).
Qed.

Lemma sameLabel_eq (x y : option string) : sameLabel x y = true -> x = y.
Proof.
  destruct x as [s|], y as [t|]; simpl; try discriminate; try reflexivity.
  intro H. apply String.eqb_eq in H. now subst.
Qed.

(** X1.  On a card number with at least four digits (separators aside),
    [detectCardType] depends on the first four digits alone and answers by
    these ranges of the number they make: 4000-4999 Visa; 5100-5599 and
    2221-2720 Mastercard; 3400-3499 and 3700-3799 American Express; 6011,
    6220-6229, 6440-6499 and 6500-6599 Discover; 3000-3059, 3600-3699 and
    3800-3899 Diners Club; 3528-3589 JCB; no network otherwise. *)
Theorem detectCardType_by_ranges (cardNumber : string) :
  (4 <= String.length (stripNonDigits cardNumber))%nat ->
  detectCardType cardNumber
  = networkOfPrefix (digitsValue (substring 0 4 (stripNonDigits cardNumber))).
Proof.
  intro Hlen.
  pose proof (allDigits_stripNonDigits cardNumber) as Hdig.
  unfold detectCardType. cbv zeta.
  destruct (stripNonDigits cardNumber) as [|a [|b [|c [|d rest]]]];
    try (simpl in Hlen; lia).
  cbn [allDigits] in Hdig.
  apply andb_true_iff in Hdig as [Ha Hdig].
  apply andb_true_iff in Hdig as [Hb Hdig].
  apply andb_true_iff in Hdig as [Hc Hdig].
  apply andb_true_iff in Hdig as [Hd _].
  pose proof (checked4_digits a b c d Ha Hb Hc Hd) as Hchk.
  unfold checked4 in Hchk. apply andb_true_iff in Hchk as [Hset Hlab].
  cbn [forallb] in Hset.
  repeat (apply andb_true_iff in Hset as [?Hs Hset]).
  rewrite !matchesPrefix_settled4 by assumption.
  fold (detect4 a b c d).
  apply sameLabel_eq in Hlab. rewrite Hlab. f_equal.
  cbn [substring]. unfold digitsValue. cbn [digitsValueFrom]. 
  destruct rest; cbn [substring digitsValueFrom]; lia.
Qed.

Lemma detectCardType_by_ranges_witness :
  (4 <= String.length (stripNonDigits "2720-9912-3456-7890"))%nat
  /\ detectCardType "2720-9912-3456-7890" = Some "Mastercard"
  /\ detectCardType "2721-9912-3456-7890" = None.
Proof.
  split; [vm_compute; lia|]. split.
  - rewrite (detectCardType_by_ranges "2720-9912-3456-7890")
      by (vm_compute; lia).
    vm_compute. reflexivity.
  - rewrite (detectCardType_by_ranges "2721-9912-3456-7890")
      by (vm_compute; lia).
    vm_compute. reflexivity.
Defined.

(** ** What the checksum catches *)

Lemma stripNonDigits_app (s1 s2 : string) :
  stripNonDigits (s1 ++ s2) = (stripNonDigits s1 ++ stripNonDigits s2)%string.
Proof.
  induction s1 as [|c s1 IH]; simpl; [reflexivity|].
  destruct (isDigit c); simpl; now rewrite IH.
Qed.

Lemma luhnLoop_cons (c : ascii) (l : list ascii) (e : bool) :
  luhnLoop (c :: l) e 0 = luhnDigit e c + luhnLoop l (negb e) 0.
Proof. cbn [luhnLoop]. cbv zeta. rewrite luhnLoop_sum. unfold luhnDigit. cbv zeta. lia. Qed.

Lemma luhnLoop_app (l1 l2 : list ascii) :
  forall e : bool,
    luhnLoop (l1 ++ l2)%list e 0
    = luhnLoop l1 e 0 + luhnLoop l2 (xorb e (Nat.odd (List.length l1))) 0.
Proof.
  induction l1 as [|c l1 IH]; intro e.
  - simpl. now rewrite xorb_false_r.
  - rewrite <- app_comm_cons, !luhnLoop_cons, IH.
    cbn [List.length]. rewrite Nat.odd_succ, <- Nat.negb_odd.
    replace (xorb (negb e) (Nat.odd (List.length l1)))
      with (xorb e (negb (Nat.odd (List.length l1))))
      by (destruct e, (Nat.odd (List.length l1)); reflexivity).
    lia.
Qed.

Lemma digitValue_range (c : ascii) : isDigit c = true -> 0 <= digitValue c <= 9.
Proof.
  unfold isDigit, digitValue. cbv zeta. intro Hd.
  apply andb_true_iff in Hd as [Hlo Hhi].
  apply Nat.leb_le in Hlo. apply Nat.leb_le in Hhi. lia.
Qed.

Lemma digitValue_inj (x y : ascii) : digitValue x = digitValue y -> x = y.
Proof.
  unfold digitValue. intro H.
  rewrite <- (ascii_nat_embedding x), <- (ascii_nat_embedding y).
  f_equal. lia.
Qed.

Lemma luhnDigit_range (e : bool) (c : ascii) :
  isDigit c = true -> 0 <= luhnDigit e c <= 9.
Proof.
  intro Hd. apply digitValue_range in Hd. unfold luhnDigit. cbv zeta.
  destruct e; [|lia].
  destruct (digitValue c * 2 >? 9) eqn:E; rewrite Z.gtb_ltb in E.
  - apply Z.ltb_lt in E. lia.
  - apply Z.ltb_ge in E. lia.
Qed.

Lemma luhnDigit_inj (e : bool) (x y : ascii) :
  isDigit x = true -> isDigit y = true ->
  luhnDigit e x = luhnDigit e y -> x = y.
Proof.
  intros Hx Hy. apply digitValue_range in Hx. apply digitValue_range in Hy.
  unfold luhnDigit. cbv zeta. intro H. apply digitValue_inj.
  destruct e; [|exact H].
  destruct (digitValue x * 2 >? 9) eqn:Ex, (digitValue y * 2 >? 9) eqn:Ey;
    rewrite Z.gtb_ltb in Ex, Ey;
    try apply Z.ltb_lt in Ex; try apply Z.ltb_ge in Ex;
    try apply Z.ltb_lt in Ey; try apply Z.ltb_ge in Ey; lia.
Qed.

Lemma length_chars (s : string) : List.length (chars s) = String.length s.
Proof. unfold chars. induction s as [|c s IH]; simpl; [reflexivity | now rewrite IH]. Qed.

(** The checksum of a number seen as what stands before a place, the
    digit in it, and what stands after. *)
Lemma luhnSum_place (pre post : string) (x : ascii) :
  luhnSum (pre ++ String x post) =
  luhnLoop (rev (chars post)) false 0
  + luhnDigit (doubledPlace (String.length post)) x
  + luhnLoop (rev (chars pre)) (negb (doubledPlace (String.length post))) 0.
Proof.
  unfold luhnSum, doubledPlace. rewrite chars_app.
  change (chars (String x post)) with (x :: chars post).
  rewrite rev_app_distr. cbn [rev]. rewrite <- app_assoc.
  cbn [app]. rewrite luhnLoop_app, luhnLoop_cons.
  rewrite length_rev, length_chars. cbn [xorb]. lia.
Qed.

Lemma mod10_digits (s a b : Z) :
  0 <= a <= 9 -> 0 <= b <= 9 ->
  (s + a) mod 10 = 0 -> (s + b) mod 10 = 0 -> a = b.
Proof.
  intros Ha Hb H1 H2.
  apply Z.mod_divide in H1; [|lia]. apply Z.mod_divide in H2; [|lia].
  destruct H1 as [k1 H1], H2 as [k2 H2]. lia.
Qed.

Lemma validateCardNumber_sum (s : string) :
  validateCardNumber s = true ->
  String.length (stripNonDigits s) = 16%nat
  /\ luhnSum (stripNonDigits s) mod 10 = 0.
Proof.
  intro Hv. split; [now apply validateCardNumber_length|].
  unfold validateCardNumber in Hv. cbv zeta in Hv.
  destruct (negb _); [discriminate|]. now apply Z.eqb_eq.
Qed.

Lemma validateCardNumber_of_sum (s : string) :
  String.length (stripNonDigits s) = 16%nat ->
  validateCardNumber s = (luhnSum (stripNonDigits s) mod 10 =? 0).
Proof.
  intro Hlen. unfold validateCardNumber. cbv zeta. now rewrite Hlen.
Qed.

Lemma strip_place (pre post : string) (x : ascii) :
  isDigit x = true ->
  stripNonDigits (pre ++ String x post)
  = (stripNonDigits pre ++ String x (stripNonDigits post))%string.
Proof. intro Hx. rewrite stripNonDigits_app. simpl. now rewrite Hx. Qed.

(** X2.  The checksum catches every single wrong digit: in a card number
    [validateCardNumber] accepts, putting any other digit in the place of
    one digit gives a number it rejects (separators may stand anywhere). *)
Theorem validateCardNumber_single_digit_error (pre post : string) (x y : ascii) :
  isDigit x = true -> isDigit y = true -> x <> y ->
  validateCardNumber (pre ++ String x post) = true ->
  validateCardNumber (pre ++ String y post) = false.
Proof.
  intros Hx Hy Hne Hv.
  apply validateCardNumber_sum in Hv as [Hlen Hsum].
  rewrite strip_place in Hlen, Hsum by exact Hx.
  destruct (validateCardNumber (pre ++ String y post)) eqn:E; [|reflexivity].
  apply validateCardNumber_sum in E as [_ Hsum'].
  rewrite strip_place in Hsum' by exact Hy.
  rewrite luhnSum_place in Hsum, Hsum'.
  set (e := doubledPlace (String.length (stripNonDigits post))) in *.
  elim Hne. apply (luhnDigit_inj e x y Hx Hy).
  apply (mod10_digits
           (luhnLoop (rev (chars (stripNonDigits post))) false 0
            + luhnLoop (rev (chars (stripNonDigits pre))) (negb e) 0));
    [apply luhnDigit_range, Hx | apply luhnDigit_range, Hy | | ].
  - etransitivity; [|exact Hsum]. f_equal. lia.
  - etransitivity; [|exact Hsum']. f_equal. lia.
Qed.

(** Two digits next to each other, exchanged. *)
Lemma luhnSum_two_places (pre post : string) (x y : ascii) :
  luhnSum (pre ++ String x (String y post)) =
  luhnLoop (rev (chars post)) false 0
  + luhnDigit (doubledPlace (String.length post)) y
  + luhnDigit (negb (doubledPlace (String.length post))) x
  + luhnLoop (rev (chars pre)) (doubledPlace (String.length post)) 0.
Proof.
  rewrite luhnSum_place. cbn [String.length]. unfold doubledPlace.
  rewrite Nat.odd_succ, <- Nat.negb_odd, negb_involutive.
  change (chars (String y post)) with (y :: chars post).
  cbn [rev]. rewrite luhnLoop_app, luhnLoop_cons.
  rewrite length_rev, length_chars. cbn [xorb luhnLoop]. lia.
Qed.

Lemma transposition_digits (e : bool) (x y : ascii) :
  isDigit x = true -> isDigit y = true ->
  (10 | luhnDigit e x + luhnDigit (negb e) y
        - (luhnDigit e y + luhnDigit (negb e) x))
  <-> (x = y \/ (x = "0" /\ y = "9") \/ (x = "9" /\ y = "0"))%char.
Proof.
  intros Hx Hy. apply digitValue_range in Hx. apply digitValue_range in Hy.
  assert ((x = y \/ (x = "0" /\ y = "9") \/ (x = "9" /\ y = "0"))%char
          <-> (digitValue x = digitValue y
               \/ (digitValue x = 0 /\ digitValue y = 9)
               \/ (digitValue x = 9 /\ digitValue y = 0))) as ->.
  { split.
    - intros [-> | [[-> ->] | [-> ->]]]; [left; reflexivity | right; left | right; right];
        split; reflexivity.
    - intros [H | [[H1 H2] | [H1 H2]]].
      + left. now apply digitValue_inj.
      + right; left. split; apply digitValue_inj; [exact H1 | exact H2].
      + right; right. split; apply digitValue_inj; [exact H1 | exact H2]. }
  unfold luhnDigit. cbv zeta.
  destruct (digitValue x * 2 >? 9) eqn:Ex, (digitValue y * 2 >? 9) eqn:Ey;
    rewrite Z.gtb_ltb in Ex, Ey;
    try apply Z.ltb_lt in Ex; try apply Z.ltb_ge in Ex;
    try apply Z.ltb_lt in Ey; try apply Z.ltb_ge in Ey;
    destruct e; cbn [negb]; (split; [intros [k Hk]; lia | intro H; exists 0; lia]).
Qed.

(** X3.  The checksum catches the exchange of two digits next to each
    other, except for 0 and 9: in a card number [validateCardNumber]
    accepts, the number with two neighbouring digits exchanged is accepted
    exactly when the two digits are equal or are 0 and 9. *)
Theorem validateCardNumber_transposition (pre post : string) (x y : ascii) :
  isDigit x = true -> isDigit y = true ->
  validateCardNumber (pre ++ String x (String y post)) = true ->
  (validateCardNumber (pre ++ String y (String x post)) = true
   <-> (x = y \/ (x = "0" /\ y = "9") \/ (x = "9" /\ y = "0"))%char).
Proof.
  intros Hx Hy Hv.
  assert (forall a b : ascii, isDigit a = true -> isDigit b = true ->
            stripNonDigits (pre ++ String a (String b post))
            = (stripNonDigits pre ++ String a (String b (stripNonDigits post)))%string)
    as Hstrip.
  { intros a b Ha Hb. rewrite stripNonDigits_app. simpl. now rewrite Ha, Hb. }
  apply validateCardNumber_sum in Hv as [Hlen Hsum].
  rewrite Hstrip in Hlen, Hsum by assumption.
  rewrite validateCardNumber_of_sum.
  2:{ rewrite Hstrip by assumption.
      rewrite length_app_string in *. exact Hlen. }
  rewrite Hstrip by assumption. rewrite Z.eqb_eq.
  rewrite luhnSum_two_places in *.
  set (e := doubledPlace (String.length (stripNonDigits post))) in *.
  rewrite <- (transposition_digits e x y Hx Hy).
  apply Z.mod_divide in Hsum; [|lia]. destruct Hsum as [k Hk].
  rewrite Z.mod_divide by lia.
  split; intros [j Hj].
  - exists (j - k). lia.
  - exists (j + k). lia.
Qed.

Lemma validateCardNumber_single_digit_error_witness :
  validateCardNumber "4532015112830366" = true
  /\ validateCardNumber "4532015112830367" = false.
Proof.
  assert (validateCardNumber ("453201511283036" ++ String "6" "") = true) as Hv
    by (vm_compute; reflexivity).
  split; [exact Hv|].
  apply (validateCardNumber_single_digit_error
           "453201511283036" "" "6"%char "7"%char);
    [reflexivity | reflexivity | discriminate | exact Hv].
Defined.

Lemma validateCardNumber_transposition_witness :
  validateCardNumber "4532015112830366" = true
  /\ validateCardNumber "5432015112830366" = false
  /\ validateCardNumber "4111111111111509" = true
  /\ validateCardNumber "4111111111111590" = true.
Proof.
  assert (validateCardNumber ("" ++ String "4" (String "5" "32015112830366"))
          = true) as Hv by (vm_compute; reflexivity).
  assert (validateCardNumber
            ("41111111111115" ++ String "0" (String "9" "")) = true) as Hw
    by (vm_compute; reflexivity).
  split; [exact Hv|]. split; [|split; [exact Hw|]].
  - destruct (validateCardNumber "5432015112830366") eqn:E; [|reflexivity].
    apply (validateCardNumber_transposition
             "" "32015112830366" "4"%char "5"%char eq_refl eq_refl Hv) in E.
    destruct E as [E | [[E _] | [E _]]]; discriminate E.
  - apply (validateCardNumber_transposition
             "41111111111115" "" "0"%char "9"%char eq_refl eq_refl Hw).
    right. left. split; reflexivity.
Defined.

(** ** The fields of the funding form *)

Lemma matches_Star_digit (s : string) : matches (Star digit) s = allDigits s.
Proof.
  induction s as [|c s IH]; [reflexivity|].
  cbn [matches deriv digit allDigits]. unfold digit.
  cbn [deriv]. destruct (isDigit c); cbn [andb].
  - now rewrite matches_Seq_Eps.
  - now apply dead_matches.
Qed.

Lemma matches_digits1 (s : string) :
  matches (Seq digit (Star digit)) s
  = negb (String.eqb s EmptyString) && allDigits s.
Proof.
  destruct s as [|c s]; [reflexivity|].
  unfold digit at 1. cbn [matches deriv nullable allDigits String.eqb negb andb].
  destruct (isDigit c); cbn [andb].
  - rewrite matches_Seq_Eps. apply matches_Star_digit.
  - now apply dead_matches.
Qed.

Lemma cardNumber_rules_accept (v : value) :
  fieldError (accountNumberRules card) v = None <->
  exists s : string,
    v = Some s /\ String.length s = 16%nat /\ allDigits s = true
    /\ detectCardType s <> None /\ validateCardNumber s = true.
Proof.
  unfold fieldError.
  cbn [required pattern validate accountNumberRules FundingType_eqb].
  destruct v as [s|]; cbn [falsy toStr].
  - destruct s as [|c s]; [split; [discriminate | intros (s & [= <-] & Hl & _); discriminate]|].
    rewrite matches_rep_digit.
    cbn [firstVerdict]. unfold validCard. cbn [FundingType_eqb negb toStr].
    split.
    + destruct (String.length (String c s) =? 16)%nat eqn:Hlen; [|discriminate].
      destruct (allDigits (String c s)) eqn:Hd; [|discriminate].
      cbn [andb].
      destruct (detectCardType (String c s)) eqn:Hnet; [|discriminate].
      destruct (validateCardNumber (String c s)) eqn:Hv; [|discriminate].
      intros _. exists (String c s). apply Nat.eqb_eq in Hlen.
      split; [reflexivity|]. split; [exact Hlen|]. split; [exact Hd|].
      split; [|exact Hv]. rewrite Hnet. discriminate.
    + intros (s' & [= <-] & Hlen & Hd & Hnet & Hv).
      rewrite Hlen, Hd, Hv. cbn [Nat.eqb andb negb].
      destruct (detectCardType (String c s)); [reflexivity | now elim Hnet].
  - split; [discriminate | intros (s & [=] & _)].
Qed.

(** X4.  With the funding type "card", the account number input is
    accepted exactly when its value is a string of sixteen digits, without
    separators, whose network [detectCardType] recognises and whose
    checksum [validateCardNumber] accepts. *)
Theorem cardNumber_field_accepts (v : value) :
  fieldError (accountNumberRules card) v = None <->
  exists s : string,
    v = Some s /\ String.length s = 16%nat /\ allDigits s = true
    /\ detectCardType s <> None /\ validateCardNumber s = true.
Proof. exact (cardNumber_rules_accept v). Qed.

Lemma bankAccountNumber_rules_accept (v : value) :
  fieldError (accountNumberRules bank) v = None <->
  exists s : string, v = Some s /\ s <> EmptyString /\ allDigits s = true.
Proof.
  unfold fieldError.
  cbn [required pattern validate accountNumberRules FundingType_eqb].
  destruct v as [s|]; cbn [falsy toStr].
  - destruct s as [|c s]; [split; [discriminate | intros (s & [= <-] & Hl & _); now elim Hl]|].
    rewrite matches_digits1. cbn [String.eqb negb andb firstVerdict].
    unfold validCard. cbn [FundingType_eqb negb].
    split.
    + destruct (allDigits (String c s)) eqn:Hd; [|discriminate].
      intros _. exists (String c s). repeat split; [discriminate | exact Hd].
    + intros (s' & [= <-] & _ & Hd). now rewrite Hd.
  - split; [discriminate | intros (s & [=] & _)].
Qed.

(** X5.  With the funding type "bank", the account number input is
    accepted exactly when its value is a non-empty string of digits; the
    card checks are not applied. *)
Theorem bankAccountNumber_field_accepts (v : value) :
  fieldError (accountNumberRules bank) v = None <->
  exists s : string, v = Some s /\ s <> EmptyString /\ allDigits s = true.
Proof. exact (bankAccountNumber_rules_accept v). Qed.

Lemma amount_rules_accept (v : value) :
  fieldError amountRules v = None <->
  matches amountPattern (toStr v) = true
  /\ gt (parseFloat (toStr v)) (ofZ 0) = true
  /\ le (parseFloat (toStr v)) (ofZ 10000) = true.
Proof.
  unfold fieldError. cbn [required pattern validate amountRules].
  destruct (falsy v) eqn:Hf.
  - split; [discriminate|]. intros (Hp & _).
    destruct v as [[|c s]|]; try discriminate Hf; vm_compute in Hp; discriminate.
  - destruct (matches amountPattern (toStr v)) eqn:Hp.
    + cbn [firstVerdict]. unfold minAmount, maxAmount, noLeadingZeros. cbv zeta.
      rewrite (amountPattern_no_leading_zero _ Hp). cbn [negb].
      destruct (gt (parseFloat (toStr v)) (ofZ 0));
        destruct (le (parseFloat (toStr v)) (ofZ 10000));
        split; try discriminate; try tauto; intros (_ & H1 & H2); discriminate.
    + split; [discriminate | intros (H & _); discriminate].
Qed.

(** X6.  The amount input is accepted exactly when its value matches the
    amount pattern and the number [parseFloat] reads from it is greater
    than 0 and at most 10000. *)
Theorem amount_field_accepts (v : value) :
  fieldError amountRules v = None <->
  matches amountPattern (toStr v) = true
  /\ gt (parseFloat (toStr v)) (ofZ 0) = true
  /\ le (parseFloat (toStr v)) (ofZ 10000) = true.
Proof. exact (amount_rules_accept v). Qed.

(** X7.  The form never reports "Amount cannot have leading zeros": a
    value with a leading zero already fails the pattern, whose message is
    reported instead, so the [noLeadingZeros] rule never decides. *)
Theorem leadingZeros_message_never_shown (v : value) :
  fieldError amountRules v <> Some "Amount cannot have leading zeros".
Proof.
  unfold fieldError. cbn [required pattern validate amountRules].
  destruct (falsy v); [discriminate|].
  destruct (matches amountPattern (toStr v)) eqn:Hp; [|discriminate].
  cbn [firstVerdict]. unfold minAmount, maxAmount, noLeadingZeros. cbv zeta.
  rewrite (amountPattern_no_leading_zero _ Hp). cbn [negb].
  destruct (gt (parseFloat (toStr v)) (ofZ 0)); [|discriminate].
  destruct (le (parseFloat (toStr v)) (ofZ 10000)); discriminate.
Qed.

(** X8.  A form the submit handler accepts gives the procedure an input
    its schema accepts: the account number is a string, the amount read by
    [parseFloat] is positive (and at most 10000); for a card the number
    passes the checksum and has a known network, and for a bank transfer
    the routing number is a string of nine digits. *)
Theorem accepted_form_passes_schema (accountId : Z) (data : FundingFormData) :
  formAccepts data = true ->
  exists input : FundAccountInput,
    onSubmitInput accountId data = Some input
    /\ fundAccountSchema input = true
    /\ le (Router.amount input) (ofZ 10000) = true
    /\ (fundingType data = card ->
        validateCardNumber (fs_accountNumber (fundingSource input)) = true
        /\ detectCardType (fs_accountNumber (fundingSource input)) <> None)
    /\ (fundingType data = bank ->
        exists r : string,
          fs_routingNumber (fundingSource input) = Some r
          /\ String.length r = 9%nat /\ allDigits r = true).
Proof.
  intro Hform. unfold formAccepts in Hform.
  destruct (fieldError amountRules (FundingModal.amount data)) eqn:Ha;
    [discriminate|].
  destruct (fieldError (accountNumberRules (fundingType data))
                       (FundingModal.accountNumber data)) eqn:Hn;
    [discriminate|].
  destruct (routingNumberError data) eqn:Hr; [discriminate|].
  apply amount_rules_accept in Ha as (_ & Hpos & Hmax).
  assert (exists number, FundingModal.accountNumber data = Some number) as [number Hnum].
  { destruct (fundingType data).
    - apply cardNumber_rules_accept in Hn as (s & -> & _). eauto.
    - apply bankAccountNumber_rules_accept in Hn as (s & -> & _). eauto. }
  unfold onSubmitInput. rewrite Hnum. eexists. split; [reflexivity|].
  cbn [fundAccountSchema Router.amount fundingSource fs_accountNumber fs_routingNumber].
  unfold fundAccountSchema. cbn [Router.amount].
  split; [exact Hpos|]. split; [exact Hmax|]. split.
  - intro Hcard. rewrite Hcard, Hnum in Hn.
    apply cardNumber_rules_accept in Hn as (s & [= <-] & _ & _ & Hnet & Hv).
    now split.
  - intro Hbank. unfold routingNumberError in Hr. rewrite Hbank in Hr.
    apply routingNumber_accepted in Hr as (r & Hr & Hlen & Hd & _).
    exists r. now repeat split.
Qed.

Lemma accepted_form_passes_schema_witness :
  let data := {| FundingModal.amount := Some "50.00";
                 fundingType := card;
                 FundingModal.accountNumber := Some "4532015112830366";
                 routingNumber := None |} in
  formAccepts data = true
  /\ exists input : FundAccountInput,
      onSubmitInput 1 data = Some input /\ fundAccountSchema input = true.
Proof.
  cbv zeta.
  assert (formAccepts {| FundingModal.amount := Some "50.00";
                         fundingType := card;
                         FundingModal.accountNumber := Some "4532015112830366";
                         routingNumber := None |} = true) as Hform
    by (vm_compute; reflexivity).
  split; [exact Hform|].
  destruct (accepted_form_passes_schema 1 _ Hform) as (input & Hin & Hs & _).
  exists input. split; [exact Hin | exact Hs].
Defined.

(** ** The account router, further *)

Lemma length_substring0 (n : nat) (s : string) :
  String.length (substring 0 n s) = Nat.min n (String.length s).
Proof.
  revert s. induction n as [|n IH]; intros [|c s]; simpl; try reflexivity.
  now rewrite IH.
Qed.

Lemma allDigits_substring0 (n : nat) (s : string) :
  allDigits s = true -> allDigits (substring 0 n s) = true.
Proof.
  revert s. induction n as [|n IH]; intros [|c s]; simpl; try reflexivity.
  intro H. apply andb_true_iff in H as [Hc Hs]. now rewrite Hc, IH.
Qed.

Lemma zeros_string (k : nat) :
  String.length (string_of_list_ascii (repeat "0"%char k)) = k
  /\ allDigits (string_of_list_ascii (repeat "0"%char k)) = true.
Proof. induction k as [|k [IH1 IH2]]; simpl; [split; reflexivity|]. now rewrite IH1, IH2. Qed.

Lemma padEnd0_format (s : string) :
  (String.length s <= 10)%nat -> allDigits s = true ->
  String.length (padEnd0 10 s) = 10%nat /\ allDigits (padEnd0 10 s) = true.
Proof.
  intros Hlen Hd. unfold padEnd0.
  destruct (zeros_string (10 - String.length s)) as [Hz1 Hz2].
  rewrite length_app_string, allDigits_app, Hz1, Hz2, Hd. split; [lia | reflexivity].
Qed.

Lemma substring0_all (n : nat) (s : string) :
  (String.length s <= n)%nat -> substring 0 n s = s.
Proof.
  revert s. induction n as [|n IH]; intros [|c s]; simpl; intro Hlen;
    try reflexivity; try lia.
  rewrite IH by lia. reflexivity.
Qed.

Lemma get_within (i : nat) (s : string) :
  (i < String.length s)%nat -> exists c, String.get i s = Some c.
Proof.
  revert i. induction s as [|c s IH]; intros i Hlt; simpl in *; [lia|].
  destruct i as [|i]; [now exists c|]. apply IH. lia.
Qed.

Lemma get_beyond (i : nat) (s : string) :
  (String.length s <= i)%nat -> String.get i s = None.
Proof.
  revert i. induction s as [|c s IH]; intros i Hle; simpl in *.
  - reflexivity.
  - destruct i as [|i]; [lia|]. apply IH. lia.
Qed.

Lemma get_zeros (j k : nat) :
  (j < k)%nat ->
  String.get j (string_of_list_ascii (repeat "0"%char k)) = Some "0"%char.
Proof.
  revert j. induction k as [|k IH]; intros j Hlt; [lia|].
  simpl. destruct j as [|j]; [reflexivity|]. apply IH. lia.
Qed.

Lemma get_padded (i : nat) (s : string) (k : nat) :
  (i < String.length s + k)%nat ->
  String.get i (s ++ string_of_list_ascii (repeat "0"%char k))
  = Some (match String.get i s with Some c => c | None => "0"%char end).
Proof.
  intro Hlt. destruct (Nat.lt_ge_cases i (String.length s)) as [Hin | Hout].
  - rewrite <- append_correct1 by exact Hin.
    destruct (get_within i s Hin) as [c ->]. reflexivity.
  - rewrite (get_beyond i s Hout).
    replace i with (i - String.length s + String.length s)%nat at 1 by lia.
    rewrite <- append_correct2. apply get_zeros. lia.
Qed.

Lemma append_empty_r (s : string) : (s ++ EmptyString)%string = s.
Proof. induction s as [|c s IH]; simpl; [reflexivity | now rewrite IH]. Qed.

Section MoreAnyPersistence.
Context {St : Type} `{Persistence St}.

(** X9.  [generateAccountNumber] always gives a string of exactly ten
    digits, whatever the hash, and the string is made of the digits of
    the hash: it is the first ten of them when the hash has ten or more,
    and all of them followed by zeros when it has fewer; so its i-th
    character is the i-th digit of the hash, or the zero character when
    the hash has no i-th digit.  It draws one hash and does nothing else
    to the world: [db] and the log are as they were. *)
Theorem generateAccountNumber_ten_digits (w : World St) :
  let digits := stripNonDigits (hashes w (drawn w)) in
  exists n : string,
    generateAccountNumber w
    = (Ok n, {| db := db w; events := events w; hashes := hashes w;
                drawn := S (drawn w); now := now w |})
    /\ String.length n = 10%nat /\ allDigits n = true
    /\ ((10 <= String.length digits)%nat -> n = substring 0 10 digits)
    /\ ((String.length digits < 10)%nat ->
        n = (digits
             ++ string_of_list_ascii
                  (repeat "0"%char (10 - String.length digits)))%string)
    /\ (forall i : nat,
          (i < 10)%nat ->
          String.get i n
          = Some (match String.get i digits with
                  | Some c => c
                  | None => "0"%char
                  end)).
Proof.
  intro digits.
  exists (padEnd0 10 (substring 0 10 digits)).
  split; [reflexivity|].
  assert (String.length (substring 0 10 digits)
          = Nat.min 10 (String.length digits)) as Hsub
    by apply length_substring0.
  destruct (padEnd0_format (substring 0 10 digits)) as [Hlen Hd].
  { rewrite Hsub. apply Nat.le_min_l. }
  { apply allDigits_substring0, allDigits_stripNonDigits. }
  split; [exact Hlen|]. split; [exact Hd|].
  split; [|split].
  - intro Hten. unfold padEnd0. rewrite Hsub.
    rewrite Nat.min_l by exact Hten. cbn [Nat.sub repeat string_of_list_ascii].
    apply append_empty_r.
  - intro Hfew. unfold padEnd0.
    rewrite substring0_all by lia. reflexivity.
  - intros i Hi. unfold padEnd0.
    rewrite get_padded by (rewrite Hsub; lia).
    rewrite (substring_correct1 digits 0 10 i Hi).
    now rewrite Nat.add_0_r.
Qed.

Lemma candidateAt_0 (w : World St) : candidateAt w 0 = candidate w.
Proof. unfold candidateAt, candidate. now rewrite Nat.add_0_r. Qed.

Lemma uniqueAccountNumber_first_free (k : nat) :
  forall (fuel : nat) (w : World St),
    (k < fuel)%nat ->
    (forall j, (j < k)%nat ->
               selectAccounts (db w) (AccNumberEq (candidateAt w j)) <> []) ->
    selectAccounts (db w) (AccNumberEq (candidateAt w k)) = [] ->
    fst (uniqueAccountNumber fuel w) = Ok (candidateAt w k)
    /\ db (snd (uniqueAccountNumber fuel w)) = db w
    /\ drawn (snd (uniqueAccountNumber fuel w)) = (drawn w + k + 1)%nat.
Proof.
  induction k as [|k IH]; intros fuel w Hfuel Htaken Hfree.
  - destruct fuel as [|fuel]; [lia|].
    rewrite candidateAt_0 in *.
    destruct (uniqueAccountNumber_turn fuel w) as [_ Hend].
    rewrite (Hend Hfree). cbn [fst snd db drawn]. repeat split; lia.
  - destruct fuel as [|fuel]; [lia|].
    destruct (uniqueAccountNumber_turn fuel w) as [Hretry _].
    assert (selectAccounts (db w) (AccNumberEq (candidate w)) <> []) as H0.
    { rewrite <- candidateAt_0. apply Htaken. lia. }
    rewrite (Hretry H0).
    set (w' := {| db := db w;
                  events := (events w ++ [EvSelectAccounts (AccNumberEq (candidate w))
                               (selectAccounts (db w) (AccNumberEq (candidate w)))])%list;
                  hashes := hashes w; drawn := S (drawn w); now := now w |}).
    assert (forall j, candidateAt w' j = candidateAt w (S j)) as Hshift.
    { intro j. unfold candidateAt. cbn [hashes drawn w'].
      now rewrite Nat.add_succ_comm. }
    destruct (IH fuel w') as (Hok & Hdb & Hdrawn).
    + lia.
    + intros j Hj. rewrite Hshift. cbn [db w']. apply Htaken. lia.
    + rewrite Hshift. exact Hfree.
    + rewrite Hshift in Hok. rewrite Hok, Hdb, Hdrawn.
      cbn [db drawn w']. repeat split; lia.
Qed.

(** X10.  The loop of [createAccount] ends as soon as a candidate is
    free: when the next [k] candidates are in use and the one after them
    is not, and the loop may take more than [k] turns, it returns that
    candidate after drawing [k + 1] hashes, and leaves the stored state as
    it was. *)
Theorem uniqueAccountNumber_finds_free_candidate (k : nat) :
  forall (fuel : nat) (w : World St),
    (k < fuel)%nat ->
    (forall j, (j < k)%nat ->
               selectAccounts (db w) (AccNumberEq (candidateAt w j)) <> []) ->
    selectAccounts (db w) (AccNumberEq (candidateAt w k)) = [] ->
    fst (uniqueAccountNumber fuel w) = Ok (candidateAt w k)
    /\ db (snd (uniqueAccountNumber fuel w)) = db w
    /\ drawn (snd (uniqueAccountNumber fuel w)) = (drawn w + k + 1)%nat.
Proof. exact (uniqueAccountNumber_first_free k). Qed.

(** When the loop ends with a number, the lookup of that number in the
    stored state finds nothing. *)
Lemma uniqueAccountNumber_free (fuel : nat) :
  forall (w w' : World St) (n : string),
    uniqueAccountNumber fuel w = (Ok n, w') ->
    db w' = db w /\ selectAccounts (db w) (AccNumberEq n) = []
    /\ hashes w' = hashes w /\ now w' = now w.
Proof.
  induction fuel as [|fuel IH]; intros w w' n Hrun; [discriminate|].
  destruct (uniqueAccountNumber_turn fuel w) as [Hretry Hend].
  destruct (selectAccounts (db w) (AccNumberEq (candidate w))) as [|a rows] eqn:Hsel.
  - rewrite (Hend eq_refl) in Hrun. injection Hrun as <- <-.
    cbn [db hashes now]. auto.
  - rewrite Hretry in Hrun by discriminate.
    apply IH in Hrun as (Hdb & Hfree & Hh & Hn). cbn [db hashes now] in *. auto.
Qed.

Lemma createAccount_conflict_run
  (fuel : nat) (ty : AccountType) (ctx : Ctx) (w : World St)
  (a : Account.t) (rest : list Account.t) :
  let c := AccAnd (AccUserIdEq (user_id ctx)) (AccTypeEq ty) in
  selectAccounts (db w) c = a :: rest ->
  createAccount fuel ty ctx w =
  (Throw (TRPCError CONFLICT
            ("You already have a " ++ accountTypeName ty ++ " account")%string),
   {| db := db w;
      events := (events w ++ [EvSelectAccounts c (a :: rest)])%list;
      hashes := hashes w; drawn := drawn w; now := now w |}).
Proof.
  intros c Hsel. unfold createAccount. unfold bind at 1.
  rewrite dbGetAccount_run. fold c. rewrite Hsel. reflexivity.
Qed.

(** X11.  When the caller already has an account of the type asked for,
    [createAccount] raises CONFLICT with the message naming the type; it
    has drawn no hash, inserted nothing, and the only thing done with [db]
    is the lookup by user and type. *)
Theorem createAccount_conflict
  (fuel : nat) (ty : AccountType) (ctx : Ctx) (w : World St)
  (a : Account.t) (rest : list Account.t) :
  let c := AccAnd (AccUserIdEq (user_id ctx)) (AccTypeEq ty) in
  selectAccounts (db w) c = a :: rest ->
  createAccount fuel ty ctx w =
  (Throw (TRPCError CONFLICT
            ("You already have a " ++ accountTypeName ty ++ " account")%string),
   {| db := db w;
      events := (events w ++ [EvSelectAccounts c (a :: rest)])%list;
      hashes := hashes w; drawn := drawn w; now := now w |}).
Proof. exact (createAccount_conflict_run fuel ty ctx w a rest). Qed.

(** When no account with the identifier belongs to the caller,
    [getTransactions] raises NOT_FOUND and selects no transaction. *)
Lemma getTransactions_not_found (accountId : Z) (ctx : Ctx) (w : World St) :
  let c := AccAnd (AccIdEq accountId) (AccUserIdEq (user_id ctx)) in
  selectAccounts (db w) c = [] ->
  getTransactions accountId ctx w =
  (Throw (TRPCError NOT_FOUND "Account not found"),
   {| db := db w;
      events := (events w ++ [EvSelectAccounts c []])%list;
      hashes := hashes w; drawn := drawn w; now := now w |}).
Proof.
  intros c Hsel. unfold getTransactions. unfold bind at 1.
  rewrite dbGetAccount_run. fold c. rewrite Hsel. reflexivity.
Qed.

(** X12.  [fundAccount] does not undo the deposit when the update of the
    balance fails: if the insert of the transaction went through and the
    update is refused, the call raises the error of the update, and the
    stored state is the one the failed update left, reached from the state
    that already holds the deposit. *)
Theorem fundAccount_keeps_deposit_when_update_fails
  (input : FundAccountInput) (ctx : Ctx) (w : World St)
  (account : Account.t) (rest : list Account.t) (st1 st2 : St) (e : DbError) :
  let c := AccAnd (AccIdEq (accountId input)) (AccUserIdEq (user_id ctx)) in
  let sum := add (Account.balance account) (Router.amount input) in
  fundAccountSchema input = true ->
  selectAccounts (db w) c = account :: rest ->
  Account.status account = "active" ->
  insertTransaction (db w) (depositOf input (now w)) = (st1, None) ->
  updateAccountBalance st1 (AccIdEq (accountId input)) sum = (st2, Some e) ->
  fst (fundAccount input ctx w) = Throw (DbException e)
  /\ db (snd (fundAccount input ctx w)) = st2
  /\ exists pre : list Event,
      events (snd (fundAccount input ctx w)) =
      (pre ++ [EvInsertTransaction (depositOf input (now w)) None;
               EvSelectTransactions (TxAccountIdEq (accountId input))
                 DescCreatedAt (Some 1%nat)
                 (selectTransactions st1 (TxAccountIdEq (accountId input))
                                     DescCreatedAt (Some 1%nat));
               EvUpdateBalance (AccIdEq (accountId input)) sum (Some e)])%list.
Proof.
  intros c sum Hschema Hsel Hact Hins Hupd.
  assert (fundAccount input ctx w =
          (Throw (DbException e),
           {| db := st2;
              events :=
                ((events w ++ [EvSelectAccounts c (account :: rest)]) ++
                 [EvInsertTransaction (depositOf input (now w)) None;
                  EvSelectTransactions (TxAccountIdEq (accountId input))
                    DescCreatedAt (Some 1%nat)
                    (selectTransactions st1 (TxAccountIdEq (accountId input))
                                        DescCreatedAt (Some 1%nat));
                  EvUpdateBalance (AccIdEq (accountId input)) sum (Some e)])%list;
              hashes := hashes w; drawn := drawn w; now := now w |})) as Hrun.
  { unfold fundAccount. rewrite Hschema.
    unfold fundAccountHandler. cbv zeta. unfold bind at 1.
    rewrite dbGetAccount_run. fold c. rewrite Hsel. cbn [hd_error].
    rewrite Hact. rewrite String.eqb_refl. cbn [negb].
    unfold bind at 1. unfold dateNow.
    unfold bind at 1. unfold dbInsertTransaction.
    cbn [logged db now]. fold (depositOf input (now w)). rewrite Hins.
    unfold bind at 1. unfold dbSelectTransactions. cbn [logged db].
    unfold bind at 1. unfold dbUpdateBalance. cbn [logged db]. fold sum.
    rewrite Hupd. unfold logged. cbn [db events hashes drawn now].
    repeat rewrite <- app_assoc. reflexivity. }
  rewrite Hrun. cbn [fst snd db events].
  split; [reflexivity|]. split; [reflexivity|]. eexists. reflexivity.
Qed.
End MoreAnyPersistence.

(** ** The account router over tables, further *)

Lemma select_none_existsb (l : list Account.t) (n : string) :
  filter (ListDb.accountHolds (AccNumberEq n)) l = [] ->
  existsb (fun a => String.eqb (Account.accountNumber a) n) l = false.
Proof.
  induction l as [|a l IH]; [reflexivity|].
  cbn [filter existsb ListDb.accountHolds].
  destruct (String.eqb (Account.accountNumber a) n); [discriminate|].
  exact IH.
Qed.

Lemma createAccount_tables_run
  (fuel : nat) (ty : AccountType) (ctx : Ctx) (w w' : World ListDb.t)
  (r : Outcome Account.t) :
  let c := AccAnd (AccUserIdEq (user_id ctx)) (AccTypeEq ty) in
  createAccount fuel ty ctx w = (r, w') ->
  match r with
  | Ok a =>
      exists n : string,
        a = openedRow (db w) ty ctx n
        /\ selectAccounts (db w) c = []
        /\ selectAccounts (db w) (AccNumberEq n) = []
        /\ db w' =
           {| ListDb.accounts := (ListDb.accounts (db w) ++ [a])%list;
              ListDb.transactions := ListDb.transactions (db w);
              ListDb.nextAccountId := ListDb.nextAccountId (db w) + 1;
              ListDb.nextTransactionId := ListDb.nextTransactionId (db w);
              ListDb.clock := ListDb.clock (db w) |}
        /\ fst (uniqueAccountNumber fuel
                  (logged (EvSelectAccounts c []) (db w) w)) = Ok n
  | Throw e =>
      e = TRPCError CONFLICT
            ("You already have a " ++ accountTypeName ty ++ " account")%string
      /\ selectAccounts (db w) c <> [] /\ db w' = db w
  | OutOfFuel =>
      selectAccounts (db w) c = [] /\ db w' = db w
      /\ fst (uniqueAccountNumber fuel
                (logged (EvSelectAccounts c []) (db w) w)) = OutOfFuel
  end.
Proof.
  intros c Hrun. unfold createAccount in Hrun. unfold bind at 1 in Hrun.
  rewrite dbGetAccount_run in Hrun. fold c in Hrun.
  destruct (selectAccounts (db w) c) as [|a0 rows0] eqn:Hsel0;
    cbn [hd_error] in Hrun.
  - set (w0 := logged (EvSelectAccounts c []) (db w) w) in *.
    unfold bind at 1 in Hrun.
    pose proof (uniqueAccountNumber_cases fuel w0) as Hcases.
    destruct (uniqueAccountNumber fuel w0) as [[n | e |] w1] eqn:Hloop.
    + apply uniqueAccountNumber_free in Hloop as (Hdb & Hfree & _).
      change (db w0) with (db w) in Hdb, Hfree.
      unfold bind at 1 in Hrun. unfold dbInsertAccount in Hrun.
      rewrite Hdb in Hrun.
      change (insertAccount (db w) ?v) with (ListDb.insert_account (db w) v) in Hrun.
      unfold ListDb.insert_account in Hrun.
      cbn [na_accountNumber na_userId na_accountType na_balance na_status] in Hrun.
      rewrite (select_none_existsb _ _ Hfree) in Hrun.
      unfold bind in Hrun. rewrite dbGetAccount_run in Hrun.
      cbn [logged db] in Hrun.
      change (selectAccounts ?s ?q) with (ListDb.select_accounts s q) in Hrun.
      unfold ListDb.select_accounts in Hrun. cbn [ListDb.accounts] in Hrun.
      rewrite filter_app in Hrun.
      change (selectAccounts (db w) (AccNumberEq n))
        with (filter (ListDb.accountHolds (AccNumberEq n)) (ListDb.accounts (db w)))
        in Hfree.
      rewrite Hfree in Hrun.
      cbn [filter ListDb.accountHolds Account.accountNumber app] in Hrun.
      rewrite String.eqb_refl in Hrun. cbn [hd_error] in Hrun.
      unfold ret in Hrun. injection Hrun as <- <-.
      exists n. cbn [db]. fold (openedRow (db w) ty ctx n). auto.
    + contradiction.
    + destruct Hcases as [Hdb _]. injection Hrun as <- <-.
      split; [reflexivity|]. split; [exact Hdb | reflexivity].
  - unfold throw in Hrun. injection Hrun as <- <-.
    split; [reflexivity|]. split; [discriminate | reflexivity].
Qed.

(** X13.  Over tables kept as lists, [createAccount] ends in one of three
    ways: with the new account, which is the row just added to the table
    (balance 0, status "active", the caller as owner, the type asked for,
    a number no earlier row had), the transactions untouched; with
    CONFLICT, the caller having an account of that type and the tables
    unchanged; or out of fuel, the tables unchanged.  It never raises
    INTERNAL_SERVER_ERROR or a database error there. *)
Theorem createAccount_on_tables
  (fuel : nat) (ty : AccountType) (ctx : Ctx) (w : World ListDb.t) :
  let c := AccAnd (AccUserIdEq (user_id ctx)) (AccTypeEq ty) in
  match fst (createAccount fuel ty ctx w) with
  | Ok a =>
      exists n : string,
        a = openedRow (db w) ty ctx n
        /\ selectAccounts (db w) c = []
        /\ selectAccounts (db w) (AccNumberEq n) = []
        /\ ListDb.accounts (db (snd (createAccount fuel ty ctx w)))
           = (ListDb.accounts (db w) ++ [a])%list
        /\ ListDb.transactions (db (snd (createAccount fuel ty ctx w)))
           = ListDb.transactions (db w)
  | Throw e =>
      e = TRPCError CONFLICT
            ("You already have a " ++ accountTypeName ty ++ " account")%string
      /\ selectAccounts (db w) c <> []
      /\ db (snd (createAccount fuel ty ctx w)) = db w
  | OutOfFuel =>
      selectAccounts (db w) c = []
      /\ db (snd (createAccount fuel ty ctx w)) = db w
  end.
Proof.
  intro c.
  pose proof (createAccount_tables_run fuel ty ctx w) as Hrun.
  destruct (createAccount fuel ty ctx w) as [r w']. cbn [fst snd].
  specialize (Hrun w' r eq_refl). cbv zeta in Hrun. fold c in Hrun.
  destruct r as [a | e |]; [|exact Hrun | ].
  2:{ destruct Hrun as (H1 & H2 & _). now split. }
  destruct Hrun as (n & Ha & Hc & Hn & Hdb & _).
  exists n. rewrite Hdb. cbn [ListDb.accounts ListDb.transactions]. auto.
Qed.

(** X14.  After [createAccount] has returned an account, a second
    [createAccount] of the same type by the same user raises CONFLICT and
    leaves the tables as the first call left them. *)
Theorem createAccount_twice_conflict
  (fuel fuel' : nat) (ty : AccountType) (ctx : Ctx) (w : World ListDb.t)
  (a : Account.t) :
  fst (createAccount fuel ty ctx w) = Ok a ->
  fst (createAccount fuel' ty ctx (snd (createAccount fuel ty ctx w)))
  = Throw (TRPCError CONFLICT
             ("You already have a " ++ accountTypeName ty ++ " account")%string)
  /\ db (snd (createAccount fuel' ty ctx (snd (createAccount fuel ty ctx w))))
     = db (snd (createAccount fuel ty ctx w)).
Proof.
  intro Hok.
  pose proof (createAccount_tables_run fuel ty ctx w) as Hrun.
  destruct (createAccount fuel ty ctx w) as [r w']. cbn [fst snd] in *.
  specialize (Hrun w' r eq_refl). cbv zeta in Hrun. subst r.
  destruct Hrun as (n & Ha & _ & _ & Hdb & _).
  assert (exists rest,
             selectAccounts (db w')
               (AccAnd (AccUserIdEq (user_id ctx)) (AccTypeEq ty))
             = (rest ++ [a])%list) as [rest Hsel].
  { rewrite Hdb.
    change (selectAccounts ?s ?q) with (ListDb.select_accounts s q).
    unfold ListDb.select_accounts. cbn [ListDb.accounts].
    rewrite filter_app. eexists. f_equal.
    cbn [filter ListDb.accountHolds]. rewrite Ha.
    cbn [openedRow Account.userId Account.accountType].
    rewrite Z.eqb_refl. destruct ty; reflexivity. }
  destruct (rest ++ [a])%list as [|a1 rest1] eqn:Hne.
  { destruct rest; discriminate Hne. }
  rewrite (createAccount_conflict_run fuel' ty ctx w' a1 rest1 Hsel).
  split; reflexivity.
Qed.

(** X15.  With enough fuel [createAccount] returns: when the caller has
    no account of the type, the next [k] candidates are in use, the one
    after them is free and the loop may take more than [k] turns, the call
    returns the new row with that candidate as its number and adds it at
    the end of the accounts table. *)
Theorem createAccount_opens_account
  (k fuel : nat) (ty : AccountType) (ctx : Ctx) (w : World ListDb.t) :
  let c := AccAnd (AccUserIdEq (user_id ctx)) (AccTypeEq ty) in
  (k < fuel)%nat ->
  selectAccounts (db w) c = [] ->
  (forall j, (j < k)%nat ->
             selectAccounts (db w) (AccNumberEq (candidateAt w j)) <> []) ->
  selectAccounts (db w) (AccNumberEq (candidateAt w k)) = [] ->
  fst (createAccount fuel ty ctx w)
  = Ok (openedRow (db w) ty ctx (candidateAt w k))
  /\ ListDb.accounts (db (snd (createAccount fuel ty ctx w)))
     = (ListDb.accounts (db w)
        ++ [openedRow (db w) ty ctx (candidateAt w k)])%list.
Proof.
  intros c Hfuel Hnone Htaken Hfree.
  pose proof (createAccount_tables_run fuel ty ctx w) as Hrun.
  destruct (createAccount fuel ty ctx w) as [r w']. cbn [fst snd].
  specialize (Hrun w' r eq_refl). cbv zeta in Hrun. fold c in Hrun.
  set (w0 := logged (EvSelectAccounts c []) (db w) w) in *.
  destruct (uniqueAccountNumber_first_free k fuel w0 Hfuel)
    as (Hn & _); [exact Htaken | exact Hfree |].
  change (candidateAt w0 k) with (candidateAt w k) in Hn.
  destruct r as [a | e |].
  - destruct Hrun as (n & Ha & _ & _ & Hdb & Hloop).
    rewrite Hn in Hloop. injection Hloop as <-.
    rewrite Hdb, Ha. cbn [ListDb.accounts]. split; reflexivity.
  - destruct Hrun as (_ & Hne & _). now elim Hne.
  - destruct Hrun as (_ & _ & Hloop). rewrite Hn in Hloop. discriminate.
Qed.

(** The newest row goes first. *)
Lemma ordered_newest_last (l : list Transaction.t) (x : Transaction.t) :
  (forall y, In y l -> Transaction.createdAt y < Transaction.createdAt x) ->
  ListDb.ordered DescCreatedAt (l ++ [x])
  = x :: ListDb.ordered DescCreatedAt l.
Proof.
  induction l as [|y l IH]; intro Hnew; [reflexivity|].
  cbn [ListDb.ordered app fold_right] in *.
  rewrite IH by (intros z Hz; apply Hnew; now right).
  cbn [ListDb.insertDesc].
  assert (Transaction.createdAt y < Transaction.createdAt x) as Hy
    by (apply Hnew; now left).
  apply Z.leb_gt in Hy. now rewrite Hy.
Qed.

Lemma fundAccount_tables_run
  (input : FundAccountInput) (ctx : Ctx) (w : World ListDb.t)
  (account : Account.t) (rest : list Account.t) :
  let c := AccAnd (AccIdEq (accountId input)) (AccUserIdEq (user_id ctx)) in
  let sum := add (Account.balance account) (Router.amount input) in
  let row := depositRow (db w) input (now w) in
  fundAccountSchema input = true ->
  selectAccounts (db w) c = account :: rest ->
  Account.status account = "active" ->
  exists w' : World ListDb.t,
    fundAccount input ctx w =
    (Ok {| fr_transaction :=
             hd_error (ListDb.select_transactions
                         (fst (ListDb.insert_transaction
                                 (db w) (depositOf input (now w))))
                         (TxAccountIdEq (accountId input)) DescCreatedAt
                         (Some 1%nat));
           newBalance := sum |}, w')
    /\ db w' =
       {| ListDb.accounts :=
            map (fun a => if Account.id a =? accountId input
                          then ListDb.setBalance sum a else a)
                (ListDb.accounts (db w));
          ListDb.transactions := (ListDb.transactions (db w) ++ [row])%list;
          ListDb.nextAccountId := ListDb.nextAccountId (db w);
          ListDb.nextTransactionId := ListDb.nextTransactionId (db w) + 1;
          ListDb.clock := ListDb.clock (db w) |}.
Proof.
  intros c sum row Hschema Hsel Hact.
  unfold fundAccount. rewrite Hschema.
  erewrite (fundAccountHandler_ok input ctx w account rest _ _ Hsel Hact);
    [ | reflexivity | reflexivity ].
  eexists. split; [reflexivity|]. reflexivity.
Qed.

(** The account lookup after a funding finds the rows it found before,
    with the new balance. *)
Lemma fundAccount_tables_lookup
  (input : FundAccountInput) (ctx : Ctx) (w : World ListDb.t)
  (account : Account.t) (rest : list Account.t) (w' : World ListDb.t) :
  let c := AccAnd (AccIdEq (accountId input)) (AccUserIdEq (user_id ctx)) in
  let sum := add (Account.balance account) (Router.amount input) in
  selectAccounts (db w) c = account :: rest ->
  db w' =
    {| ListDb.accounts :=
         map (fun a => if Account.id a =? accountId input
                       then ListDb.setBalance sum a else a)
             (ListDb.accounts (db w));
       ListDb.transactions :=
         (ListDb.transactions (db w)
          ++ [depositRow (db w) input (now w)])%list;
       ListDb.nextAccountId := ListDb.nextAccountId (db w);
       ListDb.nextTransactionId := ListDb.nextTransactionId (db w) + 1;
       ListDb.clock := ListDb.clock (db w) |} ->
  selectAccounts (db w') c = map (ListDb.setBalance sum) (account :: rest).
Proof.
  intros c sum Hsel Hdb. rewrite Hdb.
  change (selectAccounts ?s ?q) with (ListDb.select_accounts s q) in *.
  unfold ListDb.select_accounts in *. cbn [ListDb.accounts].
  subst c.
  rewrite (select_after_update (accountId input) (user_id ctx) sum).
  now rewrite Hsel.
Qed.

(** X16.  A successful [fundAccount] adds exactly one row to the
    transactions table, the deposit of the amount with the description
    "Funding from card" or "Funding from bank" and status "completed";
    the accounts table keeps its length, and every account with another
    identifier is left as it was. *)
Theorem fundAccount_appends_one_deposit
  (input : FundAccountInput) (ctx : Ctx) (w : World ListDb.t)
  (account : Account.t) (rest : list Account.t) :
  let c := AccAnd (AccIdEq (accountId input)) (AccUserIdEq (user_id ctx)) in
  fundAccountSchema input = true ->
  selectAccounts (db w) c = account :: rest ->
  Account.status account = "active" ->
  ListDb.transactions (db (snd (fundAccount input ctx w)))
  = (ListDb.transactions (db w) ++ [depositRow (db w) input (now w)])%list
  /\ List.length (ListDb.accounts (db (snd (fundAccount input ctx w))))
     = List.length (ListDb.accounts (db w))
  /\ (forall a : Account.t,
        Account.id a <> accountId input ->
        (In a (ListDb.accounts (db (snd (fundAccount input ctx w))))
         <-> In a (ListDb.accounts (db w)))).
Proof.
  intros c Hschema Hsel Hact.
  destruct (fundAccount_tables_run input ctx w account rest Hschema Hsel Hact)
    as (w' & -> & Hdb).
  cbn [snd]. rewrite Hdb. cbn [ListDb.transactions ListDb.accounts].
  split; [reflexivity|]. split; [apply length_map|].
  intros a Hid. rewrite in_map_iff. split.
  - intros (b & Hb & Hin).
    destruct (Account.id b =? accountId input) eqn:E.
    + apply Z.eqb_eq in E. subst a. now elim Hid.
    + now subst b.
  - intro Hin. exists a. split; [|exact Hin].
    apply Z.eqb_neq in Hid. now rewrite Hid.
Qed.

(** X17.  When every earlier transaction of the account was created
    before the current time of the tables, the transaction [fundAccount]
    returns is the deposit it has just inserted. *)
Theorem fundAccount_returns_new_deposit
  (input : FundAccountInput) (ctx : Ctx) (w : World ListDb.t)
  (account : Account.t) (rest : list Account.t) :
  let c := AccAnd (AccIdEq (accountId input)) (AccUserIdEq (user_id ctx)) in
  fundAccountSchema input = true ->
  selectAccounts (db w) c = account :: rest ->
  Account.status account = "active" ->
  (forall x : Transaction.t,
      In x (ListDb.transactions (db w)) ->
      Transaction.accountId x = accountId input ->
      Transaction.createdAt x < ListDb.clock (db w)) ->
  fst (fundAccount input ctx w)
  = Ok {| fr_transaction := Some (depositRow (db w) input (now w));
          newBalance := add (Account.balance account) (Router.amount input) |}.
Proof.
  intros c Hschema Hsel Hact Hnew.
  destruct (fundAccount_tables_run input ctx w account rest Hschema Hsel Hact)
    as (w' & -> & _).
  cbn [fst]. do 2 f_equal.
  unfold ListDb.select_transactions, ListDb.insert_transaction.
  cbn [fst ListDb.transactions ListDb.limited].
  rewrite filter_app.
  cbn [filter ListDb.transactionHolds Transaction.accountId depositOf nt_accountId].
  rewrite Z.eqb_refl.
  rewrite ordered_newest_last.
  - reflexivity.
  - intros y Hy. apply filter_In in Hy as [Hin Hacc].
    cbn [Transaction.createdAt]. apply Hnew; [exact Hin|].
    now apply Z.eqb_eq in Hacc.
Qed.

(** X18.  [getTransactions] treats an account of another user like an
    account that does not exist: when no account with the identifier
    belongs to the caller, it raises NOT_FOUND, changes nothing, and the
    only thing done with [db] is the account lookup, so no transaction of
    that account is read. *)
Theorem getTransactions_hides_other_accounts
  (accountId : Z) (ctx : Ctx) (w : World ListDb.t) :
  let c := AccAnd (AccIdEq accountId) (AccUserIdEq (user_id ctx)) in
  (forall a : Account.t,
      In a (ListDb.accounts (db w)) -> Account.id a = accountId ->
      Account.userId a <> user_id ctx) ->
  fst (getTransactions accountId ctx w)
  = Throw (TRPCError NOT_FOUND "Account not found")
  /\ db (snd (getTransactions accountId ctx w)) = db w
  /\ events (snd (getTransactions accountId ctx w))
     = (events w ++ [EvSelectAccounts c []])%list.
Proof.
  intros c Hforeign.
  assert (selectAccounts (db w) c = []) as Hsel.
  { change (selectAccounts (db w) c)
      with (filter (ListDb.accountHolds c) (ListDb.accounts (db w))).
    induction (ListDb.accounts (db w)) as [|a l IH]; [reflexivity|].
    cbn [filter]. rewrite IH by (intros b Hb; apply Hforeign; now right).
    subst c. cbn [ListDb.accountHolds].
    destruct (Account.id a =? accountId) eqn:Hid; [|reflexivity].
    apply Z.eqb_eq in Hid.
    assert (Account.userId a <> user_id ctx) as Hu
      by (apply Hforeign; [now left | exact Hid]).
    apply Z.eqb_neq in Hu. now rewrite Hu. }
  rewrite (getTransactions_not_found accountId ctx w Hsel).
  repeat split.
Qed.

(** X19.  [getAccounts] returns the caller's accounts, all of them and
    no account of another user, and changes nothing. *)
Theorem getAccounts_own_accounts (ctx : Ctx) (w : World ListDb.t) :
  exists rows : list Account.t,
    fst (getAccounts ctx w) = Ok rows
    /\ (forall a : Account.t,
          In a rows <->
          In a (ListDb.accounts (db w)) /\ Account.userId a = user_id ctx)
    /\ db (snd (getAccounts ctx w)) = db w.
Proof.
  exists (ListDb.select_accounts (db w) (AccUserIdEq (user_id ctx))).
  split; [reflexivity|]. split; [|reflexivity].
  intro a. unfold ListDb.select_accounts. rewrite filter_In.
  cbn [ListDb.accountHolds]. now rewrite Z.eqb_eq.
Qed.

(** X20.  Funding then listing: after a successful [fundAccount], with
    every earlier transaction of the account older than the current time
    of the tables, [getTransactions] returns the new deposit first,
    followed by exactly the list it returned before the funding. *)
Theorem fundAccount_then_getTransactions
  (input : FundAccountInput) (ctx : Ctx) (w : World ListDb.t)
  (account : Account.t) (rest : list Account.t)
  (before : list EnrichedTransaction) :
  let c := AccAnd (AccIdEq (accountId input)) (AccUserIdEq (user_id ctx)) in
  fundAccountSchema input = true ->
  selectAccounts (db w) c = account :: rest ->
  Account.status account = "active" ->
  (forall x : Transaction.t,
      In x (ListDb.transactions (db w)) ->
      Transaction.accountId x = accountId input ->
      Transaction.createdAt x < ListDb.clock (db w)) ->
  fst (getTransactions (accountId input) ctx w) = Ok before ->
  fst (getTransactions (accountId input) ctx (snd (fundAccount input ctx w)))
  = Ok ({| transaction := depositRow (db w) input (now w);
           accountType := Account.accountType account |} :: before).
Proof.
  intros c Hschema Hsel Hact Hnew Hbefore.
  rewrite (getTransactions_run (accountId input) ctx w account rest Hsel)
    in Hbefore.
  cbn [fst] in Hbefore. injection Hbefore as <-.
  destruct (fundAccount_tables_run input ctx w account rest Hschema Hsel Hact)
    as (w' & Hrun & Hdb).
  pose proof (fundAccount_tables_lookup input ctx w account rest w' Hsel Hdb)
    as Hsel'.
  rewrite Hrun. cbn [snd]. cbn [map] in Hsel'.
  rewrite (getTransactions_run (accountId input) ctx w' _ _ Hsel').
  cbn [fst]. f_equal.
  change (selectTransactions ?s ?q ?o ?l)
    with (ListDb.select_transactions s q o l).
  unfold ListDb.select_transactions. rewrite Hdb.
  cbn [ListDb.transactions ListDb.limited].
  rewrite filter_app.
  cbn [filter ListDb.transactionHolds Transaction.accountId depositRow].
  rewrite Z.eqb_refl.
  rewrite ordered_newest_last.
  - reflexivity.
  - intros y Hy. apply filter_In in Hy as [Hin Hacc].
    cbn [Transaction.createdAt]. apply Hnew; [exact Hin|].
    now apply Z.eqb_eq in Hacc.
Qed.


(** ** Sessions *)

Import Session SessionStore.

(** X21.  A login as the tests carry it out (the user's sessions are
    filtered out, the new one is appended) leaves the user with exactly
    one session, the new one, and the sessions of every other user as they
    were. *)
Theorem login_leaves_one_session
  (sessions : list Session) (userId : Z) (newSession : Session) :
  Session.userId newSession = userId ->
  userSessions (allSessions sessions userId newSession) userId = [newSession]
  /\ forall other : Z,
       other <> userId ->
       userSessions (allSessions sessions userId newSession) other
       = userSessions sessions other.
Proof.
  intro Hnew. unfold userSessions, allSessions, remainingSessions.
  split.
  - rewrite filter_app. cbn [filter]. rewrite Hnew, Z.eqb_refl.
    rewrite <- (app_nil_l [newSession]) at 2. f_equal.
    induction sessions as [|s l IH]; [reflexivity|].
    cbn [filter]. destruct (Session.userId s =? userId) eqn:E; cbn [negb filter].
    + exact IH.
    + now rewrite E.
  - intros other Hne. rewrite filter_app. cbn [filter]. rewrite Hnew.
    assert ((userId =? other) = false) as -> by (apply Z.eqb_neq; congruence).
    rewrite app_nil_r.
    induction sessions as [|s l IH]; [reflexivity|].
    cbn [filter]. destruct (Session.userId s =? userId) eqn:E; cbn [negb filter].
    + apply Z.eqb_eq in E.
      assert ((Session.userId s =? other) = false) as ->
          by (apply Z.eqb_neq; congruence).
      exact IH.
    + destruct (Session.userId s =? other); [now rewrite IH | exact IH].
Qed.

(** X22.  A logout as the tests carry it out (the sessions with the token
    are filtered out) leaves no session with that token to be found, keeps
    every session with another token, changes nothing when done a second
    time, and changes nothing when no session had the token. *)
Theorem logout_removes_the_session
  (sessions : list Session) (tokenToDelete : string) :
  deletedSession (withoutToken sessions tokenToDelete) tokenToDelete = None
  /\ (forall s : Session,
        In s (withoutToken sessions tokenToDelete)
        <-> In s sessions /\ token s <> tokenToDelete)
  /\ withoutToken (withoutToken sessions tokenToDelete) tokenToDelete
     = withoutToken sessions tokenToDelete
  /\ (deletedSession sessions tokenToDelete = None ->
      withoutToken sessions tokenToDelete = sessions).
Proof.
  unfold deletedSession, withoutToken.
  split; [|split; [|split]].
  - induction sessions as [|s l IH]; [reflexivity|].
    cbn [filter]. destruct (String.eqb (token s) tokenToDelete) eqn:E;
      cbn [negb find]; [exact IH | now rewrite E].
  - intro s. rewrite filter_In, negb_true_iff, String.eqb_neq. tauto.
  - induction sessions as [|s l IH]; [reflexivity|].
    cbn [filter]. destruct (String.eqb (token s) tokenToDelete) eqn:E;
      cbn [negb filter]; [exact IH | now rewrite E, IH].
  - induction sessions as [|s l IH]; [reflexivity|].
    cbn [find filter]. destruct (String.eqb (token s) tokenToDelete);
      [discriminate|]. intro H. cbn [negb]. now rewrite IH.
Qed.

(** ** The further properties on the sample worlds *)

Import MoreSamples.

Lemma uniqueAccountNumber_finds_free_candidate_witness :
  let taken := world (bank1 (ofZ 0) "active") in
  fst (uniqueAccountNumber 3 taken) = Ok (candidateAt taken 2)
  /\ candidateAt taken 2 = "2107987123"
  /\ drawn (snd (uniqueAccountNumber 3 taken)) = 3%nat.
Proof.
  cbv zeta.
  destruct (uniqueAccountNumber_finds_free_candidate
              2 3 (world (bank1 (ofZ 0) "active"))) as (Hok & _ & Hdrawn).
  - lia.
  - intros j Hj. destruct j as [|[|j]]; [| | lia]; vm_compute; discriminate.
  - vm_compute. reflexivity.
  - split; [exact Hok|]. split; [vm_compute; reflexivity | exact Hdrawn].
Defined.

Lemma createAccount_conflict_witness :
  let w := world (bank1 (ofZ 0) "active") in
  fst (createAccount 5 checking alice w)
  = Throw (TRPCError CONFLICT "You already have a checking account")
  /\ drawn (snd (createAccount 5 checking alice w)) = 0%nat
  /\ db (snd (createAccount 5 checking alice w)) = db w.
Proof.
  cbv zeta.
  assert (selectAccounts (db (world (bank1 (ofZ 0) "active")))
            (AccAnd (AccUserIdEq (user_id alice)) (AccTypeEq checking))
          = [aliceChecking (ofZ 0) "active"]) as Hsel
    by (vm_compute; reflexivity).
  rewrite (createAccount_conflict 5 checking alice
             (world (bank1 (ofZ 0) "active")) _ _ Hsel).
  repeat split.
Defined.

Lemma fundAccount_keeps_deposit_when_update_fails_witness :
  let input := fundingInput 1 "50" card None in
  fst (fundAccount input alice (world refusing))
  = Throw (DbException (WriteFailed "database is locked"))
  /\ ListDb.transactions
       (RefusingDb.store (db (snd (fundAccount input alice (world refusing)))))
     = (ListDb.transactions bank2 ++ [depositRow bank2 input 1000])%list
  /\ map Account.balance
         (ListDb.accounts
            (RefusingDb.store
               (db (snd (fundAccount input alice (world refusing))))))
     = [parseFloat "175"].
Proof.
  cbv zeta.
  destruct (fundAccount_keeps_deposit_when_update_fails
              (fundingInput 1 "50" card None) alice (world refusing)
              (aliceChecking (parseFloat "175") "active") []
              (fst (RefusingDb.insert_transaction refusing
                      (depositOf (fundingInput 1 "50" card None) 1000)))
              (fst (RefusingDb.insert_transaction refusing
                      (depositOf (fundingInput 1 "50" card None) 1000)))
              (WriteFailed "database is locked"))
    as (Hthrow & Hdb & _);
    try (vm_compute; reflexivity).
  rewrite Hthrow, Hdb. repeat split.
Defined.

Lemma createAccount_twice_conflict_witness :
  let first := createAccount 1 checking alice (world ListDb.empty) in
  fst first = Ok (openedRow ListDb.empty checking alice "2109827926")
  /\ fst (createAccount 1 checking alice (snd first))
     = Throw (TRPCError CONFLICT "You already have a checking account").
Proof.
  cbv zeta.
  assert (fst (createAccount 1 checking alice (world ListDb.empty))
          = Ok (openedRow ListDb.empty checking alice "2109827926")) as Hok
    by (vm_compute; reflexivity).
  split; [exact Hok|].
  exact (proj1 (createAccount_twice_conflict 1 1 checking alice
                  (world ListDb.empty) _ Hok)).
Defined.

Lemma createAccount_opens_account_witness :
  let w := world (bank1 (ofZ 0) "active") in
  fst (createAccount 3 savings alice w)
  = Ok (openedRow (db w) savings alice (candidateAt w 2))
  /\ candidateAt w 2 = "2107987123"
  /\ List.length
       (ListDb.accounts (db (snd (createAccount 3 savings alice w)))) = 2%nat.
Proof.
  cbv zeta.
  destruct (createAccount_opens_account
              2 3 savings alice (world (bank1 (ofZ 0) "active")))
    as (Hok & Hacc).
  - lia.
  - vm_compute. reflexivity.
  - intros j Hj. destruct j as [|[|j]]; [| | lia]; vm_compute; discriminate.
  - vm_compute. reflexivity.
  - split; [exact Hok|]. split; [vm_compute; reflexivity|].
    rewrite Hacc. reflexivity.
Defined.

(** The hypotheses of a funding of 25.75 into Alice's account. *)
Lemma funding_of_bank2 :
  let input := fundingInput 1 "25.75" card None in
  fundAccountSchema input = true
  /\ selectAccounts (db (world bank2))
       (AccAnd (AccIdEq (accountId input)) (AccUserIdEq (user_id alice)))
     = [aliceChecking (parseFloat "175") "active"]
  /\ (forall x : Transaction.t,
        In x (ListDb.transactions (db (world bank2))) ->
        Transaction.accountId x = accountId input ->
        Transaction.createdAt x < ListDb.clock (db (world bank2))).
Proof.
  cbv zeta. split; [vm_compute; reflexivity|].
  split; [vm_compute; reflexivity|].
  intros x Hin _. cbn [db world bank2 ListDb.transactions ListDb.clock] in *.
  repeat (destruct Hin as [<- | Hin]; [vm_compute; reflexivity|]).
  destruct Hin.
Defined.

Lemma fundAccount_appends_one_deposit_witness :
  let input := fundingInput 1 "25.75" card None in
  List.length
    (ListDb.transactions (db (snd (fundAccount input alice (world bank2)))))
  = 5%nat.
Proof.
  cbv zeta. destruct funding_of_bank2 as (Hschema & Hsel & _).
  destruct (fundAccount_appends_one_deposit
              (fundingInput 1 "25.75" card None) alice (world bank2)
              _ _ Hschema Hsel eq_refl) as (Htx & _).
  rewrite Htx. reflexivity.
Defined.

Lemma fundAccount_returns_new_deposit_witness :
  let input := fundingInput 1 "25.75" card None in
  fst (fundAccount input alice (world bank2))
  = Ok {| fr_transaction := Some (depositRow bank2 input 1000);
          newBalance := parseFloat "200.75" |}.
Proof.
  cbv zeta. destruct funding_of_bank2 as (Hschema & Hsel & Hnew).
  rewrite (fundAccount_returns_new_deposit
             (fundingInput 1 "25.75" card None) alice (world bank2)
             _ _ Hschema Hsel eq_refl Hnew).
  vm_compute. reflexivity.
Defined.

Lemma getTransactions_hides_other_accounts_witness :
  fst (getTransactions 1 bob (world bank2))
  = Throw (TRPCError NOT_FOUND "Account not found")
  /\ fst (getTransactions 99 bob (world bank2))
     = Throw (TRPCError NOT_FOUND "Account not found").
Proof.
  split.
  - apply (getTransactions_hides_other_accounts 1 bob (world bank2)).
    intros a Hin _. cbn [db world bank2 ListDb.accounts] in Hin.
    destruct Hin as [<- | []]. discriminate.
  - apply (getTransactions_hides_other_accounts 99 bob (world bank2)).
    intros a Hin Hid. cbn [db world bank2 ListDb.accounts] in Hin.
    destruct Hin as [<- | []]. discriminate Hid.
Defined.

Lemma fundAccount_then_getTransactions_witness :
  let input := fundingInput 1 "25.75" card None in
  exists before : list EnrichedTransaction,
    fst (getTransactions 1 alice (world bank2)) = Ok before
    /\ map (fun e => Transaction.id (transaction e)) before = [3; 4; 1]
    /\ fst (getTransactions 1 alice (snd (fundAccount input alice (world bank2))))
       = Ok ({| transaction := depositRow bank2 input 1000;
                accountType := checking |} :: before).
Proof.
  cbv zeta. destruct funding_of_bank2 as (Hschema & Hsel & Hnew).
  destruct (fst (getTransactions 1 alice (world bank2))) as [before | |] eqn:Hb;
    try (vm_compute in Hb; discriminate Hb).
  exists before. split; [reflexivity|]. split.
  - vm_compute in Hb. injection Hb as <-. reflexivity.
  - exact (fundAccount_then_getTransactions
             (fundingInput 1 "25.75" card None) alice (world bank2)
             _ _ before Hschema Hsel eq_refl Hnew Hb).
Defined.

Lemma login_leaves_one_session_witness :
  SessionStore.userSessions
    (SessionStore.allSessions oldSessions 1 newSession) 1 = [newSession]
  /\ List.length (SessionStore.userSessions oldSessions 1) = 2%nat.
Proof.
  split; [|reflexivity].
  exact (proj1 (login_leaves_one_session oldSessions 1 newSession eq_refl)).
Defined.
